(** * A shallow embedding of the LinkedIn outreach pipeline

    The development follows the Python sources class by class:
    [ElementDetector] (scraping/element_detector.py), [ProfileScraper]
    (scraping/profile_scraper.py), [MessageGenerator]
    (ai/message_generator.py), [ConnectionManager]
    (automation/connection_manager.py), [SearchStrategies]
    (scraping/search_strategies.py) and [ProspectDiscoverer]
    (scraping/prospect_discoverer.py).

    Conventions of the embedding.
    - A coroutine is a function in the monad [Py S]: it reads the history of
      effects performed so far, threads the state [S] of the object it is a
      method of, and returns an [outcome] (a value or a raised exception)
      together with the effects it performed.
    - The browser, the random generator, the clock, the file system and the
      text-generation service are answered by a [world]: every answer may
      depend on the whole history, so pages may change between two calls.
    - Only exceptions of class [Exception] are modelled; an exception carries
      the text that [str(e)] would give.
    - Random draws whose value only parameterises an effect (a sleep, a scroll
      amount, a typing delay) stay symbolic in the recorded event as a [draw];
      draws that steer control flow are answered by the world.
    - [logger] calls are not modelled.  Instead every modelled method records
      [ECall] with its qualified name when it is entered.
    - Python strings are modelled as [string]s of code points below 256. *)

From Stdlib Require Import String Ascii List ZArith QArith Lia Bool Arith.
From stdpp Require Import base strings gmap list.
Import ListNotations.
Open Scope string_scope.
Open Scope list_scope.

(** ** Python string primitives *)

Module PyStr.

(** The double quote, for selectors that contain one. *)
Definition dq : string := String (ascii_of_nat 34) EmptyString.

(** [q s] is [s] between double quotes. *)
Definition q (s : string) : string := dq +:+ s +:+ dq.

(** [bool(s)] for a string. *)
Definition truthy (s : string) : bool :=
  match s with EmptyString => false | String _ _ => true end.

(** [str.isspace] on one code point below 256. *)
Definition isspace (c : ascii) : bool :=
  let n := nat_of_ascii c in
  ((9 <=? n)%nat && (n <=? 13)%nat) || ((28 <=? n)%nat && (n <=? 32)%nat)
  || (n =? 133)%nat || (n =? 160)%nat.

Fixpoint lstrip (s : string) : string :=
  match s with
  | EmptyString => EmptyString
  | String c r => if isspace c then lstrip r else s
  end.

Fixpoint rstrip (s : string) : string :=
  match s with
  | EmptyString => EmptyString
  | String c r =>
      match rstrip r with
      | EmptyString => if isspace c then EmptyString else String c EmptyString
      | r' => String c r'
      end
  end.

(** [s.strip()] *)
Definition strip (s : string) : string := rstrip (lstrip s).

(** [str.lower] on one code point below 256. *)
Definition lower_char (c : ascii) : ascii :=
  let n := nat_of_ascii c in
  if ((65 <=? n)%nat && (n <=? 90)%nat)
     || ((192 <=? n)%nat && (n <=? 214)%nat)
     || ((216 <=? n)%nat && (n <=? 222)%nat)
  then ascii_of_nat (n + 32) else c.

(** [s.lower()] *)
Fixpoint lower (s : string) : string :=
  match s with
  | EmptyString => EmptyString
  | String c r => String (lower_char c) (lower r)
  end.

(** [s.startswith(p)] *)
Fixpoint startswith (p s : string) : bool :=
  match p, s with
  | EmptyString, _ => true
  | String a p', String b s' => Ascii.eqb a b && startswith p' s'
  | String _ _, EmptyString => false
  end.

(** [needle in hay] *)
Fixpoint contains (needle hay : string) : bool :=
  startswith needle hay ||
  match hay with
  | EmptyString => false
  | String _ r => contains needle r
  end.

(** [hay.split(sep, 1)] when [sep in hay]: the text before and after the
    first occurrence of [sep]; [None] when [sep] does not occur. *)
Fixpoint split_once (sep hay : string) : option (string * string) :=
  if startswith sep hay
  then Some (EmptyString, substring (String.length sep)
                            (String.length hay - String.length sep) hay)
  else match hay with
       | EmptyString => None
       | String c r =>
           match split_once sep r with
           | Some (a, b) => Some (String c a, b)
           | None => None
           end
       end.

(** [s.split('\n')] *)
Fixpoint split_lines (s : string) : list string :=
  match s with
  | EmptyString => [EmptyString]
  | String c r =>
      if Ascii.eqb c (ascii_of_nat 10) then EmptyString :: split_lines r
      else match split_lines r with
           | [] => [String c EmptyString]
           | l :: ls => String c l :: ls
           end
  end.

(** [s.replace(c, by)] for a one-character [c] *)
Fixpoint replace_char (c : ascii) (by_ : string) (s : string) : string :=
  match s with
  | EmptyString => EmptyString
  | String a r =>
      if Ascii.eqb a c then by_ +:+ replace_char c by_ r
      else String a (replace_char c by_ r)
  end.

(** [s[:n]] *)
Definition take (n : nat) (s : string) : string := substring 0 n s.

(** [any(k in s for k in keywords)] *)
Definition any_in (keywords : list string) (s : string) : bool :=
  existsb (fun k => contains k s) keywords.

End PyStr.

(** ** Effects *)

(** A value drawn from Python's [random], kept as the call that drew it. *)
Inductive draw : Type :=
| Const (v : Q)               (* a literal *)
| Uniform (lo hi : Q)         (* random.uniform(lo, hi) *)
| RandInt (lo hi : Z).        (* random.randint(lo, hi) *)

(** A Playwright locator, as the expression that built it. *)
Inductive locator : Type :=
| Locator (selector : string)                      (* page.locator(sel) *)
| SubLocator (parent : locator) (selector : string) (* parent.locator(sel) *)
| First (l : locator)                              (* l.first *)
| Nth (l : locator) (n : nat)                      (* l.nth(n) *)
| Item (l : locator) (i : nat).                    (* (await l.all())[i] *)

Inductive event : Type :=
| ECall (method : string)
| EGoto (url : string)
| EScrollBy (amount : draw)        (* page.evaluate("window.scrollBy(0, n)") *)
| ESleep (seconds : draw)          (* asyncio.sleep *)
| ETitle                           (* page.title() *)
| EWaitForSelector (selector : string) (timeout : Z)
| EIsVisible (l : locator) (timeout : option Z)
| EInnerText (l : locator)
| EGetAttribute (l : locator) (name : string)
| EAll (l : locator)
| EClosest (l : locator)           (* l.evaluate('el => el.closest(...)') *)
| EClick (l : locator) (delay : option draw)
| EType (l : locator) (c : ascii) (delay : draw)
| EKeyPress (key : string)
| EKeyType (text : string) (delay : Z)
| EMouseMove (x y : Z)
| ERandInt (lo hi : Z)             (* a draw that steers control flow *)
| ELoadConfig                      (* ElementDetector._load_selectors_config *)
| EChat (prompt : string)          (* the chat-completion request *)
| ETemplate                        (* FallbackTemplates *)
| ETime                            (* time.time() *)
| ELoadProspects                   (* DataModel.load_prospects *)
| EWriteProspects (prospects : list (gmap string string)).

Definition history := list event.

#[global] Instance locator_eq_dec : EqDecision locator.
Proof. solve_decision. Defined.

Inductive outcome (A : Type) : Type :=
| Ok (a : A)
| Raise (msg : string).
Arguments Ok {A} a.
Arguments Raise {A} msg.

(** The content of a chat-completion response, as far as
    [generate_personalized_message] inspects it. *)
Inductive chat_response : Type :=
| NoChoices            (* response.choices is empty *)
| NoMessage            (* choices[0].message is falsy *)
| NullContent          (* choices[0].message.content is None *)
| Content (text : string).

(** [ProfileData] of scraping/profile_scraper.py.  An experience entry is
    the dict built by [_parse_experience]. *)
Record experience_entry : Type := {
  exp_title : string;
  exp_company : string;
  exp_description : string
}.

Record ProfileData : Type := {
  name : string;
  job_title : string;
  company : string;
  industry : string;
  location : string;
  summary : string;
  skills : list string;
  education : list string;
  experience : list experience_entry;
  recent_posts : list string
}.

(** The dict built by [get_profile_context] has the ten keys of
    [ProfileData]; it is modelled by the same record. *)
Definition profile_context := ProfileData.

(** A prospect is a [Dict[str, str]]. *)
Abbreviation prospect := (gmap string string).

Record world : Type := {
  page_goto : history -> string -> outcome unit;
  page_scroll : history -> outcome unit;
  page_title : history -> outcome string;
  page_wait_for_selector : history -> string -> outcome unit;
  is_visible : history -> locator -> outcome bool;
  inner_text : history -> locator -> outcome string;
  get_attribute : history -> locator -> string -> outcome (option string);
  all : history -> locator -> outcome nat;
  closest : history -> locator -> outcome bool;
  click : history -> locator -> outcome unit;
  type_char : history -> locator -> ascii -> outcome unit;
  keyboard_press : history -> string -> outcome unit;
  keyboard_type : history -> string -> outcome unit;
  mouse_move : history -> Z -> Z -> outcome unit;
  viewport_size : option (option Z * option Z);
  randint : history -> Z -> Z -> Z;
  (* json errors of the selector file; a missing file is handled inside *)
  load_selectors_config : history -> outcome unit;
  (* PromptEngineer.create_personalized_prompt: string formatting *)
  create_personalized_prompt : profile_context -> string;
  chat_completion : history -> string -> outcome chat_response;
  (* MessageGenerator.generate_fallback_message: a template drawn with
     random.choice and filled in *)
  generate_fallback_message : history -> profile_context -> string;
  time_time : history -> Q;
  stored_prospects : history -> list prospect;
  write_prospects : history -> outcome unit;
  (* re.sub of the date-range pattern of _parse_experience *)
  re_sub_dates : string -> string
}.

(** ** The monad of coroutines *)

Definition Py (S A : Type) : Type :=
  history -> S -> outcome A * S * list event.

Definition ret {S A} (a : A) : Py S A := fun _ s => (Ok a, s, []).

Definition raise {S A} (msg : string) : Py S A := fun _ s => (Raise msg, s, []).

Definition bind {S A B} (m : Py S A) (f : A -> Py S B) : Py S B :=
  fun h s =>
    match m h s with
    | (Ok a, s1, t1) =>
        match f a (h ++ t1) s1 with
        | (r, s2, t2) => (r, s2, t1 ++ t2)
        end
    | (Raise e, s1, t1) => (Raise e, s1, t1)
    end.

(** [try: m except Exception as e: handler e] *)
Definition try_ {S A} (m : Py S A) (handler : string -> Py S A) : Py S A :=
  fun h s =>
    match m h s with
    | (Ok a, s1, t1) => (Ok a, s1, t1)
    | (Raise e, s1, t1) =>
        match handler e (h ++ t1) s1 with
        | (r, s2, t2) => (r, s2, t1 ++ t2)
        end
    end.

(** Perform one effect: record it and take the world's answer, which is
    computed from the history before the effect. *)
Definition perform {S A} (e : event) (answer : history -> outcome A) : Py S A :=
  fun h s => (answer h, s, [e]).

Definition emit {S} (e : event) : Py S unit :=
  perform e (fun _ => Ok tt).

Definition get {S} : Py S S := fun _ s => (Ok s, s, []).
Definition put {S} (s : S) : Py S unit := fun _ _ => (Ok tt, s, []).
Definition modify {S} (f : S -> S) : Py S unit := fun _ s => (Ok tt, f s, []).

(** Run a method of a component stored in a field of the caller's state. *)
Definition zoom {S T A} (proj : S -> T) (upd : T -> S -> S) (m : Py T A) : Py S A :=
  fun h s =>
    match m h (proj s) with
    | (r, t', tr) => (r, upd t' s, tr)
    end.

Declare Scope py_scope.
Delimit Scope py_scope with py.
Notation "'let*' x ':=' m 'in' k" := (bind m (fun x => k))
  (at level 10, x name, m at level 100, k at level 200) : py_scope.
Open Scope py_scope.

(** [for x in xs: try: body x except: continue], where [body] answers [true]
    when it executes [break]. *)
Fixpoint for_try {S A} (xs : list A) (body : A -> Py S bool) : Py S unit :=
  match xs with
  | [] => ret tt
  | x :: rest =>
      let* broke := try_ (body x) (fun _ => ret false) in
      if broke then ret tt else for_try rest body
  end.

(** [for x in xs: try: body x except: continue] without [break]. *)
Definition for_each_try {S A} (xs : list A) (body : A -> Py S unit) : Py S unit :=
  for_try xs (fun x => let* _ := body x in ret false).

(** The locators [(await l.all())[0 .. n-1]]. *)
Definition items (l : locator) (n : nat) : list locator :=
  map (Item l) (seq 0 n).

(** ** scraping/element_detector.py *)

Module ElementDetector.
Section Methods.
Context {S : Type} (w : world).
Import PyStr.

(** [await element.is_visible(timeout=...)] *)
Definition visible (l : locator) (timeout : option Z) : Py S bool :=
  perform (EIsVisible l timeout) (fun h => is_visible w h l).

(** ElementDetector(page): the constructor reads the selector file. *)
Definition __init__ : Py S unit :=
  perform ELoadConfig (load_selectors_config w).

(** The loop shared, word for word, by [_find_by_text],
    [_find_by_attributes], [_find_by_xpath] and [_find_by_placeholder]:
    [[
      for selector in selectors:
          try:
              element = self.page.locator(selector).first
              if await element.is_visible(timeout=1000):
                  return element
          except:
              continue
      return None
    ]] *)
Fixpoint first_visible (selectors : list string) : Py S (option locator) :=
  match selectors with
  | [] => ret None
  | selector :: rest =>
      let element := First (Locator selector) in
      let* found := try_ (let* v := visible element (Some 1000%Z) in
                          ret (if v then Some element else None))
                         (fun _ => ret None) in
      match found with
      | Some e => ret (Some e)
      | None => first_visible rest
      end
  end.

Definition _find_by_text (text : string) : Py S (option locator) :=
  let* _ := emit (ECall "ElementDetector._find_by_text") in
  first_visible
    [ "button:has-text(" +:+ q text +:+ ")";
      "a:has-text(" +:+ q text +:+ ")";
      "span:has-text(" +:+ q text +:+ ")";
      "div:has-text(" +:+ q text +:+ ")" ].

Definition attribute_selectors (text : string) : list string :=
  if String.eqb text "Connect" then
    [ "button[data-test-id=" +:+ q "connect-button" +:+ "]";
      "button[aria-label*=" +:+ q "Connect" +:+ "]";
      "button[data-control-name*=" +:+ q "connect" +:+ "]";
      "button[data-action=" +:+ q "connect" +:+ "]" ]
  else if String.eqb text "Send" then
    [ "button[data-test-id=" +:+ q "send-button" +:+ "]";
      "button[aria-label*=" +:+ q "Send" +:+ "]";
      "button[data-action=" +:+ q "send" +:+ "]" ]
  else if String.eqb text "message" then
    [ "textarea[aria-label*=" +:+ q "message" +:+ "]";
      "input[aria-label*=" +:+ q "message" +:+ "]";
      "div[role=" +:+ q "textbox" +:+ "]" ]
  else [].

Definition _find_by_attributes (text : string) : Py S (option locator) :=
  let* _ := emit (ECall "ElementDetector._find_by_attributes") in
  first_visible (attribute_selectors text).

Definition xpath_selectors (text : string) : list string :=
  if String.eqb text "Connect" then
    [ "//button[contains(text(), " +:+ q text +:+ ")]";
      "//button[contains(@data-control-name, " +:+ q (lower text) +:+ ")]";
      "//button[contains(@aria-label, " +:+ q text +:+ ")]" ]
  else if String.eqb text "Send" then
    [ "//button[contains(text(), " +:+ q text +:+ ")]";
      "//button[contains(@data-test-id, " +:+ q (lower text) +:+ ")]";
      "//button[contains(@aria-label, " +:+ q text +:+ ")]" ]
  else if String.eqb text "message" then
    [ "//textarea[contains(@placeholder, " +:+ q "Add a note" +:+ ")]";
      "//input[@role=" +:+ q "textbox" +:+ "]";
      "//div[@contenteditable=" +:+ q "true" +:+ "]" ]
  else [].

Definition _find_by_xpath (text : string) : Py S (option locator) :=
  let* _ := emit (ECall "ElementDetector._find_by_xpath") in
  first_visible (xpath_selectors text).

Definition _find_by_placeholder (text : string) : Py S (option locator) :=
  let* _ := emit (ECall "ElementDetector._find_by_placeholder") in
  first_visible
    [ "textarea[placeholder*=" +:+ q "Add a note" +:+ "]";
      "textarea[placeholder*=" +:+ q "message" +:+ "]";
      "input[placeholder*=" +:+ q "message" +:+ "]";
      "input[placeholder*=" +:+ q "note" +:+ "]" ].

(** The loop of [_find_by_contenteditable]: a visible element is clicked
    and typed into before it is returned. *)
Fixpoint first_editable (selectors : list string) : Py S (option locator) :=
  match selectors with
  | [] => ret None
  | selector :: rest =>
      let element := First (Locator selector) in
      let* found :=
        try_ (let* v := visible element (Some 1000%Z) in
              if v then
                let* _ := perform (EClick element None)
                                  (fun h => click w h element) in
                let* _ := perform (EKeyType "test" 100)
                                  (fun h => keyboard_type w h "test") in
                let* _ := perform (EKeyPress "Backspace")
                                  (fun h => keyboard_press w h "Backspace") in
                ret (Some element)
              else ret None)
             (fun _ => ret None) in
      match found with
      | Some e => ret (Some e)
      | None => first_editable rest
      end
  end.

Definition _find_by_contenteditable (text : string) : Py S (option locator) :=
  let* _ := emit (ECall "ElementDetector._find_by_contenteditable") in
  first_editable
    [ "div[contenteditable=" +:+ q "true" +:+ "]";
      "div[contenteditable=" +:+ q "plaintext-only" +:+ "]";
      "[contenteditable=" +:+ q "true" +:+ "]" ].

(** [for button in buttons: if 'Connect' in await button.inner_text():
    return button] *)
Fixpoint first_with_connect_text (buttons : list locator) : Py S (option locator) :=
  match buttons with
  | [] => ret None
  | button :: rest =>
      let* button_text := perform (EInnerText button)
                                  (fun h => inner_text w h button) in
      if contains "Connect" button_text then ret (Some button)
      else first_with_connect_text rest
  end.

Definition _find_by_visual_pattern (text : string) : Py S (option locator) :=
  let* _ := emit (ECall "ElementDetector._find_by_visual_pattern") in
  if String.eqb text "Connect" then
    let profile_header := First (Locator "h1, h2") in
    try_ (let* v := visible profile_header None in
          if v then
            let* container := perform (EClosest profile_header)
                                      (fun h => closest w h profile_header) in
            if container then
              let* n := perform (EAll (Locator "button"))
                                (fun h => all w h (Locator "button")) in
              first_with_connect_text (items (Locator "button") n)
            else ret None
          else ret None)
         (fun _ => ret None)
  else ret None.

(** The loop shared by [find_connect_button], [find_message_input] and
    [find_send_button]:
    [[
      for strategy in strategies:
          try:
              button = await strategy(text)
              if button and await button.is_visible():
                  return button
          except Exception as e:
              continue
      return None
    ]]
    [attempt] is one iteration; it answers the button that the iteration
    returns, if any. *)
Definition attempt (strategy : string -> Py S (option locator)) (text : string)
  : Py S (option locator) :=
  try_ (let* button := strategy text in
        match button with
        | Some b =>
            let* v := visible b None in
            ret (if v then Some b else None)
        | None => ret None
        end)
       (fun _ => ret None).

Fixpoint resolve (strategies : list (string -> Py S (option locator)))
         (text : string) : Py S (option locator) :=
  match strategies with
  | [] => ret None
  | strategy :: rest =>
      let* found := attempt strategy text in
      match found with
      | Some b => ret (Some b)
      | None => resolve rest text
      end
  end.

Definition find_connect_button : Py S (option locator) :=
  let* _ := emit (ECall "ElementDetector.find_connect_button") in
  resolve [ _find_by_text; _find_by_attributes; _find_by_xpath;
            _find_by_visual_pattern ] "Connect".

Definition find_message_input : Py S (option locator) :=
  let* _ := emit (ECall "ElementDetector.find_message_input") in
  resolve [ _find_by_placeholder; _find_by_attributes; _find_by_xpath;
            _find_by_contenteditable ] "message".

Definition find_send_button : Py S (option locator) :=
  let* _ := emit (ECall "ElementDetector.find_send_button") in
  resolve [ _find_by_text; _find_by_attributes; _find_by_xpath ] "Send".

(** [delay / 1000] for [delay = base_delay * (backoff_factor ** attempt)] *)
Definition retry_delay (base_delay backoff_factor : Z) (attempt : nat) : Q :=
  (inject_Z (base_delay * backoff_factor ^ Z.of_nat attempt) / 1000)%Q.

(** [for attempt in range(max_retries)] of [wait_for_element_with_retry],
    with [remaining] iterations left; [wait_for] is
    [locator.wait_for(timeout=timeout)], the method of the locator handed
    in. *)
Fixpoint wait_loop (wait_for : Py S unit) (max_retries base_delay backoff_factor : Z)
         (attempt remaining : nat) : Py S bool :=
  match remaining with
  | O => ret false
  | Datatypes.S n =>
      try_ (let* _ := wait_for in ret true)
           (fun _ =>
              if (Z.of_nat attempt =? max_retries - 1)%Z then ret false
              else
                let* _ := emit (ESleep (Const (retry_delay base_delay
                                                 backoff_factor attempt))) in
                wait_loop wait_for max_retries base_delay backoff_factor
                          (Datatypes.S attempt) n)
  end.

(** The three keys of [retry_config] are optional, as is [retry_config]
    itself: [max_retries], [base_delay], [backoff_factor], integers. *)
Definition wait_for_element_with_retry
    (retry_config : option Z * option Z * option Z)
    (locator_wait_for : Z -> Py S unit) (timeout : Z) : Py S bool :=
  let* _ := emit (ECall "ElementDetector.wait_for_element_with_retry") in
  let max_retries := default 3%Z retry_config.1.1 in
  let base_delay := default 1000%Z retry_config.1.2 in
  let backoff_factor := default 2%Z retry_config.2 in
  wait_loop (locator_wait_for timeout) max_retries base_delay backoff_factor
            0 (Z.to_nat max_retries).

Definition profile_page_indicators : list string :=
  [ "h1[data-test-id=" +:+ q "profile-name" +:+ "]";
    "h2[data-test-id=" +:+ q "profile-name" +:+ "]";
    "[data-test-id=" +:+ q "profile-name" +:+ "]";
    "button:has-text(" +:+ q "Connect" +:+ ")" ].

Definition feed_page_indicators : list string :=
  [ "[data-test-id=" +:+ q "feed" +:+ "]";
    "[data-test-id=" +:+ q "feed-content" +:+ "]";
    "button:has-text(" +:+ q "Post" +:+ ")" ].

Definition search_page_indicators : list string :=
  [ "[data-test-id=" +:+ q "search-results" +:+ "]";
    "[data-test-id=" +:+ q "search-filters" +:+ "]";
    "input[placeholder*=" +:+ q "Search" +:+ "]" ].

(** [for indicator in indicators: if await
    self.page.locator(indicator).is_visible(timeout=1000): return ...];
    answers whether the loop returned. *)
Fixpoint indicator_visible (indicators : list string) : Py S bool :=
  match indicators with
  | [] => ret false
  | indicator :: rest =>
      let* v := visible (Locator indicator) (Some 1000%Z) in
      if v then ret true else indicator_visible rest
  end.

Definition detect_page_type : Py S string :=
  let* _ := emit (ECall "ElementDetector.detect_page_type") in
  try_ (let* profile := indicator_visible profile_page_indicators in
        if profile then ret "profile"
        else
          let* feed := indicator_visible feed_page_indicators in
          if feed then ret "feed"
          else
            let* search := indicator_visible search_page_indicators in
            if search then ret "search" else ret "unknown")
       (fun _ => ret "unknown").

End Methods.
End ElementDetector.

(** ** scraping/profile_scraper.py *)

Module ProfileScraper.
Section Methods.
Variable w : world.
Import PyStr.

Definition set_name (v : string) (d : ProfileData) : ProfileData :=
  {| name := v; job_title := job_title d; company := company d;
     industry := industry d; location := location d; summary := summary d;
     skills := skills d; education := education d;
     experience := experience d; recent_posts := recent_posts d |}.

Definition set_job (t c : string) (d : ProfileData) : ProfileData :=
  {| name := name d; job_title := t; company := c;
     industry := industry d; location := location d; summary := summary d;
     skills := skills d; education := education d;
     experience := experience d; recent_posts := recent_posts d |}.

Definition set_location (v : string) (d : ProfileData) : ProfileData :=
  {| name := name d; job_title := job_title d; company := company d;
     industry := industry d; location := v; summary := summary d;
     skills := skills d; education := education d;
     experience := experience d; recent_posts := recent_posts d |}.

Definition set_summary (v : string) (d : ProfileData) : ProfileData :=
  {| name := name d; job_title := job_title d; company := company d;
     industry := industry d; location := location d; summary := v;
     skills := skills d; education := education d;
     experience := experience d; recent_posts := recent_posts d |}.

Definition append_skill (v : string) (d : ProfileData) : ProfileData :=
  {| name := name d; job_title := job_title d; company := company d;
     industry := industry d; location := location d; summary := summary d;
     skills := skills d ++ [v]; education := education d;
     experience := experience d; recent_posts := recent_posts d |}.

Definition append_education (v : string) (d : ProfileData) : ProfileData :=
  {| name := name d; job_title := job_title d; company := company d;
     industry := industry d; location := location d; summary := summary d;
     skills := skills d; education := education d ++ [v];
     experience := experience d; recent_posts := recent_posts d |}.

Definition append_experience (v : experience_entry) (d : ProfileData) : ProfileData :=
  {| name := name d; job_title := job_title d; company := company d;
     industry := industry d; location := location d; summary := summary d;
     skills := skills d; education := education d;
     experience := experience d ++ [v]; recent_posts := recent_posts d |}.

Definition append_post (v : string) (d : ProfileData) : ProfileData :=
  {| name := name d; job_title := job_title d; company := company d;
     industry := industry d; location := location d; summary := summary d;
     skills := skills d; education := education d;
     experience := experience d; recent_posts := recent_posts d ++ [v] |}.

(** ProfileData() *)
Definition empty_profile : ProfileData :=
  {| name := ""; job_title := ""; company := ""; industry := "";
     location := ""; summary := ""; skills := []; education := [];
     experience := []; recent_posts := [] |}.

Definition visible (l : locator) : Py ProfileData bool :=
  perform (EIsVisible l None) (fun h => is_visible w h l).

Definition text_of (l : locator) : Py ProfileData string :=
  perform (EInnerText l) (fun h => inner_text w h l).

Definition all_of (l : locator) : Py ProfileData (list locator) :=
  let* n := perform (EAll l) (fun h => all w h l) in
  ret (items l n).

Definition name_selectors : list string :=
  [ "h1[data-test-id=" +:+ q "profile-name" +:+ "]";
    "h2[data-test-id=" +:+ q "profile-name" +:+ "]";
    "[data-test-id=" +:+ q "profile-name" +:+ "]";
    "h1 span"; "h2 span"; "h1"; "h2" ].

Definition job_selectors : list string :=
  [ "[data-test-id=" +:+ q "job-title" +:+ "]";
    "[data-field=" +:+ q "job-title" +:+ "]";
    "[data-test-id=" +:+ q "headline" +:+ "]";
    "h2:has-text(" +:+ q " at " +:+ ")";
    "h3:has-text(" +:+ q " at " +:+ ")";
    "span:has-text(" +:+ q " at " +:+ ")";
    "div:has-text(" +:+ q " at " +:+ ")" ].

Definition location_selectors : list string :=
  [ "[data-test-id=" +:+ q "location" +:+ "]";
    "[data-field=" +:+ q "location" +:+ "]";
    "span:has-text(" +:+ q "," +:+ ")";
    "div:has-text(" +:+ q "," +:+ ")" ].

(** The four selectors of a section named [key] with heading [heading]. *)
Definition section_selectors (key heading : string) : list string :=
  [ "[data-test-id=" +:+ q key +:+ "]";
    "[data-field=" +:+ q key +:+ "]";
    "section:has-text(" +:+ q heading +:+ ")";
    "div:has-text(" +:+ q heading +:+ ")" ].

Definition _extract_basic_info : Py ProfileData unit :=
  let* _ := emit (ECall "ProfileScraper._extract_basic_info") in
  let* _ :=
    for_try name_selectors (fun selector =>
      let name_element := First (Locator selector) in
      let* v := visible name_element in
      if v then
        let* n := text_of name_element in
        if truthy n && (1 <? String.length (strip n))%nat then
          let* _ := modify (set_name (strip n)) in ret true
        else ret false
      else ret false) in
  let* _ :=
    for_try job_selectors (fun selector =>
      let job_element := First (Locator selector) in
      let* v := visible job_element in
      if v then
        let* job_text := text_of job_element in
        if truthy job_text && contains " at " job_text then
          match split_once " at " job_text with
          | Some (a, b) =>
              let* _ := modify (set_job (strip a) (strip b)) in ret true
          | None => ret false
          end
        else ret false
      else ret false) in
  for_try location_selectors (fun selector =>
    let location_element := First (Locator selector) in
    let* v := visible location_element in
    if v then
      let* loc := text_of location_element in
      if truthy loc && contains "," loc then
        let* _ := modify (set_location (strip loc)) in ret true
      else ret false
    else ret false).

Definition _parse_experience (exp_text : string) : option experience_entry :=
  match split_lines exp_text with
  | l0 :: l1 :: _ =>
      let title := re_sub_dates w (strip l0) in
      let company := re_sub_dates w (strip l1) in
      if truthy title && truthy company then
        Some {| exp_title := title; exp_company := company;
                exp_description := take 200 exp_text |}
      else None
  | _ => None
  end.

Definition _extract_professional_info : Py ProfileData unit :=
  let* _ := emit (ECall "ProfileScraper._extract_professional_info") in
  let* _ :=
    for_try (section_selectors "summary" "About") (fun selector =>
      let summary_element := First (Locator selector) in
      let* v := visible summary_element in
      if v then
        let* s := text_of summary_element in
        if truthy s && (50 <? String.length s)%nat then
          let* _ := modify (set_summary (strip s)) in ret true
        else ret false
      else ret false) in
  let* _ :=
    for_try (section_selectors "skills" "Skills") (fun selector =>
      let skills_section := First (Locator selector) in
      let* v := visible skills_section in
      if v then
        let* skill_items := all_of (SubLocator skills_section "span, div, li") in
        let* _ :=
          for_each_try skill_items (fun item =>
            let* skill_text := text_of item in
            let* d := get in
            if truthy skill_text && (2 <? String.length skill_text)%nat
               && negb (existsb (String.eqb skill_text) (skills d))
            then modify (append_skill (strip skill_text))
            else ret tt) in
        let* d := get in
        ret (match skills d with [] => false | _ => true end)
      else ret false) in
  for_try (section_selectors "experience" "Experience") (fun selector =>
    let experience_section := First (Locator selector) in
    let* v := visible experience_section in
    if v then
      let* exp_items :=
        all_of (SubLocator experience_section
                  ("li, div[data-test-id=" +:+ q "experience-item" +:+ "]")) in
      let* _ :=
        for_each_try (firstn 3 exp_items) (fun item =>
          let* exp_text := text_of item in
          if truthy exp_text && (20 <? String.length exp_text)%nat then
            match _parse_experience exp_text with
            | Some exp_data => modify (append_experience exp_data)
            | None => ret tt
            end
          else ret tt) in
      let* d := get in
      ret (match experience d with [] => false | _ => true end)
    else ret false).

(** The bullet of the two text selectors (U+2022 in the source) is written
    with the code 149. *)
Definition post_selectors : list string :=
  [ "[data-test-id=" +:+ q "post" +:+ "]";
    "[data-field=" +:+ q "post" +:+ "]";
    "article:has-text(" +:+ q (String (ascii_of_nat 149) "") +:+ ")";
    "div:has-text(" +:+ q (String (ascii_of_nat 149) "") +:+ ")" ].

Definition _extract_additional_info : Py ProfileData unit :=
  let* _ := emit (ECall "ProfileScraper._extract_additional_info") in
  let* _ :=
    for_try (section_selectors "education" "Education") (fun selector =>
      let education_section := First (Locator selector) in
      let* v := visible education_section in
      if v then
        let* edu_items :=
          all_of (SubLocator education_section
                    ("li, div[data-test-id=" +:+ q "education-item" +:+ "]")) in
        let* _ :=
          for_each_try (firstn 2 edu_items) (fun item =>
            let* edu_text := text_of item in
            if truthy edu_text && (10 <? String.length edu_text)%nat
            then modify (append_education (strip edu_text))
            else ret tt) in
        let* d := get in
        ret (match education d with [] => false | _ => true end)
      else ret false) in
  try_
    (for_try post_selectors (fun selector =>
       let* posts := all_of (Locator selector) in
       let* _ :=
         for_each_try (firstn 3 posts) (fun post =>
           let* post_text := text_of post in
           if truthy post_text && (30 <? String.length post_text)%nat
           then modify (append_post (strip post_text))
           else ret tt) in
       let* d := get in
       ret (match recent_posts d with [] => false | _ => true end)))
    (fun _ => ret tt).

(** [self.detector.simulate_human_behavior]: the class [ElementDetector]
    defines [find_connect_button], [find_message_input],
    [find_send_button], the [_find_by_*] strategies,
    [wait_for_element_with_retry] and [detect_page_type], and no attribute
    of this name; evaluating the attribute raises [AttributeError] before
    any call is made. *)
Definition detector_simulate_human_behavior (action : string) : Py ProfileData unit :=
  raise "'ElementDetector' object has no attribute 'simulate_human_behavior'".

Definition extract_profile_data (profile_url : string) : Py ProfileData ProfileData :=
  let* _ := emit (ECall "ProfileScraper.extract_profile_data") in
  try_ (let* _ := perform (EGoto profile_url)
                          (fun h => page_goto w h profile_url) in
        let* _ := detector_simulate_human_behavior "scroll" in
        let* _ := _extract_basic_info in
        let* _ := _extract_professional_info in
        let* _ := _extract_additional_info in
        get)
       (fun _ => get).

(** The score computed by [validate_profile_data]. *)
Definition context_score (d : ProfileData) : nat :=
  (if truthy (summary d) then 2 else 0)
  + (match skills d with [] => 0 | _ => 1 end)
  + (match experience d with [] => 0 | _ => 2 end)
  + (match education d with [] => 0 | _ => 1 end)
  + (match recent_posts d with [] => 0 | _ => 2 end).

(** [missing_fields] of [validate_profile_data]. *)
Definition missing_fields (d : ProfileData) : list string :=
  (if truthy (name d) then [] else ["name"])
  ++ (if truthy (job_title d) then [] else ["job_title"])
  ++ (if truthy (company d) then [] else ["company"]).

Definition validate_profile_data : Py ProfileData bool :=
  let* _ := emit (ECall "ProfileScraper.validate_profile_data") in
  let* d := get in
  match missing_fields d with
  | _ :: _ => ret false
  | [] => if (3 <=? context_score d)%nat then ret true else ret false
  end.

Definition get_profile_context : Py ProfileData profile_context :=
  let* _ := emit (ECall "ProfileScraper.get_profile_context") in
  let* d := get in
  ret {| name := name d; job_title := job_title d; company := company d;
         industry := industry d; location := location d;
         summary := if truthy (summary d) then take 500 (summary d) else "";
         skills := firstn 5 (skills d);
         experience := firstn 2 (experience d);
         education := firstn 2 (education d);
         recent_posts := firstn 2 (recent_posts d) |}.

End Methods.
End ProfileScraper.

(** ** ai/message_generator.py *)

Module MessageGenerator.

(** [GeneratedMessage], without the bookkeeping fields (temperature,
    tokens_used, generation_time). *)
Record GeneratedMessage : Type := {
  message : string;
  prompt_used : string;
  model : string;
  fallback_used : bool
}.

Section Methods.
Context {S : Type} (w : world).
Import PyStr.

Definition generate_personalized_message (ctx : profile_context)
  : Py S GeneratedMessage :=
  let* _ := emit (ECall "MessageGenerator.generate_personalized_message") in
  try_ (let prompt := create_personalized_prompt w ctx in
        let* response := perform (EChat prompt)
                                 (fun h => chat_completion w h prompt) in
        match response with
        | NoChoices => raise "Empty response choices"
        | NoMessage => raise "Missing message in response"
        | NullContent => raise "Null content in message"
        | Content text =>
            ret {| message := strip text; prompt_used := prompt;
                   model := "llama-3.1-8b-instant"; fallback_used := false |}
        end)
       (fun _ =>
          let* fallback_message :=
            perform ETemplate
                    (fun h => Ok (generate_fallback_message w h ctx)) in
          ret {| message := fallback_message; prompt_used := "";
                 model := "fallback"; fallback_used := true |}).

End Methods.
End MessageGenerator.

(** ** automation/connection_manager.py *)

Module ConnectionManager.
Import MessageGenerator.

(** The objects reachable from a [ConnectionManager]: the [ProfileData] of
    its [profile_scraper], and whether [self.detector] has been set. *)
Record state : Type := {
  profile_data : ProfileData;
  detector : bool
}.

(** The dict returned by [send_connection_request]. *)
Record result : Type := {
  success : bool;
  profile_url : string;
  message_sent : string;
  error : string;
  retry_count : nat;
  time_taken : Q
}.

Section Methods.
Variable w : world.
Import PyStr.

Definition scraper {A} (m : Py ProfileData A) : Py state A :=
  zoom profile_data
       (fun d s => {| profile_data := d; detector := detector s |}) m.

Definition set_detector : Py state unit :=
  modify (fun s => {| profile_data := profile_data s; detector := true |}).

Definition _simulate_human_behavior (action : string) : Py state unit :=
  let* _ := emit (ECall "ConnectionManager._simulate_human_behavior") in
  if String.eqb action "scroll" then
    let* _ := perform (EScrollBy (RandInt 200 800)) (page_scroll w) in
    emit (ESleep (Uniform 1 3))
  else if String.eqb action "typing" then
    emit (ESleep (Uniform 0.05 0.2))
  else
    emit (ESleep (Uniform 2 5)).

(** [for attempt in range(n)] of [_find_connect_button]. *)
Fixpoint find_connect_button_loop (n : nat) : Py state (option locator) :=
  match n with
  | O => ret None
  | Datatypes.S n' =>
      let* found :=
        try_ (let* connect_button := ElementDetector.find_connect_button w in
              match connect_button with
              | Some b =>
                  let* v := ElementDetector.visible w b None in
                  ret (if v then Some b else None)
              | None => ret None
              end)
             (fun _ => ret None) in
      match found with
      | Some b => ret (Some b)
      | None =>
          let* _ := emit (ESleep (Uniform 1 3)) in
          find_connect_button_loop n'
      end
  end.

Definition _find_connect_button : Py state (option locator) :=
  let* _ := emit (ECall "ConnectionManager._find_connect_button") in
  let* _ := ElementDetector.__init__ w in
  let* _ := set_detector in
  find_connect_button_loop 3.

(** [for char in message: await message_input.type(char, delay=...)] *)
Fixpoint type_message (message_input : locator) (message : string) : Py state unit :=
  match message with
  | EmptyString => ret tt
  | String c rest =>
      let* _ := perform (EType message_input c (Uniform 50 150))
                        (fun h => type_char w h message_input c) in
      type_message message_input rest
  end.

Definition _handle_connection_modal (message : string) : Py state bool :=
  let* _ := emit (ECall "ConnectionManager._handle_connection_modal") in
  let modal := "div[aria-label=" +:+ q "Send now" +:+ "]" in
  try_ (let* _ := perform (EWaitForSelector modal 5000)
                          (fun h => page_wait_for_selector w h modal) in
        let* s := get in
        if negb (detector s)
        then raise "'NoneType' object has no attribute 'find_message_input'"
        else
        let* message_input := ElementDetector.find_message_input w in
        match message_input with
        | None => ret false
        | Some input =>
            let* _ := perform (EClick input None) (fun h => click w h input) in
            let* _ := perform (EKeyPress "Control+A")
                              (fun h => keyboard_press w h "Control+A") in
            let* _ := perform (EKeyPress "Delete")
                              (fun h => keyboard_press w h "Delete") in
            let* _ := type_message input message in
            let* send_button := ElementDetector.find_send_button w in
            match send_button with
            | Some b =>
                let* _ := perform (EClick b None) (fun h => click w h b) in
                let* _ := _simulate_human_behavior "typing" in
                ret true
            | None => ret false
            end
        end)
       (fun _ => ret false).

Definition initial_result (url : string) : result :=
  {| success := false; profile_url := url; message_sent := "";
     error := ""; retry_count := 0; time_taken := 0 |}.

Definition with_error (e : string) (r : result) : result :=
  {| success := success r; profile_url := profile_url r;
     message_sent := message_sent r; error := e;
     retry_count := retry_count r; time_taken := time_taken r |}.

Definition with_success (msg : string) (t : Q) (r : result) : result :=
  {| success := true; profile_url := profile_url r;
     message_sent := msg; error := error r;
     retry_count := retry_count r; time_taken := t |}.

Definition send_connection_request (url : string) (prospect_data : prospect)
  : Py state result :=
  let* _ := emit (ECall "ConnectionManager.send_connection_request") in
  let result := initial_result url in
  let* start_time := perform ETime (fun h => Ok (time_time w h)) in
  try_
    (let* _ := perform (EGoto url) (fun h => page_goto w h url) in
     let* _ := _simulate_human_behavior "scroll" in
     let* _ := scraper (ProfileScraper.extract_profile_data w url) in
     let* valid := scraper ProfileScraper.validate_profile_data in
     if negb valid then
       ret (with_error "Insufficient profile data for personalization" result)
     else
       let* ctx := scraper ProfileScraper.get_profile_context in
       let* generated_message := generate_personalized_message w ctx in
       let* connect_button := _find_connect_button in
       match connect_button with
       | None => ret (with_error "Could not find Connect button" result)
       | Some b =>
           let* _ := perform (EClick b None) (fun h => click w h b) in
           let* _ := _simulate_human_behavior "typing" in
           let* sent := _handle_connection_modal (message generated_message) in
           if sent then
             let* now := perform ETime (fun h => Ok (time_time w h)) in
             ret (with_success (message generated_message)
                               (now - start_time)%Q result)
           else
             ret (with_error "Failed to send message in connection modal"
                             result)
       end)
    (fun e => ret (with_error e result)).

(** [prospects[:stop]] *)
Definition slice_to {A} (stop : Z) (l : list A) : list A :=
  if (0 <=? stop)%Z then firstn (Z.to_nat stop) l
  else firstn (length l - Z.to_nat (- stop)) l.

(** [for i, prospect in enumerate(...)] of [send_bulk_requests], with the
    loop variables [i], [successful_requests] and [results]. *)
Fixpoint bulk_loop (max_requests : Z) (prospects : list prospect)
         (i : nat) (successful_requests : Z) (results : list result)
  : Py state (list result) :=
  match prospects with
  | [] => ret results
  | p :: rest =>
      if (max_requests <=? successful_requests)%Z then ret results
      else
        let* _ := if (0 <? i)%nat then emit (ESleep (Uniform 30 120))
                  else ret tt in
        match p !! "linkedin_url" with
        | None => raise "'linkedin_url'"
        | Some url =>
            let* r := send_connection_request url p in
            bulk_loop max_requests rest (Datatypes.S i)
                      (if success r then successful_requests + 1
                       else successful_requests)%Z
                      (results ++ [r])
        end
  end.

Definition send_bulk_requests (prospects : list prospect) (max_requests : Z)
  : Py state (list result) :=
  let* _ := emit (ECall "ConnectionManager.send_bulk_requests") in
  bulk_loop max_requests (slice_to max_requests prospects) 0 0 [].





Definition rate_limit_indicators : list string :=
  [ "rate limit"; "too many requests"; "temporarily blocked";
    "unusual activity"; "verify your identity" ].

Definition handle_rate_limiting (error_message : string) : Py state bool :=
  let* _ := emit (ECall "ConnectionManager.handle_rate_limiting") in
  if any_in rate_limit_indicators (lower error_message) then
    let* _ := emit (ESleep (RandInt 300 900)) in
    ret true
  else ret false.

End Methods.
End ConnectionManager.

(** ** scraping/search_strategies.py *)

(** The keys of config/search_config.json that the two classes read. *)
Record search_config : Type := {
  locations : list string;
  job_titles : list string;
  companies : list string;
  max_searches_per_session : Z;
  job_title_search_enabled : bool;
  company_search_enabled : bool
}.

Module SearchStrategies.
Section Methods.
Context {S : Type} (w : world) (config : search_config).
Import PyStr.

(** [random.randint(lo, hi)], which raises on an empty range; the world's
    answer is brought into the range. *)
Definition random_randint (lo hi : Z) : Py S Z :=
  if (hi <? lo)%Z then raise "empty range for randrange()"
  else perform (ERandInt lo hi)
               (fun h => Ok (Z.max lo (Z.min hi (randint w h lo hi)))).

(** [for _ in range(n): body] *)
Fixpoint repeat_ (n : nat) (body : Py S unit) : Py S unit :=
  match n with
  | O => ret tt
  | Datatypes.S n' => let* _ := body in repeat_ n' body
  end.

Definition _simulate_mouse_movement : Py S unit :=
  let* _ := emit (ECall "SearchStrategies._simulate_mouse_movement") in
  try_
    (let width := match viewport_size w with
                  | Some (Some wd, _) => wd
                  | _ => 1920%Z
                  end in
     let height := match viewport_size w with
                   | Some (_, Some ht) => ht
                   | _ => 1080%Z
                   end in
     let* n := random_randint 3 7 in
     repeat_ (Z.to_nat n)
       (let* x := random_randint 100 (width - 100) in
        let* y := random_randint 100 (height - 100) in
        let* _ := perform (EMouseMove x y) (fun h => mouse_move w h x y) in
        let* _ := emit (ESleep (Uniform 0.1 0.5)) in
        let* m := random_randint 2 4 in
        repeat_ (Z.to_nat m)
          (let* dx := random_randint (-20) 20 in
           let* dy := random_randint (-20) 20 in
           let* _ := perform (EMouseMove (x + dx) (y + dy))
                             (fun h => mouse_move w h (x + dx) (y + dy))%Z in
           emit (ESleep (Uniform 0.05 0.15)))))
    (fun _ => ret tt).

Definition _simulate_page_interaction : Py S unit :=
  let* _ := emit (ECall "SearchStrategies._simulate_page_interaction") in
  let clickable := Locator "a, button, input, textarea" in
  try_
    (let* count := perform (EAll clickable) (fun h => all w h clickable) in
     match count with
     | O => ret tt
     | _ =>
         let* n := random_randint 1 3 in
         repeat_ (Z.to_nat n)
           (let* i := random_randint 0 (Z.of_nat count - 1) in
            let element := Item clickable (Z.to_nat i) in
            try_ (let* v := perform (EIsVisible element None)
                                    (fun h => is_visible w h element) in
                  if v then
                    let* _ := perform (EClick element (Some (Uniform 50 200)))
                                      (fun h => click w h element) in
                    emit (ESleep (Uniform 0.5 2))
                  else ret tt)
                 (fun _ => ret tt))
     end)
    (fun _ => ret tt).

Definition _simulate_human_behavior (action : string) : Py S unit :=
  let* _ := emit (ECall "SearchStrategies._simulate_human_behavior") in
  if String.eqb action "scroll" then
    let* _ := _simulate_mouse_movement in
    let* _ := perform (EScrollBy (RandInt 200 800)) (page_scroll w) in
    emit (ESleep (Uniform 1 3))
  else if String.eqb action "typing" then
    emit (ESleep (Uniform 0.05 0.2))
  else if String.eqb action "before_search" then
    let* _ := _simulate_mouse_movement in
    let* _ := _simulate_page_interaction in
    emit (ESleep (Uniform 2 5))
  else
    emit (ESleep (Uniform 3 8)).

Definition search_url_tail : string := "&origin=GLOBAL_SEARCH_HEADER&sid=Z%2Cv".

Definition encode (s : string) : string :=
  replace_char "&" "%26" (replace_char " " "%20" s).

Definition _build_job_title_search_url (job_title location : string) : string :=
  "https://www.linkedin.com/search/results/people/"
  +:+ "?keywords=" +:+ encode job_title
  +:+ "&location=" +:+ replace_char " " "%20" location
  +:+ search_url_tail.

Definition _build_company_search_url (company job_title : string) : string :=
  "https://www.linkedin.com/search/results/people/"
  +:+ "?company=" +:+ encode company
  +:+ "&keywords=" +:+ encode job_title
  +:+ search_url_tail.

(** [for attempt in range(max_retries)] of [_navigate_with_retry], with
    [n] attempts left. *)
Fixpoint navigate_loop (url : string) (n : nat) : Py S bool :=
  match n with
  | O => ret false
  | Datatypes.S n' =>
      try_ (let* _ := perform (EGoto url) (fun h => page_goto w h url) in
            let* _ := emit (ESleep (Const 2)) in
            ret true)
           (fun e =>
              match n' with
              | O => raise e
              | _ => let* _ := emit (ESleep (Uniform 5 10)) in
                     navigate_loop url n'
              end)
  end.

Definition _navigate_with_retry (url : string) : Py S bool :=
  let* _ := emit (ECall "SearchStrategies._navigate_with_retry") in
  navigate_loop url 3.

(** [for indicator in indicators: try: if visible: return ... except:
    continue]; answers whether some indicator was visible. *)
Fixpoint any_visible (indicators : list string) (timeout : Z) : Py S bool :=
  match indicators with
  | [] => ret false
  | indicator :: rest =>
      let element := First (Locator indicator) in
      let* v := try_ (perform (EIsVisible element (Some timeout))
                              (fun h => is_visible w h element))
                     (fun _ => ret false) in
      if v then ret true else any_visible rest timeout
  end.

Definition search_indicators : list string :=
  [ "ul.reusable-search__entity-result-list";
    "li.reusable-search__result-container";
    "button[aria-label=" +:+ q "All filters" +:+ "]";
    ".search-results-container" ].

Definition error_indicators : list string :=
  [ "h1:has-text(" +:+ q "Oops" +:+ ")";
    "h1:has-text(" +:+ q "Error" +:+ ")";
    "h1:has-text(" +:+ q "Captcha" +:+ ")";
    "h1:has-text(" +:+ q "Access denied" +:+ ")";
    "h1:has-text(" +:+ q "Please verify you are a human" +:+ ")" ].

Definition _validate_search_results : Py S bool :=
  let* _ := emit (ECall "SearchStrategies._validate_search_results") in
  try_ (let* loaded := any_visible search_indicators 5000 in
        if loaded then ret true
        else
          let* blocked := any_visible error_indicators 2000 in
          if blocked then ret false
          else
            let* page_title_ := perform ETitle (page_title w) in
            if negb (contains "LinkedIn" page_title_) then ret false
            else ret false)
       (fun _ => ret false).

Definition relevant_keywords : list string :=
  [ "hiring"; "talent"; "recruit"; "hr"; "people"; "human resources" ].

Definition _validate_profile_data (name_ job_title_ location_ : string) : bool :=
  if negb (truthy name_) || (String.length (strip name_) <? 2)%nat then false
  else if negb (truthy job_title_) || (String.length (strip job_title_) <? 3)%nat
  then false
  else if negb (truthy location_) || (String.length (strip location_) <? 2)%nat
  then false
  else any_in relevant_keywords (lower job_title_).

(** [await e.inner_text() if await e.is_visible() else ""] *)
Definition text_if_visible (e : locator) : Py S string :=
  let* v := perform (EIsVisible e None) (fun h => is_visible w h e) in
  if v then perform (EInnerText e) (fun h => inner_text w h e)
  else ret "".

Definition _extract_profile_data_from_item (item : locator)
  : Py S (option prospect) :=
  let* _ := emit (ECall "SearchStrategies._extract_profile_data_from_item") in
  try_
    (let profile_link :=
       First (SubLocator item ("a[href*=" +:+ q "/in/" +:+ "]")) in
     let* href := perform (EGetAttribute profile_link "href")
                          (fun h => get_attribute w h profile_link "href") in
     match href with
     | None => ret None
     | Some profile_url =>
         if negb (truthy profile_url) || negb (contains "/in/" profile_url)
         then ret None
         else
           let* name_ := text_if_visible
             (First (SubLocator item ("span[aria-hidden=" +:+ q "true" +:+ "]"))) in
           let* job_title_ := text_if_visible
             (First (SubLocator item ".entity-result__primary-subtitle")) in
           let* location_ := text_if_visible
             (First (SubLocator item ".entity-result__secondary-subtitle")) in
           let* company_ := text_if_visible
             (Nth (SubLocator item ".entity-result__summary .t-14") 1) in
           if _validate_profile_data name_ job_title_ location_ then
             ret (Some (<[ "linkedin_url" := profile_url ]>
                        (<[ "name" := strip name_ ]>
                        (<[ "job_title" := strip job_title_ ]>
                        (<[ "location" := strip location_ ]>
                        (<[ "company" := strip company_ ]>
                        (<[ "search_source" := "linkedin_search" ]>
                         (∅ : prospect))))))))
           else ret None
     end)
    (fun _ => ret None).

(** [for item in profile_items] of [_extract_profiles_from_search_results],
    with the local list [profiles]. *)
Fixpoint extract_items (profile_items : list locator) (profiles : list prospect)
  : Py S (list prospect) :=
  match profile_items with
  | [] => ret profiles
  | item :: rest =>
      let* profile_data_ :=
        try_ (_extract_profile_data_from_item item) (fun _ => ret None) in
      match profile_data_ with
      | Some p => extract_items rest (profiles ++ [p])
      | None => extract_items rest profiles
      end
  end.

Definition _extract_profiles_from_search_results : Py S (list prospect) :=
  let* _ := emit (ECall "SearchStrategies._extract_profiles_from_search_results") in
  let result_list := "ul.reusable-search__entity-result-list" in
  let containers := Locator "li.reusable-search__result-container" in
  try_ (let* _ := perform (EWaitForSelector result_list 10000)
                          (fun h => page_wait_for_selector w h result_list) in
        let* n := perform (EAll containers) (fun h => all w h containers) in
        extract_items (items containers n) [])
       (fun _ => ret []).

(** The body shared by the [search_by_*] methods once the URL is built. *)
Definition search (enabled : bool) (search_url : string) : Py S (list prospect) :=
  if negb enabled then ret []
  else
    try_ (let* _ := _simulate_human_behavior "before_search" in
          let* _ := _navigate_with_retry search_url in
          let* ok := _validate_search_results in
          if negb ok then ret []
          else _extract_profiles_from_search_results)
         (fun _ => ret []).

Definition search_by_job_title_and_location (job_title location : string)
  : Py S (list prospect) :=
  let* _ := emit (ECall "SearchStrategies.search_by_job_title_and_location") in
  search (job_title_search_enabled config)
         (_build_job_title_search_url job_title location).

Definition search_by_company_and_job_title (company job_title : string)
  : Py S (list prospect) :=
  let* _ := emit (ECall "SearchStrategies.search_by_company_and_job_title") in
  search (company_search_enabled config)
         (_build_company_search_url company job_title).

End Methods.
End SearchStrategies.

(** ** scraping/prospect_discoverer.py *)

Module ProspectDiscoverer.

Record state : Type := {
  discovered_prospects : list prospect;
  duplicates_found : nat;
  validation_errors : nat
}.

(** The summary built by [run_discovery_workflow], without its clock
    readings. *)
Record summary : Type := {
  prospects_found : nat;
  summary_duplicates_found : nat;
  summary_validation_errors : nat
}.

Section Methods.
Variables (w : world) (search_config_ : search_config).
Import PyStr.

(** [d.get(key, '')] *)
Definition get_or_empty (key : string) (d : prospect) : string :=
  match d !! key with Some v => v | None => "" end.

Definition add_duplicate : Py state unit :=
  modify (fun s => {| discovered_prospects := discovered_prospects s;
                      duplicates_found := Datatypes.S (duplicates_found s);
                      validation_errors := validation_errors s |}).

Definition add_validation_error : Py state unit :=
  modify (fun s => {| discovered_prospects := discovered_prospects s;
                      duplicates_found := duplicates_found s;
                      validation_errors := Datatypes.S (validation_errors s) |}).

Definition append_prospect (p : prospect) : Py state unit :=
  modify (fun s => {| discovered_prospects := discovered_prospects s ++ [p];
                      duplicates_found := duplicates_found s;
                      validation_errors := validation_errors s |}).

Definition set_discovered (ps : list prospect) : Py state unit :=
  modify (fun s => {| discovered_prospects := ps;
                      duplicates_found := duplicates_found s;
                      validation_errors := validation_errors s |}).

Definition required_fields : list string :=
  [ "linkedin_url"; "name"; "job_title"; "location" ].

(** [not profile.get(field) or len(str(profile[field]).strip()) < 2] *)
Definition field_too_short (profile : prospect) (field : string) : bool :=
  match profile !! field with
  | None => true
  | Some v => negb (truthy v) || (String.length (strip v) <? 2)%nat
  end.

Definition relevant_keywords : list string :=
  [ "hiring"; "talent"; "recruit"; "hr"; "people"; "human resources" ].

Definition _validate_profile (profile : prospect) : bool :=
  if existsb (field_too_short profile) required_fields then false
  else
    let url := get_or_empty "linkedin_url" profile in
    if negb (contains "/in/" url) || negb (startswith "http" url) then false
    else any_in relevant_keywords (lower (get_or_empty "job_title" profile)).

Definition _simulate_human_behavior (action : string) : Py state unit :=
  let* _ := emit (ECall "ProspectDiscoverer._simulate_human_behavior") in
  if String.eqb action "scroll" then
    let* _ := perform (EScrollBy (RandInt 200 800)) (page_scroll w) in
    emit (ESleep (Uniform 1 3))
  else if String.eqb action "typing" then
    emit (ESleep (Uniform 0.05 0.2))
  else
    emit (ESleep (Uniform 2 5)).

Definition profile_indicators : list string :=
  [ "h1[data-test-id=" +:+ q "profile-name" +:+ "]";
    "h2[data-test-id=" +:+ q "profile-name" +:+ "]";
    "button:has-text(" +:+ q "Connect" +:+ ")";
    ".pv-top-card--list" ].

Definition _validate_profile_by_visit (profile : prospect) : Py state bool :=
  let* _ := emit (ECall "ProspectDiscoverer._validate_profile_by_visit") in
  try_
    (match profile !! "linkedin_url" with
     | None => raise "'linkedin_url'"
     | Some url =>
         let* _ := perform (EGoto url) (fun h => page_goto w h url) in
         let* _ := emit (ESleep (Const 2)) in
         let* page_title_ := perform ETitle (page_title w) in
         if negb (contains "LinkedIn" page_title_) then ret false
         else
           (* the loop over the indicators has the shape of the
              indicator loops of SearchStrategies *)
           let* has_profile_content :=
             SearchStrategies.any_visible w profile_indicators 2000 in
           if negb has_profile_content then ret false
           else
             let* _ := _simulate_human_behavior "scroll" in
             ret true
     end)
    (fun _ => ret false).

(** [self.search_strategies] is another object, without fields that its
    methods assign: they run on a state of their own. *)
Definition strategies {A} (m : Py unit A) : Py state A :=
  zoom (fun _ => tt) (fun _ s => s) m.

Definition _process_profile (profile : prospect) (existing_urls : gset string)
  : Py state bool :=
  let* _ := emit (ECall "ProspectDiscoverer._process_profile") in
  try_
    (if match profile !! "linkedin_url" with
        | Some url => bool_decide (url ∈ existing_urls)
        | None => false
        end
     then
       let* _ := add_duplicate in ret false
     else if negb (_validate_profile profile) then
       let* _ := add_validation_error in ret false
     else
       let* visited := _validate_profile_by_visit profile in
       if negb visited then
         let* _ := add_validation_error in ret false
       else ret true)
    (fun _ => ret false).

(** The loop of [_final_validation_and_deduplication], with its locals
    [seen_urls] and [valid_prospects]. *)
Fixpoint final_loop (prospects : list prospect) (seen_urls : gset string)
         (valid_prospects : list prospect) : list prospect :=
  match prospects with
  | [] => valid_prospects
  | p :: rest =>
      let url := get_or_empty "linkedin_url" p in
      if bool_decide (url ∈ seen_urls) then
        final_loop rest seen_urls valid_prospects
      else
        final_loop rest ({[ url ]} ∪ seen_urls)
                   (if _validate_profile p then valid_prospects ++ [p]
                    else valid_prospects)
  end.

Definition _final_validation_and_deduplication (prospects : list prospect)
  : list prospect :=
  final_loop prospects ∅ [].

Definition cap_reached (max_prospects : Z) (s : state) : bool :=
  (max_prospects <=? Z.of_nat (length (discovered_prospects s)))%Z.

(** [for profile in profiles] of [discover_prospects]. *)
Fixpoint process_profiles (max_prospects : Z) (existing_urls : gset string)
         (profiles : list prospect) : Py state unit :=
  match profiles with
  | [] => ret tt
  | profile :: rest =>
      let* s := get in
      if cap_reached max_prospects s then ret tt
      else
        let* ok := _process_profile profile existing_urls in
        let* _ := if ok then append_prospect profile else ret tt in
        process_profiles max_prospects existing_urls rest
  end.

(** The inner [for job_title in ...] loop of both strategies; [search] is
    the search call of the strategy.  It answers the new [search_count]. *)
Fixpoint job_title_loop (max_prospects max_searches : Z)
         (existing_urls : gset string)
         (search : string -> Py state (list prospect))
         (titles : list string) (search_count : Z) : Py state Z :=
  match titles with
  | [] => ret search_count
  | job_title_ :: rest =>
      let* s := get in
      if (max_searches <=? search_count)%Z || cap_reached max_prospects s
      then ret search_count
      else
        let* profiles := search job_title_ in
        let* _ := process_profiles max_prospects existing_urls profiles in
        let search_count := (search_count + 1)%Z in
        let* _ := if (search_count <? max_searches)%Z
                  then emit (ESleep (Uniform 180 600)) else ret tt in
        job_title_loop max_prospects max_searches existing_urls search
                       rest search_count
  end.

(** The outer loop of both strategies over [outer] (locations, or
    companies). *)
Fixpoint outer_loop (max_prospects max_searches : Z)
         (existing_urls : gset string)
         (search : string -> string -> Py state (list prospect))
         (outer titles : list string) (search_count : Z) : Py state Z :=
  match outer with
  | [] => ret search_count
  | x :: rest =>
      let* s := get in
      if (max_searches <=? search_count)%Z || cap_reached max_prospects s
      then ret search_count
      else
        let* search_count :=
          job_title_loop max_prospects max_searches existing_urls
                         (search x) titles search_count in
        outer_loop max_prospects max_searches existing_urls search
                   rest titles search_count
  end.

Definition load_prospects : Py state (list prospect) :=
  perform ELoadProspects (fun h => Ok (stored_prospects w h)).

Definition urls_of (ps : list prospect) : gset string :=
  list_to_set (map (get_or_empty "linkedin_url") ps).

Definition discover_prospects (max_prospects : Z) : Py state (list prospect) :=
  let* _ := emit (ECall "ProspectDiscoverer.discover_prospects") in
  let* existing_prospects := load_prospects in
  let existing_urls := urls_of existing_prospects in
  let max_searches := max_searches_per_session search_config_ in
  let* search_count :=
    outer_loop max_prospects max_searches existing_urls
      (fun location_ job_title_ =>
         strategies (SearchStrategies.search_by_job_title_and_location
                       w search_config_ job_title_ location_))
      (locations search_config_) (job_titles search_config_) 0%Z in
  let* s := get in
  let* _ :=
    if negb (cap_reached max_prospects s) then
      let* _ :=
        outer_loop max_prospects max_searches existing_urls
          (fun company_ job_title_ =>
             strategies (SearchStrategies.search_by_company_and_job_title
                           w search_config_ company_ job_title_))
          (firstn 5 (companies search_config_))
          (firstn 3 (job_titles search_config_)) search_count in
      ret tt
    else ret tt in
  let* s := get in
  let* _ := set_discovered
              (_final_validation_and_deduplication (discovered_prospects s)) in
  let* s := get in
  ret (discovered_prospects s).

(** The loop of [save_prospects], with its locals [seen_urls] and
    [unique_prospects]. *)
Fixpoint unique_loop (all_prospects : list prospect) (seen_urls : gset string)
         (unique_prospects : list prospect) : list prospect :=
  match all_prospects with
  | [] => unique_prospects
  | p :: rest =>
      let url := get_or_empty "linkedin_url" p in
      if truthy url && negb (bool_decide (url ∈ seen_urls)) then
        unique_loop rest ({[ url ]} ∪ seen_urls) (unique_prospects ++ [p])
      else unique_loop rest seen_urls unique_prospects
  end.

Definition save_prospects (prospects : list prospect) : Py state unit :=
  let* _ := emit (ECall "ProspectDiscoverer.save_prospects") in
  try_ (let* existing_prospects := load_prospects in
        let unique_prospects :=
          unique_loop (existing_prospects ++ prospects) ∅ [] in
        perform (EWriteProspects unique_prospects) (write_prospects w))
       (fun _ => ret tt).

Definition run_discovery_workflow (max_prospects : Z)
  : Py state (option summary) :=
  let* _ := emit (ECall "ProspectDiscoverer.run_discovery_workflow") in
  try_ (let* prospects := discover_prospects max_prospects in
        let* _ := save_prospects prospects in
        let* s := get in
        ret (Some {| prospects_found := length prospects;
                     summary_duplicates_found := duplicates_found s;
                     summary_validation_errors := validation_errors s |}))
       (fun _ => ret None).

End Methods.
End ProspectDiscoverer.

(** ** automation/discovery_workflow.py *)

Module DiscoveryWorkflow.
Section Methods.
Variables (w : world) (search_config_ : search_config).

(** [_run_discovery_phase]: the discovered list replaces the prospects
    file when it is not empty; [_save_json_file] swallows its errors. *)
Definition _run_discovery_phase (max_prospects : Z)
  : Py ProspectDiscoverer.state ProspectDiscoverer.summary :=
  let* _ := emit (ECall "DiscoveryWorkflow._run_discovery_phase") in
  let* prospects :=
    ProspectDiscoverer.discover_prospects w search_config_ max_prospects in
  let* _ :=
    match prospects with
    | [] => ret tt
    | _ => try_ (perform (EWriteProspects prospects) (write_prospects w))
                (fun _ => ret tt)
    end in
  let* s := get in
  ret {| ProspectDiscoverer.prospects_found := length prospects;
         ProspectDiscoverer.summary_duplicates_found :=
           ProspectDiscoverer.duplicates_found s;
         ProspectDiscoverer.summary_validation_errors :=
           ProspectDiscoverer.validation_errors s |}.

End Methods.
End DiscoveryWorkflow.

(** * Reasoning about coroutines *)

(** The three components of a run. *)
Definition result_of {S A} (x : outcome A * S * list event) : outcome A := x.1.1.
Definition state_of {S A} (x : outcome A * S * list event) : S := x.1.2.
Definition trace_of {S A} (x : outcome A * S * list event) : list event := x.2.

(** Every effect of [m] satisfies [P], in every world state. *)
Definition emits {S A} (P : event -> Prop) (m : Py S A) : Prop :=
  forall h s, Forall P (trace_of (m h s)).

(** [m] never raises. *)
Definition safe {S A} (m : Py S A) : Prop :=
  forall h s, exists a, result_of (m h s) = Ok a.

(** [m] leaves the state unchanged. *)
Definition readonly {S A} (m : Py S A) : Prop :=
  forall h s, state_of (m h s) = s.

Section MonadLemmas.
Context {S : Type}.
Implicit Types (P : event -> Prop).

Lemma bind_ok {A B} (m : Py S A) (f : A -> Py S B) h s a s1 t1 :
  m h s = (Ok a, s1, t1) ->
  bind m f h s = ((f a (h ++ t1) s1).1.1, (f a (h ++ t1) s1).1.2,
                  t1 ++ (f a (h ++ t1) s1).2).
Proof.
  intros E. unfold bind. rewrite E.
  destruct (f a (h ++ t1) s1) as [[r s2] t2]. reflexivity.
Qed.

Lemma bind_raise {A B} (m : Py S A) (f : A -> Py S B) h s e s1 t1 :
  m h s = (Raise e, s1, t1) -> bind m f h s = (Raise e, s1, t1).
Proof. intros E. unfold bind. rewrite E. reflexivity. Qed.

Lemma emits_ret {A} P (a : A) : emits P (ret (S:=S) a).
Proof. intros h s. constructor. Qed.

Lemma emits_raise {A} P e : emits P (raise (S:=S) (A:=A) e).
Proof. intros h s. constructor. Qed.

Lemma emits_get P : emits P (get (S:=S)).
Proof. intros h s. constructor. Qed.

Lemma emits_modify P f : emits P (modify (S:=S) f).
Proof. intros h s. constructor. Qed.

Lemma emits_perform {A} P e (answer : history -> outcome A) :
  P e -> emits P (perform (S:=S) e answer).
Proof. intros He h s. repeat constructor. exact He. Qed.

Lemma emits_emit P e : P e -> emits P (emit (S:=S) e).
Proof. apply emits_perform. Qed.

Lemma emits_bind {A B} P (m : Py S A) (f : A -> Py S B) :
  emits P m -> (forall a, emits P (f a)) -> emits P (bind m f).
Proof.
  intros Hm Hf h s. unfold bind, trace_of.
  specialize (Hm h s). unfold trace_of in Hm.
  destruct (m h s) as [[[a|e] s1] t1]; simpl in *; [|exact Hm].
  specialize (Hf a (h ++ t1) s1). unfold trace_of in Hf.
  destruct (f a (h ++ t1) s1) as [[r s2] t2]; simpl in *.
  apply Forall_app; split; assumption.
Qed.

Lemma emits_try {A} P (m : Py S A) handler :
  emits P m -> (forall e, emits P (handler e)) -> emits P (try_ m handler).
Proof.
  intros Hm Hf h s. unfold try_, trace_of.
  specialize (Hm h s). unfold trace_of in Hm.
  destruct (m h s) as [[[a|e] s1] t1]; simpl in *; [exact Hm|].
  specialize (Hf e (h ++ t1) s1). unfold trace_of in Hf.
  destruct (handler e (h ++ t1) s1) as [[r s2] t2]; simpl in *.
  apply Forall_app; split; assumption.
Qed.

Lemma emits_for_try {A} P (xs : list A) (body : A -> Py S bool) :
  (forall x, emits P (body x)) -> emits P (for_try xs body).
Proof.
  intros Hb. induction xs as [|x xs IH]; simpl.
  - apply emits_ret.
  - apply emits_bind.
    + apply emits_try; [apply Hb|intros; apply emits_ret].
    + intros [|]; [apply emits_ret|exact IH].
Qed.

Lemma emits_impl {A} P Q (m : Py S A) :
  (forall e, P e -> Q e) -> emits P m -> emits Q m.
Proof. intros HPQ Hm h s. eapply Forall_impl; [apply Hm|exact HPQ]. Qed.

Lemma safe_ret {A} (a : A) : safe (ret (S:=S) a).
Proof. intros h s. eexists; reflexivity. Qed.

Lemma safe_get : safe (get (S:=S)).
Proof. intros h s. eexists; reflexivity. Qed.

Lemma safe_modify f : safe (modify (S:=S) f).
Proof. intros h s. eexists; reflexivity. Qed.

Lemma safe_emit e : safe (emit (S:=S) e).
Proof. intros h s. eexists; reflexivity. Qed.

Lemma safe_bind {A B} (m : Py S A) (f : A -> Py S B) :
  safe m -> (forall a, safe (f a)) -> safe (bind m f).
Proof.
  intros Hm Hf h s. unfold bind, result_of.
  destruct (Hm h s) as [a Ha]. unfold result_of in Ha.
  destruct (m h s) as [[r s1] t1]; simpl in *; subst r.
  destruct (Hf a (h ++ t1) s1) as [b Hb]. unfold result_of in Hb.
  destruct (f a (h ++ t1) s1) as [[r s2] t2]; simpl in *; subst r.
  eexists; reflexivity.
Qed.

Lemma safe_try {A} (m : Py S A) handler :
  (forall e, safe (handler e)) -> safe (try_ m handler).
Proof.
  intros Hf h s. unfold try_, result_of.
  destruct (m h s) as [[[a|e] s1] t1]; simpl; [eexists; reflexivity|].
  destruct (Hf e (h ++ t1) s1) as [b Hb]. unfold result_of in Hb.
  destruct (handler e (h ++ t1) s1) as [[r s2] t2]; simpl in *; subst r.
  eexists; reflexivity.
Qed.

Lemma safe_for_try {A} (xs : list A) (body : A -> Py S bool) :
  safe (for_try xs body).
Proof.
  induction xs as [|x xs IH]; simpl.
  - apply safe_ret.
  - apply safe_bind.
    + apply safe_try. intros; apply safe_ret.
    + intros [|]; [apply safe_ret|exact IH].
Qed.

Lemma readonly_ret {A} (a : A) : readonly (ret (S:=S) a).
Proof. intros h s. reflexivity. Qed.

Lemma readonly_raise {A} e : readonly (raise (S:=S) (A:=A) e).
Proof. intros h s. reflexivity. Qed.

Lemma readonly_perform {A} e (answer : history -> outcome A) :
  readonly (perform (S:=S) e answer).
Proof. intros h s. reflexivity. Qed.

Lemma readonly_bind {A B} (m : Py S A) (f : A -> Py S B) :
  readonly m -> (forall a, readonly (f a)) -> readonly (bind m f).
Proof.
  intros Hm Hf h s. unfold bind, state_of.
  specialize (Hm h s). unfold state_of in Hm.
  destruct (m h s) as [[[a|e] s1] t1]; simpl in *; [|exact Hm].
  specialize (Hf a (h ++ t1) s1). unfold state_of in Hf.
  destruct (f a (h ++ t1) s1) as [[r s2] t2]; simpl in *. congruence.
Qed.

Lemma readonly_try {A} (m : Py S A) handler :
  readonly m -> (forall e, readonly (handler e)) -> readonly (try_ m handler).
Proof.
  intros Hm Hf h s. unfold try_, state_of.
  specialize (Hm h s). unfold state_of in Hm.
  destruct (m h s) as [[[a|e] s1] t1]; simpl in *; [exact Hm|].
  specialize (Hf e (h ++ t1) s1). unfold state_of in Hf.
  destruct (handler e (h ++ t1) s1) as [[r s2] t2]; simpl in *. congruence.
Qed.

End MonadLemmas.

(** [post m h s Q]: the run of [m] from history [h] and state [s] satisfies
    [Q]. *)
Definition post {S A} (m : Py S A) (h : history) (s : S)
           (Q : outcome A -> S -> list event -> Prop) : Prop :=
  Q (result_of (m h s)) (state_of (m h s)) (trace_of (m h s)).
Arguments post : simpl never.

Section PostLemmas.
Context {S : Type}.

Lemma post_ret {A} (a : A) h (s : S) Q : Q (Ok a) s [] -> post (ret a) h s Q.
Proof. exact (fun H => H). Qed.

Lemma post_raise {A} e h (s : S) (Q : outcome A -> S -> list event -> Prop) :
  Q (Raise e) s [] -> post (raise e) h s Q.
Proof. exact (fun H => H). Qed.

Lemma post_get h (s : S) Q : Q (Ok s) s [] -> post get h s Q.
Proof. exact (fun H => H). Qed.

Lemma post_modify f h (s : S) Q : Q (Ok tt) (f s) [] -> post (modify f) h s Q.
Proof. exact (fun H => H). Qed.

Lemma post_perform {A} e (answer : history -> outcome A) h (s : S) Q :
  Q (answer h) s [e] -> post (perform e answer) h s Q.
Proof. exact (fun H => H). Qed.

Lemma post_emit e h (s : S) Q : Q (Ok tt) s [e] -> post (emit e) h s Q.
Proof. exact (fun H => H). Qed.

Lemma post_bind {A B} (m : Py S A) (f : A -> Py S B) h s Q :
  post m h s (fun r s1 t1 =>
    match r with
    | Ok a => post (f a) (h ++ t1) s1 (fun r2 s2 t2 => Q r2 s2 (t1 ++ t2))
    | Raise e => Q (Raise e) s1 t1
    end) ->
  post (bind m f) h s Q.
Proof.
  unfold post, bind, result_of, state_of, trace_of.
  destruct (m h s) as [[[a|e] s1] t1]; simpl; [|tauto].
  destruct (f a (h ++ t1) s1) as [[r s2] t2]; simpl. tauto.
Qed.

Lemma post_try {A} (m : Py S A) handler h s Q :
  post m h s (fun r s1 t1 =>
    match r with
    | Ok a => Q (Ok a) s1 t1
    | Raise e => post (handler e) (h ++ t1) s1
                      (fun r2 s2 t2 => Q r2 s2 (t1 ++ t2))
    end) ->
  post (try_ m handler) h s Q.
Proof.
  unfold post, try_, result_of, state_of, trace_of.
  destruct (m h s) as [[[a|e] s1] t1]; simpl; [tauto|].
  destruct (handler e (h ++ t1) s1) as [[r s2] t2]; simpl. tauto.
Qed.

Lemma post_zoom {T A} (proj : S -> T) upd (m : Py T A) h s Q :
  post m h (proj s) (fun r t' tr => Q r (upd t' s) tr) ->
  post (zoom proj upd m) h s Q.
Proof.
  unfold post, zoom, result_of, state_of, trace_of.
  destruct (m h (proj s)) as [[r t'] tr]; simpl. tauto.
Qed.

Lemma post_conseq {A} (m : Py S A) h s (R Q : outcome A -> S -> list event -> Prop) :
  post m h s R -> (forall r s' t, R r s' t -> Q r s' t) -> post m h s Q.
Proof. unfold post. auto. Qed.

Lemma post_run {A} (m : Py S A) h s r s' t Q :
  m h s = (r, s', t) -> post m h s Q -> Q r s' t.
Proof. unfold post. intros ->. exact (fun H => H). Qed.

Lemma post_emits {A} P (m : Py S A) h s :
  emits P m -> post m h s (fun _ _ t => Forall P t).
Proof. intros H. apply H. Qed.

Lemma post_and {A} (m : Py S A) h s (Q1 Q2 : outcome A -> S -> list event -> Prop) :
  post m h s Q1 -> post m h s Q2 ->
  post m h s (fun r s' t => Q1 r s' t /\ Q2 r s' t).
Proof. unfold post. auto. Qed.

End PostLemmas.

Section Inversion.
Context {S : Type}.

Lemma ret_inv {A} (a : A) h (s : S) r s' t :
  ret a h s = (r, s', t) -> r = Ok a /\ s' = s /\ t = [].
Proof. unfold ret. intros [= <- <- <-]. auto. Qed.

Lemma raise_inv {A} e h (s : S) (r : outcome A) s' t :
  raise e h s = (r, s', t) -> r = Raise e /\ s' = s /\ t = [].
Proof. unfold raise. intros [= <- <- <-]. auto. Qed.

Lemma get_inv h (s : S) r s' t :
  get h s = (r, s', t) -> r = Ok s /\ s' = s /\ t = [].
Proof. unfold get. intros [= <- <- <-]. auto. Qed.

Lemma modify_inv f h (s : S) r s' t :
  modify f h s = (r, s', t) -> r = Ok tt /\ s' = f s /\ t = [].
Proof. unfold modify. intros [= <- <- <-]. auto. Qed.

Lemma perform_inv {A} e (answer : history -> outcome A) h (s : S) r s' t :
  perform e answer h s = (r, s', t) -> r = answer h /\ s' = s /\ t = [e].
Proof. unfold perform. intros [= <- <- <-]. auto. Qed.

Lemma emit_inv e h (s : S) r s' t :
  emit e h s = (r, s', t) -> r = Ok tt /\ s' = s /\ t = [e].
Proof. unfold emit. intros H. apply perform_inv in H. exact H. Qed.

Lemma bind_inv {A B} (m : Py S A) (f : A -> Py S B) h s r s' t :
  bind m f h s = (r, s', t) ->
  (exists e, m h s = (Raise e, s', t) /\ r = Raise e)
  \/ (exists a s1 t1 t2, m h s = (Ok a, s1, t1)
                         /\ f a (h ++ t1) s1 = (r, s', t2) /\ t = t1 ++ t2).
Proof.
  unfold bind. destruct (m h s) as [[[a|e] s1] t1].
  - destruct (f a (h ++ t1) s1) as [[r2 s2] t2] eqn:E.
    intros [= <- <- <-]. right. eauto 10.
  - intros [= <- <- <-]. left. eauto.
Qed.

Lemma try_inv {A} (m : Py S A) handler h s r s' t :
  try_ m handler h s = (r, s', t) ->
  (exists a, m h s = (Ok a, s', t) /\ r = Ok a)
  \/ (exists e s1 t1 t2, m h s = (Raise e, s1, t1)
                         /\ handler e (h ++ t1) s1 = (r, s', t2)
                         /\ t = t1 ++ t2).
Proof.
  unfold try_. destruct (m h s) as [[[a|e] s1] t1].
  - intros [= <- <- <-]. left. eauto.
  - destruct (handler e (h ++ t1) s1) as [[r2 s2] t2] eqn:E.
    intros [= <- <- <-]. right. eauto 10.
Qed.

Lemma zoom_inv {T A} (proj : S -> T) upd (m : Py T A) h s r s' t :
  zoom proj upd m h s = (r, s', t) ->
  exists u, m h (proj s) = (r, u, t) /\ s' = upd u s.
Proof.
  unfold zoom. destruct (m h (proj s)) as [[r1 u] t1].
  intros [= <- <- <-]. eauto.
Qed.

Lemma run_eta {A} (m : Py S A) h s :
  m h s = (result_of (m h s), state_of (m h s), trace_of (m h s)).
Proof. destruct (m h s) as [[r s'] t]. reflexivity. Qed.

End Inversion.

(** Decompose the hypothesis [H], a run of a compound coroutine, into the
    runs of its parts. *)
Ltac run_inv H :=
  cbv beta zeta in H;
  lazymatch type of H with
  | ret _ _ _ = _ => apply ret_inv in H; destruct H as (? & ? & ?)
  | raise _ _ _ = _ => apply raise_inv in H; destruct H as (? & ? & ?)
  | get _ _ = _ => apply get_inv in H; destruct H as (? & ? & ?)
  | modify _ _ _ = _ => apply modify_inv in H; destruct H as (? & ? & ?)
  | emit _ _ _ = _ => apply emit_inv in H; destruct H as (? & ? & ?)
  | perform _ _ _ _ = _ => apply perform_inv in H; destruct H as (? & ? & ?)
  | zoom _ _ _ _ _ = _ => apply zoom_inv in H; destruct H as (? & H & ?)
  | bind _ _ _ _ = _ =>
      apply bind_inv in H;
      destruct H as [(? & ? & ?)|(? & ? & ? & ? & ? & H & ?)]
  | try_ _ _ _ _ = _ =>
      apply try_inv in H;
      destruct H as [(? & ? & ?)|(? & ? & ? & ? & ? & H & ?)]
  | (match ?x with _ => _ end) _ _ = _ => destruct x eqn:?
  end.

(** Use the equations recorded by case analyses. *)
Ltac use_eqs :=
  repeat match goal with
         | H : ?x = _ |- context [?x] => rewrite H
         end.

(** Decompose every run among the hypotheses. *)
Ltac runs_inv :=
  repeat match goal with
         | H : _ = (_, _, _) |- _ => run_inv H; simplify_eq
         end.

(** One step of symbolic execution of a [post] goal. *)
Ltac post_step :=
  cbv beta zeta;
  lazymatch goal with
  | |- post (bind _ _) _ _ _ => apply post_bind
  | |- post (try_ _ _) _ _ _ => apply post_try
  | |- post (ret _) _ _ _ => apply post_ret
  | |- post (raise _) _ _ _ => apply post_raise
  | |- post get _ _ _ => apply post_get
  | |- post (modify _) _ _ _ => apply post_modify
  | |- post (emit _) _ _ _ => apply post_emit
  | |- post (perform _ _) _ _ _ => apply post_perform
  | |- post (zoom _ _ _) _ _ _ => apply post_zoom
  | |- post (match ?x with _ => _ end) _ _ _ => destruct x eqn:?
  | |- match ?x with _ => _ end => destruct x eqn:?
  end.

(** One step of the proof that every effect satisfies a predicate. *)
Ltac emits_step :=
  cbv beta zeta;
  lazymatch goal with
  | |- emits _ (bind _ _) => apply emits_bind; [|intros ?]
  | |- emits _ (try_ _ _) => apply emits_try; [|intros ?]
  | |- emits _ (ret _) => apply emits_ret
  | |- emits _ (raise _) => apply emits_raise
  | |- emits _ get => apply emits_get
  | |- emits _ (modify _) => apply emits_modify
  | |- emits _ (emit _) => apply emits_emit
  | |- emits _ (perform _ _) => apply emits_perform
  | |- emits _ (for_try _ _) => apply emits_for_try; intros ?
  | |- emits _ (match ?x with _ => _ end) => destruct x
  end.

(** The number of effects of a trace that satisfy [p]. *)
Fixpoint count (p : event -> bool) (t : list event) : nat :=
  match t with
  | [] => 0
  | e :: r => (if p e then 1 else 0) + count p r
  end.

Lemma count_app p t1 t2 : count p (t1 ++ t2) = count p t1 + count p t2.
Proof. induction t1 as [|e t1 IH]; simpl; [reflexivity|]. rewrite IH. lia. Qed.

Lemma count_none p t : Forall (fun e => p e = false) t -> count p t = 0.
Proof. induction 1 as [|e t He _ IH]; simpl; [reflexivity|]. rewrite He, IH. reflexivity. Qed.

Lemma count_none_inv p t : count p t = 0 -> Forall (fun e => p e = false) t.
Proof.
  induction t as [|e t IH]; simpl; intros H; constructor.
  - destruct (p e); [discriminate|reflexivity].
  - apply IH. destruct (p e); [discriminate|exact H].
Qed.

(** Entering the method [m]. *)
Definition is_call (m : string) (e : event) : bool :=
  match e with ECall m' => String.eqb m m' | _ => false end.

(** ** Example worlds *)

(** A page on which every element is visible, every text reads "Connect",
    nothing raises, and the chat service answers [" Hello Jane "]. *)
Definition calm : world := {|
  page_goto := fun _ _ => Ok tt;
  page_scroll := fun _ => Ok tt;
  page_title := fun _ => Ok "LinkedIn";
  page_wait_for_selector := fun _ _ => Ok tt;
  is_visible := fun _ _ => Ok true;
  inner_text := fun _ _ => Ok "Connect";
  get_attribute := fun _ _ _ => Ok None;
  all := fun _ _ => Ok 0;
  closest := fun _ _ => Ok true;
  click := fun _ _ => Ok tt;
  type_char := fun _ _ _ => Ok tt;
  keyboard_press := fun _ _ => Ok tt;
  keyboard_type := fun _ _ => Ok tt;
  mouse_move := fun _ _ _ => Ok tt;
  viewport_size := None;
  randint := fun _ lo _ => lo;
  load_selectors_config := fun _ => Ok tt;
  create_personalized_prompt := fun _ => "prompt";
  chat_completion := fun _ _ => Ok (Content " Hello Jane ");
  generate_fallback_message := fun _ _ => "Hi there";
  time_time := fun h => inject_Z (Z.of_nat (length h));
  stored_prospects := fun _ => [];
  write_prospects := fun _ => Ok tt;
  re_sub_dates := fun s => s
|}.

Definition with_is_visible (f : history -> locator -> outcome bool) (w : world) : world := {|
  page_goto := page_goto w; page_scroll := page_scroll w;
  page_title := page_title w;
  page_wait_for_selector := page_wait_for_selector w;
  is_visible := f;
  inner_text := inner_text w; get_attribute := get_attribute w;
  all := all w; closest := closest w; click := click w;
  type_char := type_char w; keyboard_press := keyboard_press w;
  keyboard_type := keyboard_type w; mouse_move := mouse_move w;
  viewport_size := viewport_size w; randint := randint w;
  load_selectors_config := load_selectors_config w;
  create_personalized_prompt := create_personalized_prompt w;
  chat_completion := chat_completion w;
  generate_fallback_message := generate_fallback_message w;
  time_time := time_time w; stored_prospects := stored_prospects w;
  write_prospects := write_prospects w; re_sub_dates := re_sub_dates w
|}.

Definition with_page_goto (f : history -> string -> outcome unit) (w : world) : world := {|
  page_goto := f; page_scroll := page_scroll w;
  page_title := page_title w;
  page_wait_for_selector := page_wait_for_selector w;
  is_visible := is_visible w;
  inner_text := inner_text w; get_attribute := get_attribute w;
  all := all w; closest := closest w; click := click w;
  type_char := type_char w; keyboard_press := keyboard_press w;
  keyboard_type := keyboard_type w; mouse_move := mouse_move w;
  viewport_size := viewport_size w; randint := randint w;
  load_selectors_config := load_selectors_config w;
  create_personalized_prompt := create_personalized_prompt w;
  chat_completion := chat_completion w;
  generate_fallback_message := generate_fallback_message w;
  time_time := time_time w; stored_prospects := stored_prospects w;
  write_prospects := write_prospects w; re_sub_dates := re_sub_dates w
|}.


(** A profile with every required field and a score of 3. *)
Definition jane : ProfileData := {|
  name := "Jane Doe"; job_title := "Recruiter"; company := "ACME";
  industry := ""; location := "Ghent, Belgium";
  summary := "Hiring engineers."; skills := ["sourcing"]; education := [];
  experience := []; recent_posts := []
|}.

(** * The locator resolver *)

Section Resolver.
Context {S : Type} (w : world).
Let strategy : Type := string -> Py S (option locator).

(** [f] reports no visible element: it raises, answers [None], or answers
    an element that the following visibility check does not confirm. *)
Definition misses (f : strategy) (text : string) (h : history) (s s' : S)
           (t : list event) : Prop :=
  (exists e, f text h s = (Raise e, s', t))
  \/ f text h s = (Ok None, s', t)
  \/ (exists b t0, f text h s = (Ok (Some b), s', t0)
                   /\ t = t0 ++ [EIsVisible b None]
                   /\ is_visible w (h ++ t0) b <> Ok true).

(** [f] reports the visible element [b]. *)
Definition hits (f : strategy) (text : string) (h : history) (s : S)
           (b : locator) (s' : S) (t : list event) : Prop :=
  exists t0, f text h s = (Ok (Some b), s', t0)
             /\ t = t0 ++ [EIsVisible b None]
             /\ is_visible w (h ++ t0) b = Ok true.

(** The strategies of a list miss one after the other. *)
Inductive all_miss (text : string)
  : list strategy -> history -> S -> S -> list event -> Prop :=
| all_miss_nil h s : all_miss text [] h s s []
| all_miss_cons f fs h s s1 t1 s2 t2 :
    misses f text h s s1 t1 ->
    all_miss text fs (h ++ t1) s1 s2 t2 ->
    all_miss text (f :: fs) h s s2 (t1 ++ t2).

Lemma attempt_misses f text h s s' t :
  misses f text h s s' t ->
  ElementDetector.attempt w f text h s = (Ok None, s', t).
Proof.
  unfold ElementDetector.attempt, try_, bind, ElementDetector.visible, perform, ret.
  intros [[e E]|[E|(b & t0 & E & -> & V)]]; rewrite E; simpl.
  - rewrite app_nil_r. reflexivity.
  - rewrite app_nil_r. reflexivity.
  - destruct (is_visible w (h ++ t0) b) as [[|]|e]; simpl;
      rewrite ?app_nil_r; try reflexivity. congruence.
Qed.

Lemma attempt_hits f text h s b s' t :
  hits f text h s b s' t ->
  ElementDetector.attempt w f text h s = (Ok (Some b), s', t).
Proof.
  unfold ElementDetector.attempt, try_, bind, ElementDetector.visible, perform, ret.
  intros (t0 & E & -> & V). rewrite E; simpl. rewrite V; simpl.
  rewrite ?app_nil_r. reflexivity.
Qed.

Lemma resolve_cons_miss f fs text h s s1 t1 :
  misses f text h s s1 t1 ->
  ElementDetector.resolve w (f :: fs) text h s
  = (result_of (ElementDetector.resolve w fs text (h ++ t1) s1),
     state_of (ElementDetector.resolve w fs text (h ++ t1) s1),
     t1 ++ trace_of (ElementDetector.resolve w fs text (h ++ t1) s1)).
Proof.
  intros M. simpl. erewrite bind_ok; [|apply attempt_misses; exact M].
  reflexivity.
Qed.

End Resolver.

(** C8. Resolver short-circuit: when the strategies before [f] all miss
    (a strategy that raises counts as a miss and the next one is tried) and
    [f] is the first to report a visible element [b], the resolver returns
    exactly [b]; its effects are those of the strategies up to [f], whatever
    strategies follow [f] in the list, so none of them is evaluated.  The
    loop is the one of [find_connect_button] and [find_send_button]. *)
Theorem resolver_short_circuit {S : Type} (w : world) (text : string)
    (before : list (string -> Py S (option locator)))
    (f : string -> Py S (option locator))
    (after : list (string -> Py S (option locator)))
    (h : history) (s s1 s2 : S) (t1 t2 : list event) (b : locator) :
  all_miss w text before h s s1 t1 ->
  hits w f text (h ++ t1) s1 b s2 t2 ->
  ElementDetector.resolve w (before ++ f :: after) text h s
  = (Ok (Some b), s2, t1 ++ t2).
Proof.
  intros Hmiss. revert f after b s2 t2.
  induction Hmiss as [h s|g gs h s s1 t1 s2 t2 Hg Hgs IH]; intros f after b s3 t3 Hhit.
  - rewrite app_nil_r in Hhit. simpl.
    erewrite bind_ok; [|apply attempt_hits; exact Hhit].
    simpl. rewrite app_nil_r. reflexivity.
  - rewrite <- app_comm_cons.
    rewrite (resolve_cons_miss w g _ text h s s1 t1 Hg).
    rewrite app_assoc in Hhit.
    rewrite (IH f after b s3 t3 Hhit).
    unfold result_of, state_of, trace_of; simpl. rewrite app_assoc. reflexivity.
Qed.

(** A page on which only the element with an aria-label naming Connect is
    visible. *)
Definition aria_connect : locator :=
  First (Locator ("button[aria-label*=" +:+ PyStr.q "Connect" +:+ "]")).

Definition aria_only : world :=
  with_is_visible (fun _ l => Ok (bool_decide (l = aria_connect))) calm.

Lemma resolver_short_circuit_witness :
  exists t,
    ElementDetector.resolve (S:=unit) aria_only
      ([ (fun _ => raise "boom"); ElementDetector._find_by_text aria_only ]
       ++ ElementDetector._find_by_attributes aria_only
       :: [ ElementDetector._find_by_xpath aria_only;
            ElementDetector._find_by_visual_pattern aria_only ])
      "Connect" [] tt
    = (Ok (Some aria_connect), tt, t).
Proof.
  eexists.
  eapply resolver_short_circuit.
  - eapply all_miss_cons.
    + left. eexists. reflexivity.
    + eapply all_miss_cons.
      * right; left. reflexivity.
      * apply all_miss_nil.
  - eexists. split; [reflexivity|]. split; reflexivity.
Defined.

(** * Facts about the element detector *)

(** The effects of the detection strategies: entering a [_find_by_*]
    strategy and querying or probing the page. *)
Definition detector_effect (e : event) : Prop :=
  match e with
  | ECall m => PyStr.startswith "ElementDetector._find_by" m = true
  | EIsVisible _ _ | EInnerText _ | EAll _ | EClosest _
  | EClick _ None | EKeyType _ _ | EKeyPress _ => True
  | _ => False
  end.

Ltac effect_leaf := first [exact I | reflexivity | assumption].

Section DetectorFacts.
Context {S : Type} (w : world).
Local Abbreviation strategy := (string -> Py S (option locator)).

Lemma first_visible_emits selectors :
  emits detector_effect (ElementDetector.first_visible (S:=S) w selectors).
Proof.
  induction selectors as [|sel rest IH]; simpl.
  - apply emits_ret.
  - unfold ElementDetector.visible. repeat emits_step; effect_leaf.
Qed.

Lemma first_editable_emits selectors :
  emits detector_effect (ElementDetector.first_editable (S:=S) w selectors).
Proof.
  induction selectors as [|sel rest IH]; simpl.
  - apply emits_ret.
  - unfold ElementDetector.visible. repeat emits_step; effect_leaf.
Qed.

Lemma first_with_connect_text_emits buttons :
  emits detector_effect (ElementDetector.first_with_connect_text (S:=S) w buttons).
Proof.
  induction buttons as [|b rest IH]; simpl.
  - apply emits_ret.
  - repeat emits_step; effect_leaf.
Qed.

(** The strategies of the three resolvers. *)
Definition known_strategy (f : strategy) : Prop :=
  f = ElementDetector._find_by_text w
  \/ f = ElementDetector._find_by_attributes w
  \/ f = ElementDetector._find_by_xpath w
  \/ f = ElementDetector._find_by_placeholder w
  \/ f = ElementDetector._find_by_contenteditable w
  \/ f = ElementDetector._find_by_visual_pattern w.

Lemma known_strategy_emits (f : strategy) text :
  known_strategy f -> emits detector_effect (f text).
Proof.
  intros [->|[->|[->|[->|[->| ->]]]]].
  - unfold ElementDetector._find_by_text.
    emits_step; [emits_step; effect_leaf|apply first_visible_emits].
  - unfold ElementDetector._find_by_attributes.
    emits_step; [emits_step; effect_leaf|apply first_visible_emits].
  - unfold ElementDetector._find_by_xpath.
    emits_step; [emits_step; effect_leaf|apply first_visible_emits].
  - unfold ElementDetector._find_by_placeholder.
    emits_step; [emits_step; effect_leaf|apply first_visible_emits].
  - unfold ElementDetector._find_by_contenteditable.
    emits_step; [emits_step; effect_leaf|apply first_editable_emits].
  - unfold ElementDetector._find_by_visual_pattern, ElementDetector.visible.
    repeat emits_step; try effect_leaf.
    apply first_with_connect_text_emits.
Qed.

Lemma attempt_emits (f : strategy) text :
  emits detector_effect (f text) ->
  emits detector_effect (ElementDetector.attempt w f text).
Proof.
  intros Hf. unfold ElementDetector.attempt, ElementDetector.visible.
  emits_step; [|emits_step].
  emits_step; [exact Hf|]. repeat emits_step; effect_leaf.
Qed.

Lemma resolve_emits (fs : list strategy) text :
  Forall known_strategy fs ->
  emits detector_effect (ElementDetector.resolve w fs text).
Proof.
  induction 1 as [|f fs Hf _ IH]; simpl.
  - apply emits_ret.
  - emits_step.
    + apply attempt_emits, known_strategy_emits, Hf.
    + emits_step; [apply emits_ret|exact IH].
Qed.

Lemma attempt_safe (f : strategy) text : safe (ElementDetector.attempt w f text).
Proof. apply safe_try. intros; apply safe_ret. Qed.

Lemma resolve_safe (fs : list strategy) text : safe (ElementDetector.resolve w fs text).
Proof.
  induction fs as [|f fs IH]; simpl.
  - apply safe_ret.
  - apply safe_bind; [apply attempt_safe|].
    intros [b|]; [apply safe_ret|exact IH].
Qed.

Lemma first_visible_readonly selectors :
  readonly (ElementDetector.first_visible (S:=S) w selectors).
Proof.
  induction selectors as [|sel rest IH]; simpl.
  - apply readonly_ret.
  - apply readonly_bind.
    + apply readonly_try; [|intros; apply readonly_ret].
      apply readonly_bind; [apply readonly_perform|intros; apply readonly_ret].
    + intros [e|]; [apply readonly_ret|exact IH].
Qed.

Lemma first_editable_readonly selectors :
  readonly (ElementDetector.first_editable (S:=S) w selectors).
Proof.
  induction selectors as [|sel rest IH]; simpl.
  - apply readonly_ret.
  - apply readonly_bind.
    + apply readonly_try; [|intros; apply readonly_ret].
      apply readonly_bind; [apply readonly_perform|].
      intros [|]; [|apply readonly_ret].
      repeat (apply readonly_bind; [apply readonly_perform|intros ?]).
      apply readonly_ret.
    + intros [e|]; [apply readonly_ret|exact IH].
Qed.

Lemma first_with_connect_text_readonly buttons :
  readonly (ElementDetector.first_with_connect_text (S:=S) w buttons).
Proof.
  induction buttons as [|b rest IH]; simpl.
  - apply readonly_ret.
  - apply readonly_bind; [apply readonly_perform|].
    intros txt. destruct (PyStr.contains "Connect" txt);
      [apply readonly_ret|exact IH].
Qed.

Lemma known_strategy_readonly (f : strategy) text : known_strategy f -> readonly (f text).
Proof.
  intros [->|[->|[->|[->|[->| ->]]]]];
    (apply readonly_bind; [apply readonly_perform|intros _]).
  - apply first_visible_readonly.
  - apply first_visible_readonly.
  - apply first_visible_readonly.
  - apply first_visible_readonly.
  - apply first_editable_readonly.
  - destruct (String.eqb text "Connect"); [|apply readonly_ret].
    apply readonly_try; [|intros; apply readonly_ret].
    apply readonly_bind; [apply readonly_perform|].
    intros [|]; [|apply readonly_ret].
    apply readonly_bind; [apply readonly_perform|].
    intros [|]; [|apply readonly_ret].
    apply readonly_bind; [apply readonly_perform|].
    intros n. apply first_with_connect_text_readonly.
Qed.

Lemma resolve_readonly (fs : list strategy) text :
  Forall known_strategy fs -> readonly (ElementDetector.resolve w fs text).
Proof.
  induction 1 as [|f fs Hf _ IH]; simpl.
  - apply readonly_ret.
  - apply readonly_bind.
    + apply readonly_try; [|intros; apply readonly_ret].
      apply readonly_bind; [apply known_strategy_readonly, Hf|].
      intros [b|]; [|apply readonly_ret].
      apply readonly_bind; [apply readonly_perform|intros; apply readonly_ret].
    + intros [b|]; [apply readonly_ret|exact IH].
Qed.

Lemma connect_strategies_known :
  Forall known_strategy
    [ ElementDetector._find_by_text w; ElementDetector._find_by_attributes w;
      ElementDetector._find_by_xpath w;
      ElementDetector._find_by_visual_pattern w ].
Proof. unfold known_strategy. repeat constructor; tauto. Qed.

Lemma input_strategies_known :
  Forall known_strategy
    [ ElementDetector._find_by_placeholder w;
      ElementDetector._find_by_attributes w;
      ElementDetector._find_by_xpath w;
      ElementDetector._find_by_contenteditable w ].
Proof. unfold known_strategy. repeat constructor; tauto. Qed.

Lemma send_strategies_known :
  Forall known_strategy
    [ ElementDetector._find_by_text w; ElementDetector._find_by_attributes w;
      ElementDetector._find_by_xpath w ].
Proof. unfold known_strategy. repeat constructor; tauto. Qed.

(** A resolver never raises, leaves the state alone, and its effects are
    its entry followed by effects of the strategies. *)
Definition resolver_spec (name : string) (m : Py S (option locator)) : Prop :=
  forall h s,
    post m h s (fun r s' t =>
      (exists found, r = Ok found) /\ s' = s
      /\ exists t', t = ECall name :: t' /\ Forall detector_effect t').

Lemma resolver_spec_intro name (fs : list strategy) text :
  Forall known_strategy fs ->
  resolver_spec name (let* _ := emit (ECall name) in
                      ElementDetector.resolve w fs text).
Proof.
  intros Hfs h s. unfold post.
  pose proof (resolve_safe fs text (h ++ [ECall name]) s) as [found Hr].
  pose proof (resolve_readonly fs text Hfs (h ++ [ECall name]) s) as Hs.
  pose proof (resolve_emits fs text Hfs (h ++ [ECall name]) s) as Ht.
  unfold bind, emit, perform, result_of, state_of, trace_of in *. simpl.
  destruct (ElementDetector.resolve w fs text (h ++ [ECall name]) s)
    as [[r s'] t]; simpl in *.
  split; [eauto|]. split; [exact Hs|]. eexists; split; [reflexivity|exact Ht].
Qed.

Lemma find_connect_button_spec :
  resolver_spec "ElementDetector.find_connect_button"
                (ElementDetector.find_connect_button w).
Proof. apply resolver_spec_intro, connect_strategies_known. Qed.

Lemma find_message_input_spec :
  resolver_spec "ElementDetector.find_message_input"
                (ElementDetector.find_message_input w).
Proof. apply resolver_spec_intro, input_strategies_known. Qed.

Lemma find_send_button_spec :
  resolver_spec "ElementDetector.find_send_button"
                (ElementDetector.find_send_button w).
Proof. apply resolver_spec_intro, send_strategies_known. Qed.

End DetectorFacts.

(** * The connection manager: locating the Connect control *)

(** One resolution attempt of [_find_connect_button]. *)
Definition is_attempt : event -> bool :=
  is_call "ElementDetector.find_connect_button".

(** The backoff [asyncio.sleep(random.uniform(1, 3))]. *)
Definition is_backoff (e : event) : bool :=
  match e with
  | ESleep (Uniform lo hi) => Qeq_bool lo 1 && Qeq_bool hi 3
  | _ => false
  end.

Lemma detector_effect_not_attempt e : detector_effect e -> is_attempt e = false.
Proof.
  destruct e as [m| | | | | | | | | | | | | | | | | | | | | |];
    try (intros _; reflexivity).
  intros H. unfold is_attempt, is_call.
  destruct (String.eqb_spec "ElementDetector.find_connect_button" m) as [<-|];
    [|reflexivity].
  vm_compute in H. discriminate.
Qed.

Lemma detector_effect_not_backoff e : detector_effect e -> is_backoff e = false.
Proof. destruct e; try (intros _; reflexivity). intros []. Qed.

Lemma detector_effects_count t :
  Forall detector_effect t -> count is_attempt t = 0 /\ count is_backoff t = 0.
Proof.
  intros H. split; apply count_none; eapply Forall_impl; try exact H.
  - apply detector_effect_not_attempt.
  - apply detector_effect_not_backoff.
Qed.

Lemma find_connect_button_run {S} w h (s : S) r s' t :
  ElementDetector.find_connect_button w h s = (r, s', t) ->
  (exists found, r = Ok found) /\ s' = s
  /\ count is_attempt t = 1 /\ count is_backoff t = 0.
Proof.
  intros H. pose proof (post_run _ _ _ _ _ _ _ H (find_connect_button_spec w h s))
    as (Hr & Hs & t' & -> & Ht').
  destruct (detector_effects_count t' Ht') as [Ha Hb].
  simpl. rewrite Ha, Hb. auto.
Qed.

Lemma find_connect_button_loop_spec w n h s r s' t :
  ConnectionManager.find_connect_button_loop w n h s = (r, s', t) ->
  s' = s /\
  match r with
  | Ok None => count is_attempt t = n /\ count is_backoff t = n
  | Ok (Some _) => 1 <= count is_attempt t <= n
                   /\ count is_backoff t = count is_attempt t - 1
  | Raise _ => False
  end.
Proof.
  revert h s r s' t. induction n as [|n IH]; intros h s r s' t H; simpl in H.
  - runs_inv. auto.
  - unfold ElementDetector.visible in H. runs_inv;
      repeat match goal with
             | H : ElementDetector.find_connect_button _ _ _ = _ |- _ =>
                 apply find_connect_button_run in H;
                 destruct H as ([? ?] & ? & ? & ?)
             | H : ConnectionManager.find_connect_button_loop _ _ _ _ = _ |- _ =>
                 apply IH in H; destruct H as [? H]
             end; simplify_eq; (split; [reflexivity|]);
      try (destruct r as [[?|]|?]; [| |contradiction]);
      rewrite ?count_app; simpl count; lia.
Qed.

Lemma simulate_scroll_eq w :
  ConnectionManager._simulate_human_behavior w "scroll"
  = (let* _ := emit (ECall "ConnectionManager._simulate_human_behavior") in
     let* _ := perform (EScrollBy (RandInt 200 800)) (page_scroll w) in
     emit (ESleep (Uniform 1 3))).
Proof. reflexivity. Qed.

Lemma simulate_typing_eq w :
  ConnectionManager._simulate_human_behavior w "typing"
  = (let* _ := emit (ECall "ConnectionManager._simulate_human_behavior") in
     emit (ESleep (Uniform 0.05 0.2))).
Proof. reflexivity. Qed.

(** * Runs of the collaborators of [send_connection_request] *)

(** The boolean computed by [validate_profile_data]. *)
Definition sufficient (d : ProfileData) : bool :=
  match ProfileScraper.missing_fields d with
  | [] => (3 <=? ProfileScraper.context_score d)%nat
  | _ :: _ => false
  end.

Definition generate_call : string := "MessageGenerator.generate_personalized_message".
Definition lookup_call : string := "ConnectionManager._find_connect_button".
Definition send_call : string := "ConnectionManager.send_connection_request".

(** The pause between two requests,
    [asyncio.sleep(random.uniform(30, 120))]. *)
Definition is_request_pause (e : event) : bool :=
  match e with
  | ESleep (Uniform lo hi) => Qeq_bool lo 30 && Qeq_bool hi 120
  | _ => false
  end.

(** Effects that are neither the start of an attempt, nor a call of the
    message generator, nor a lookup of the Connect control, nor a request to
    the chat service, nor a pause between requests, nor a sleep of a whole
    number of seconds. *)
Definition page_effect (e : event) : Prop :=
  match e with
  | ECall m => m <> generate_call /\ m <> lookup_call
               /\ m <> "ElementDetector.find_connect_button"
               /\ m <> send_call
  | ESleep (RandInt _ _) => False
  | ESleep d => is_request_pause (ESleep d) = false
  | EChat _ | ETemplate => False
  | _ => True
  end.

Lemma detector_effect_page e : detector_effect e -> page_effect e.
Proof.
  destruct e as [m| | |d| | | | | | | | | | | | | | | | | | |];
    try (intros _; exact I).
  - intros H. cbv [page_effect].
    repeat split; intros ->; vm_compute in H; discriminate.
  - intros [].
  - intros [].
  - intros [].
Qed.

Lemma extract_profile_data_run w url h d r d' t :
  ProfileScraper.extract_profile_data w url h d = (r, d', t) ->
  r = Ok d /\ d' = d
  /\ t = [ECall "ProfileScraper.extract_profile_data"; EGoto url].
Proof.
  unfold ProfileScraper.extract_profile_data,
    ProfileScraper.detector_simulate_human_behavior.
  intros H. runs_inv; auto.
Qed.

Lemma validate_profile_data_run h d r d' t :
  ProfileScraper.validate_profile_data h d = (r, d', t) ->
  r = Ok (sufficient d) /\ d' = d
  /\ t = [ECall "ProfileScraper.validate_profile_data"].
Proof.
  unfold ProfileScraper.validate_profile_data, sufficient.
  intros H. runs_inv; use_eqs; auto.
Qed.

(** The context built by [get_profile_context] from the profile [d]. *)
Definition context_of (d : ProfileData) : profile_context :=
  {| name := name d; job_title := job_title d; company := company d;
     industry := industry d; location := location d;
     summary := if PyStr.truthy (summary d) then PyStr.take 500 (summary d)
                else "";
     skills := firstn 5 (skills d);
     experience := firstn 2 (experience d);
     education := firstn 2 (education d);
     recent_posts := firstn 2 (recent_posts d) |}.

Lemma get_profile_context_run h d r d' t :
  ProfileScraper.get_profile_context h d = (r, d', t) ->
  r = Ok (context_of d) /\ d' = d
  /\ t = [ECall "ProfileScraper.get_profile_context"].
Proof.
  unfold ProfileScraper.get_profile_context.
  intros H. runs_inv; auto.
Qed.

(** The message generator never raises; it is entered once and then asks
    the chat service, and the templates when the answer is unusable.  Its
    message is the stripped answer of the chat service when there is one. *)
Lemma generate_personalized_message_run {S} w ctx h (s : S) r s' t :
  MessageGenerator.generate_personalized_message w ctx h s = (r, s', t) ->
  exists gm, r = Ok gm /\ s' = s
  /\ (t = [ECall generate_call; EChat (create_personalized_prompt w ctx)]
      \/ t = [ECall generate_call; EChat (create_personalized_prompt w ctx);
              ETemplate])
  /\ (forall text,
        chat_completion w (h ++ [ECall generate_call])
                        (create_personalized_prompt w ctx) = Ok (Content text) ->
        MessageGenerator.message gm = PyStr.strip text
        /\ MessageGenerator.fallback_used gm = false).
Proof.
  unfold MessageGenerator.generate_personalized_message, generate_call.
  intros H. runs_inv; eexists; (split; [reflexivity|]); (split; [reflexivity|]);
    (split; [auto|]); intros txt Ht; simpl; split; congruence.
Qed.

Ltac page_leaf :=
  first [ assumption | exact I | reflexivity
        | cbv [page_effect generate_call lookup_call send_call];
          repeat split; discriminate ].

(** Split a [Forall] over a trace built with [++] and [::]. *)
Ltac forall_effects :=
  repeat lazymatch goal with
         | H : Forall ?P ?t |- Forall ?P ?t => exact H
         | |- Forall _ [] => apply List.Forall_nil
         | |- Forall _ (_ :: _) => apply List.Forall_cons; [page_leaf|]
         | |- Forall _ (_ ++ _) => apply Forall_app; split
         end.

(** The effects of typing [message] into [input]. *)
Definition typing (input : locator) (message : string) : list event :=
  map (fun c => EType input c (Uniform 50 150)) (list_ascii_of_string message).

Lemma resolver_run {S} name (m : Py S (option locator)) h s r s' t :
  resolver_spec name m ->
  m h s = (r, s', t) ->
  (exists found, r = Ok found) /\ s' = s
  /\ exists t', t = ECall name :: t' /\ Forall page_effect t'.
Proof.
  intros Hm H. pose proof (post_run _ _ _ _ _ _ _ H (Hm h s))
    as (Hr & Hs & t' & -> & Ht').
  split; [exact Hr|]. split; [exact Hs|]. exists t'. split; [reflexivity|].
  eapply Forall_impl; [exact Ht'|]. apply detector_effect_page.
Qed.

Lemma type_message_run w input message h s r s' t :
  ConnectionManager.type_message w input message h s = (r, s', t) ->
  s' = s /\ Forall page_effect t
  /\ (forall u, r = Ok u -> t = typing input message).
Proof.
  revert h s r s' t. induction message as [|c rest IH]; intros h s r s' t H;
    simpl in H.
  - runs_inv. split; [reflexivity|]. split; [constructor|]. reflexivity.
  - runs_inv.
    + split; [reflexivity|]. split; [forall_effects|]. intros u Hu. congruence.
    + apply IH in H. destruct H as (-> & Ht & Hok).
      split; [reflexivity|]. split; [forall_effects|].
      intros u ->. rewrite (Hok u eq_refl). reflexivity.
Qed.

(** [_handle_connection_modal] never raises and keeps the state; when it
    answers [True] the whole message was typed into the input found, and
    the Send control found afterwards was clicked. *)
Lemma handle_connection_modal_run w message h s r s' t :
  ConnectionManager._handle_connection_modal w message h s = (r, s', t) ->
  exists sent, r = Ok sent /\ s' = s /\ Forall page_effect t
  /\ (sent = true ->
      exists input send t1 t2 t3,
        t = t1 ++ typing input message ++ t2 ++ EClick send None :: t3).
Proof.
  unfold ConnectionManager._handle_connection_modal.
  rewrite simulate_typing_eq.
  intros H. runs_inv;
    repeat match goal with
           | H : ElementDetector.find_message_input _ _ _ = _ |- _ =>
               apply (resolver_run _ _ _ _ _ _ _ (find_message_input_spec _)) in H;
               destruct H as ([? ?] & ? & ? & ? & ?)
           | H : ElementDetector.find_send_button _ _ _ = _ |- _ =>
               apply (resolver_run _ _ _ _ _ _ _ (find_send_button_spec _)) in H;
               destruct H as ([? ?] & ? & ? & ? & ?)
           | H : ConnectionManager.type_message _ _ _ _ _ = _ |- _ =>
               apply type_message_run in H; destruct H as (? & ? & ?)
           end; simplify_eq;
    eexists; (split; [reflexivity|]); (split; [reflexivity|]);
    (split; [forall_effects|]); try discriminate.
  intros _.
  match goal with
  | H : forall u, Ok ?v = Ok u -> _ |- _ => rewrite (H v eq_refl)
  end.
  lazymatch goal with
  | |- exists _ _ _ _ _,
        ?a ++ ?b ++ [] ++ ?c ++ ?d ++ ?e ++ ?f ++ typing ?i _ ++ ?g
        ++ [EClick ?snd None] ++ ?rest = _ =>
      exists i, snd, (a ++ b ++ c ++ d ++ e ++ f), g, rest
  end.
  rewrite <- !app_assoc. reflexivity.
Qed.

Lemma resolver_emits {S} (P : event -> Prop) name (m : Py S (option locator)) :
  resolver_spec name m -> P (ECall name) ->
  (forall e, detector_effect e -> P e) -> emits P m.
Proof.
  intros Hm Hname HP h s.
  destruct (Hm h s) as (_ & _ & t' & Ht & Ht'). rewrite Ht.
  constructor; [exact Hname|]. eapply Forall_impl; [exact Ht'|exact HP].
Qed.

(** The effects of a lookup of the Connect control: page effects and
    resolution attempts. *)
Definition lookup_effect (e : event) : Prop :=
  page_effect e \/ e = ECall "ElementDetector.find_connect_button".

Lemma find_connect_button_loop_emits w n :
  emits lookup_effect (ConnectionManager.find_connect_button_loop w n).
Proof.
  induction n as [|n IH]; simpl.
  - apply emits_ret.
  - unfold ElementDetector.visible. emits_step.
    + emits_step; [|emits_step]. emits_step.
      * apply (resolver_emits _ _ _ (find_connect_button_spec w)).
        -- right; reflexivity.
        -- intros e He. left. apply detector_effect_page, He.
      * repeat emits_step; left; exact I.
    + emits_step; [emits_step|]. emits_step; [|exact IH].
      emits_step. left; reflexivity.
Qed.

(** A lookup of the Connect control makes at most three resolution
    attempts, backs off after each failed one, and raises only when the
    selector file cannot be read. *)
Lemma lookup_run w h s r s' t :
  ConnectionManager._find_connect_button w h s = (r, s', t) ->
  ConnectionManager.profile_data s' = ConnectionManager.profile_data s
  /\ count is_attempt t <= 3
  /\ (exists t', t = ECall lookup_call :: ELoadConfig :: t'
                 /\ Forall lookup_effect t')
  /\ match r with
     | Ok None => count is_attempt t = 3 /\ count is_backoff t = 3
     | Ok (Some _) => 1 <= count is_attempt t
                      /\ count is_backoff t = count is_attempt t - 1
     | Raise e => load_selectors_config w (h ++ [ECall lookup_call]) = Raise e
                  /\ t = [ECall lookup_call; ELoadConfig]
     end.
Proof.
  unfold ConnectionManager._find_connect_button, ConnectionManager.set_detector,
    ElementDetector.__init__, lookup_call.
  intros H. runs_inv.
  - split; [reflexivity|]. split; [simpl; lia|].
    split; [exists []; split; [reflexivity|constructor]|]. split; [congruence|reflexivity].
  - match type of H with
    | _ _ _ ?h0 ?s0 = (_, _, ?t0) =>
        assert (He : Forall lookup_effect t0)
          by (pose proof (find_connect_button_loop_emits w 3 h0 s0) as He;
              rewrite H in He; exact He)
    end.
    pose proof (find_connect_button_loop_spec _ _ _ _ _ _ _ H) as [-> Hr].
    split; [reflexivity|].
    split; [|split].
    + simpl. destruct r as [[b|]|e]; [| |contradiction]; lia.
    + eexists; split; [reflexivity|exact He].
    + simpl. destruct r as [[b|]|e]; [| |contradiction]; lia.
Qed.

(** * Runs of [send_connection_request] *)

(** The effects of an attempt up to and including the validation. *)
Definition prelude (url : string) : list event :=
  [ ECall "ConnectionManager.send_connection_request"; ETime; EGoto url;
    ECall "ConnectionManager._simulate_human_behavior";
    EScrollBy (RandInt 200 800); ESleep (Uniform 1 3);
    ECall "ProfileScraper.extract_profile_data"; EGoto url;
    ECall "ProfileScraper.validate_profile_data" ].

Ltac sub_runs :=
  repeat match goal with
         | H : ProfileScraper.extract_profile_data _ _ _ _ = _ |- _ =>
             apply extract_profile_data_run in H; destruct H as (? & ? & ?)
         | H : ProfileScraper.validate_profile_data _ _ = _ |- _ =>
             apply validate_profile_data_run in H; destruct H as (? & ? & ?)
         | H : ProfileScraper.get_profile_context _ _ = _ |- _ =>
             apply get_profile_context_run in H; destruct H as (? & ? & ?)
         end.

Lemma state_eta (s : ConnectionManager.state) :
  {| ConnectionManager.profile_data := ConnectionManager.profile_data s;
     ConnectionManager.detector := ConnectionManager.detector s |} = s.
Proof. destruct s; reflexivity. Qed.

(** Bring histories and traces to the form [a :: b :: ... ++ rest]. *)
Ltac tidy :=
  repeat match goal with
         | H : context [(_ ++ _) ++ _] |- _ => rewrite <- app_assoc in H
         | H : context [_ ++ []] |- _ => rewrite app_nil_r in H
         | H : context [ {| ConnectionManager.profile_data :=
                              ConnectionManager.profile_data ?s;
                            ConnectionManager.detector :=
                              ConnectionManager.detector ?s |} ] |- _ =>
             rewrite (state_eta s) in H
         end;
  rewrite <- ?app_assoc, ?app_nil_r, ?state_eta;
  cbn [app] in *.

Definition context_call : event := ECall "ProfileScraper.get_profile_context".
Definition typing_pause : list event :=
  [ ECall "ConnectionManager._simulate_human_behavior";
    ESleep (Uniform 0.05 0.2) ].

(** The effects of an attempt before it looks for the Connect control,
    [tg] being the effects of the message generator. *)
Definition before_lookup (url : string) (tg : list event) : list event :=
  prelude url ++ context_call :: tg.

(** Equality of histories or traces up to the association of [++]. *)
Ltac list_eq :=
  cbv [before_lookup prelude typing_pause context_call];
  repeat (progress (cbn [app firstn]; rewrite <- ?app_assoc));
  rewrite ?app_nil_r; reflexivity.

Section AttemptRuns.
Import ConnectionManager.
Variables (w : world) (url : string).

(** What an attempt does once the lookup of the Connect control, run
    after the history [h], has given [rl] and left the state [s]: the
    result, the final state and the effects. *)
Inductive after_lookup (start : Q) (message : string) (h : history)
  : outcome (option locator) -> state -> result -> list event -> Prop :=
| config_failed e s :
    after_lookup start message h (Raise e) s
                 (with_error e (initial_result url)) []
| button_not_found s :
    after_lookup start message h (Ok None) s
                 (with_error "Could not find Connect button"
                             (initial_result url)) []
| click_failed b s e :
    click w h b = Raise e ->
    after_lookup start message h (Ok (Some b)) s
                 (with_error e (initial_result url)) [EClick b None]
| modal_failed b s tm :
    _handle_connection_modal w message
      (h ++ EClick b None :: typing_pause) s = (Ok false, s, tm) ->
    after_lookup start message h (Ok (Some b)) s
                 (with_error "Failed to send message in connection modal"
                             (initial_result url))
                 (EClick b None :: typing_pause ++ tm)
| request_sent b s tm :
    _handle_connection_modal w message
      (h ++ EClick b None :: typing_pause) s = (Ok true, s, tm) ->
    after_lookup start message h (Ok (Some b)) s
                 (with_success message
                    (time_time w (h ++ EClick b None :: typing_pause ++ tm)
                     - start)%Q
                    (initial_result url))
                 (EClick b None :: typing_pause ++ tm ++ [ETime]).

(** The runs of [send_connection_request] from the history [h] and the
    state [s]: result, final state and effects. *)
Inductive attempt_run (h : history) (s : state)
  : result -> state -> list event -> Prop :=
| goto_failed e :
    page_goto w (h ++ firstn 2 (prelude url)) url = Raise e ->
    attempt_run h s (with_error e (initial_result url)) s
                (firstn 3 (prelude url))
| scroll_failed e :
    page_scroll w (h ++ firstn 4 (prelude url)) = Raise e ->
    attempt_run h s (with_error e (initial_result url)) s
                (firstn 5 (prelude url))
| insufficient :
    sufficient (profile_data s) = false ->
    attempt_run h s
                (with_error "Insufficient profile data for personalization"
                            (initial_result url))
                s (prelude url)
| generated gm tg rl sl tl res rest :
    sufficient (profile_data s) = true ->
    MessageGenerator.generate_personalized_message
      w (context_of (profile_data s))
      (h ++ prelude url ++ [context_call]) s = (Ok gm, s, tg) ->
    _find_connect_button w (h ++ before_lookup url tg) s = (rl, sl, tl) ->
    after_lookup (time_time w (h ++ firstn 1 (prelude url)))
                 (MessageGenerator.message gm)
                 (h ++ before_lookup url tg ++ tl) rl sl res rest ->
    attempt_run h s res sl (before_lookup url tg ++ tl ++ rest).

Lemma click_failed_flex start message h h' b s e :
  click w h' b = Raise e -> h' = h ->
  after_lookup start message h (Ok (Some b)) s
               (with_error e (initial_result url)) [EClick b None].
Proof. intros H ->. apply click_failed, H. Qed.

Lemma modal_failed_flex start message h h' b s tm rest :
  _handle_connection_modal w message h' s = (Ok false, s, tm) ->
  h' = h ++ EClick b None :: typing_pause ->
  rest = EClick b None :: typing_pause ++ tm ->
  after_lookup start message h (Ok (Some b)) s
               (with_error "Failed to send message in connection modal"
                           (initial_result url)) rest.
Proof. intros H -> ->. apply modal_failed, H. Qed.

Lemma request_sent_flex start message h h' h'' b s tm rest :
  _handle_connection_modal w message h' s = (Ok true, s, tm) ->
  h' = h ++ EClick b None :: typing_pause ->
  h'' = h ++ EClick b None :: typing_pause ++ tm ->
  rest = EClick b None :: typing_pause ++ tm ++ [ETime] ->
  after_lookup start message h (Ok (Some b)) s
               (with_success message (time_time w h'' - start)%Q
                             (initial_result url)) rest.
Proof. intros H -> -> ->. apply request_sent, H. Qed.

Lemma generated_flex h s gm tg rl sl tl res rest hg hl t :
  sufficient (profile_data s) = true ->
  MessageGenerator.generate_personalized_message
    w (context_of (profile_data s)) hg s = (Ok gm, s, tg) ->
  hg = h ++ prelude url ++ [context_call] ->
  _find_connect_button w hl s = (rl, sl, tl) ->
  hl = h ++ before_lookup url tg ->
  after_lookup (time_time w (h ++ firstn 1 (prelude url)))
               (MessageGenerator.message gm)
               (h ++ before_lookup url tg ++ tl) rl sl res rest ->
  t = before_lookup url tg ++ tl ++ rest ->
  attempt_run h s res sl t.
Proof. intros Hs Hg -> Hl -> Ha ->. eapply generated; eassumption. Qed.

Lemma send_connection_request_run p h s r s' t :
  send_connection_request w url p h s = (r, s', t) ->
  exists res, r = Ok res /\ attempt_run h s res s' t.
Proof.
  unfold send_connection_request.
  rewrite !simulate_scroll_eq, !simulate_typing_eq.
  unfold scraper.
  intros H.
  repeat match goal with
         | H : _ = (_, _, _) |- _ =>
             first [run_inv H | progress sub_runs]; simplify_eq
         end;
    repeat match goal with
           | H : MessageGenerator.generate_personalized_message _ _ _ _ = _ |- _ =>
               let G := fresh "G" in
               pose proof (generate_personalized_message_run _ _ _ _ _ _ _ H)
                 as (? & ? & ? & G);
               clear G; simplify_eq; revert H
           | H : _handle_connection_modal _ _ _ _ = _ |- _ =>
               let G := fresh "G" in
               pose proof (handle_connection_modal_run _ _ _ _ _ _ _ H)
                 as (? & ? & ? & G);
               clear G; simplify_eq; revert H
           end; intros; tidy;
    (eexists; split; [reflexivity|]);
    first
      [ apply goto_failed; symmetry; eassumption
      | apply scroll_failed; symmetry; eassumption
      | apply insufficient; apply negb_true_iff; assumption
      | eapply generated_flex;
        [ apply negb_false_iff; eassumption
        | eassumption | list_eq | eassumption | list_eq
        | first [ apply config_failed
                | apply button_not_found
                | eapply click_failed_flex; [symmetry; eassumption|list_eq]
                | eapply modal_failed_flex; [eassumption|list_eq|list_eq]
                | eapply request_sent_flex;
                  [eassumption|list_eq|list_eq|list_eq] ]
        | list_eq ] ].
Qed.
End AttemptRuns.

(** * Counting calls in the runs of [send_connection_request] *)

Definition is_generate : event -> bool := is_call generate_call.
Definition is_lookup : event -> bool := is_call lookup_call.

(** The extended cooldown [asyncio.sleep(random.randint(300, 900))]. *)
Definition is_cooldown (e : event) : bool :=
  match e with
  | ESleep (RandInt lo hi) => (lo =? 300)%Z && (hi =? 900)%Z
  | _ => false
  end.

Definition is_send : event -> bool := is_call send_call.

Lemma is_call_false name m : m <> name -> is_call name (ECall m) = false.
Proof.
  intros H. unfold is_call. destruct (String.eqb_spec name m); congruence.
Qed.

Lemma page_effect_quiet e :
  page_effect e ->
  is_generate e = false /\ is_lookup e = false /\ is_attempt e = false
  /\ is_cooldown e = false /\ is_send e = false
  /\ is_request_pause e = false.
Proof.
  destruct e as [m| | |d| | | | | | | | | | | | | | | | | | |];
    try (intros _; repeat split; reflexivity).
  - intros (H1 & H2 & H3 & H4).
    repeat split; try reflexivity; apply is_call_false; assumption.
  - destruct d as [v|lo hi|lo hi]; [| |intros []];
      intros H; repeat split; try reflexivity; exact H.
Qed.

Lemma page_effects_quiet t :
  Forall page_effect t ->
  count is_generate t = 0 /\ count is_lookup t = 0 /\ count is_attempt t = 0
  /\ count is_cooldown t = 0 /\ count is_send t = 0
  /\ count is_request_pause t = 0.
Proof.
  intros H. repeat split; apply count_none; eapply Forall_impl; try exact H;
    intros e He; apply page_effect_quiet in He; tauto.
Qed.

Lemma lookup_effects_quiet t :
  Forall lookup_effect t ->
  count is_generate t = 0 /\ count is_lookup t = 0 /\ count is_cooldown t = 0
  /\ count is_send t = 0 /\ count is_request_pause t = 0.
Proof.
  intros H. repeat split; apply count_none; eapply Forall_impl; try exact H;
    (intros e [He| ->]; [apply page_effect_quiet in He; tauto|reflexivity]).
Qed.

Lemma truthy_false s : PyStr.truthy s = false <-> s = "".
Proof. destruct s; simpl; split; congruence. Qed.

Lemma sufficient_false_iff d :
  sufficient d = false <->
  (ProfileScraper.context_score d < 3 \/ name d = "" \/ job_title d = ""
   \/ company d = "").
Proof.
  unfold sufficient, ProfileScraper.missing_fields.
  rewrite <- !truthy_false.
  destruct (Nat.leb_spec 3 (ProfileScraper.context_score d));
    destruct (PyStr.truthy (name d)), (PyStr.truthy (job_title d)),
    (PyStr.truthy (company d)); simpl;
    (split; [intros H'|intros [H'|[H'|[H'|H']]]]);
    try reflexivity; try discriminate; try lia; auto.
Qed.

Lemma generator_trace_counts w ctx t :
  t = [ECall generate_call; EChat (create_personalized_prompt w ctx)]
  \/ t = [ECall generate_call; EChat (create_personalized_prompt w ctx); ETemplate] ->
  count is_generate t = 1 /\ count is_lookup t = 0 /\ count is_attempt t = 0
  /\ count is_cooldown t = 0.
Proof. intros [-> | ->]; repeat split; reflexivity. Qed.

Section AttemptFacts.
Import ConnectionManager.
Variables (w : world) (url : string).

Lemma after_lookup_effects start message h rl s res rest :
  after_lookup w url start message h rl s res rest -> Forall page_effect rest.
Proof.
  intros [e s0|s0|b s0 e Hc|b s0 tm Hm|b s0 tm Hm];
    try (apply handle_connection_modal_run in Hm;
         destruct Hm as (sent & _ & _ & Hm & _));
    unfold typing_pause; forall_effects.
Qed.

Lemma attempt_run_state h s res s' t :
  attempt_run w url h s res s' t -> profile_data s' = profile_data s.
Proof.
  intros [e He|e He|Hs|gm tg rl sl tl res0 rest Hs Hg Hl Ha]; try reflexivity.
  apply lookup_run in Hl. tauto.
Qed.

(** The counts of an attempt that reached the message generator. *)
Lemma generated_counts h s gm tg rl sl tl res rest :
  MessageGenerator.generate_personalized_message
    w (context_of (profile_data s))
    (h ++ prelude url ++ [context_call]) s = (Ok gm, s, tg) ->
  _find_connect_button w (h ++ before_lookup url tg) s = (rl, sl, tl) ->
  after_lookup w url (time_time w (h ++ firstn 1 (prelude url)))
               (MessageGenerator.message gm)
               (h ++ before_lookup url tg ++ tl) rl sl res rest ->
  count is_generate (before_lookup url tg) = 1
  /\ count is_lookup (before_lookup url tg) = 0
  /\ count is_attempt (before_lookup url tg) = 0
  /\ count is_cooldown (before_lookup url tg) = 0
  /\ count is_generate (tl ++ rest) = 0
  /\ count is_lookup (tl ++ rest) = 1
  /\ count is_attempt (tl ++ rest) <= 3
  /\ count is_cooldown (tl ++ rest) = 0.
Proof.
  intros Hg Hl Ha.
  apply generate_personalized_message_run in Hg.
  destruct Hg as (gm' & _ & _ & Htg & _).
  apply generator_trace_counts in Htg. destruct Htg as (G1 & G2 & G3 & G4).
  apply after_lookup_effects, page_effects_quiet in Ha.
  destruct Ha as (A1 & A2 & A3 & A4 & _ & _).
  apply lookup_run in Hl. destruct Hl as (_ & L1 & (t' & L2 & L3) & _).
  apply lookup_effects_quiet in L3. destruct L3 as (L4 & L5 & L6 & _ & _).
  unfold before_lookup.
  rewrite !count_app, A1, A2, A3, A4. rewrite L2 in *.
  cbn [count prelude context_call app] in *. rewrite ?count_app in *.
  cbn [count] in *.
  rewrite G1, G2, G3, G4, L4, L5, L6.
  change (is_generate (ECall lookup_call)) with false.
  change (is_generate ELoadConfig) with false.
  change (is_lookup (ECall lookup_call)) with true.
  change (is_lookup ELoadConfig) with false.
  change (is_cooldown (ECall lookup_call)) with false.
  change (is_cooldown ELoadConfig) with false.
  repeat split; try reflexivity; try lia.
Qed.

End AttemptFacts.

(** * The claims about one connection attempt *)

(** C1. Sufficiency gating: when the profile data held after the extraction
    scores below 3 (summary +2, skills +1, experience +2, education +1,
    recent activity +2) or lacks the name, the job title or the company,
    [send_connection_request] returns a failed result and the message
    generator is never called. *)
Theorem sufficiency_gating (w : world) (url : string) (p : prospect)
    (h : history) (s : ConnectionManager.state) :
  let run := ConnectionManager.send_connection_request w url p h s in
  let d := ConnectionManager.profile_data (state_of run) in
  ProfileScraper.context_score d < 3 \/ name d = "" \/ job_title d = ""
  \/ company d = "" ->
  exists res, result_of run = Ok res
              /\ ConnectionManager.success res = false
              /\ count is_generate (trace_of run) = 0.
Proof.
  cbv zeta. intros Hd.
  pose proof (run_eta (ConnectionManager.send_connection_request w url p) h s) as E.
  destruct (send_connection_request_run w url p h s _ _ _ E) as (res & Hr & Ha).
  exists res. split; [exact Hr|].
  apply sufficient_false_iff in Hd.
  rewrite (attempt_run_state _ _ _ _ _ _ _ Ha) in Hd.
  destruct Ha as [e He|e He|Hs|gm tg rl sl tl res0 rest Hs Hg Hl Hal];
    try (split; reflexivity).
  congruence.
Qed.

(** The [ConnectionManager] as its constructor leaves it, and one whose
    scraper holds the profile [d]. *)
Definition manager_with (d : ProfileData) : ConnectionManager.state :=
  {| ConnectionManager.profile_data := d; ConnectionManager.detector := false |}.

Definition fresh_manager : ConnectionManager.state :=
  manager_with ProfileScraper.empty_profile.

Definition jane_url : string := "https://www.linkedin.com/in/jane-doe".

Lemma sufficiency_gating_witness :
  exists res,
    result_of (ConnectionManager.send_connection_request
                 calm jane_url ∅ [] fresh_manager) = Ok res
    /\ ConnectionManager.success res = false
    /\ count is_generate
         (trace_of (ConnectionManager.send_connection_request
                      calm jane_url ∅ [] fresh_manager)) = 0.
Proof.
  apply (sufficiency_gating calm jane_url ∅ [] fresh_manager).
  left. vm_compute. lia.
Defined.

(** C10. In every attempt whose validation passes, the message generator is
    called exactly once, and before any lookup of the Connect control: the
    effects before the call hold no lookup and no resolution attempt, the
    lookup follows the call.  This holds whatever the attempt then returns,
    so an attempt that fails on the Connect control or on the modal has
    still made one generation call. *)
Theorem generation_precedes_lookup (w : world) (url : string) (p : prospect)
    (h : history) (s : ConnectionManager.state) :
  let run := ConnectionManager.send_connection_request w url p h s in
  In (ECall "ProfileScraper.validate_profile_data") (trace_of run) ->
  sufficient (ConnectionManager.profile_data (state_of run)) = true ->
  count is_generate (trace_of run) = 1
  /\ exists t1 t2,
       trace_of run = t1 ++ ECall generate_call :: t2
       /\ count is_lookup t1 = 0 /\ count is_attempt t1 = 0
       /\ count is_generate t2 = 0 /\ count is_lookup t2 = 1.
Proof.
  cbv zeta. intros Hin Hs.
  pose proof (run_eta (ConnectionManager.send_connection_request w url p) h s) as E.
  destruct (send_connection_request_run w url p h s _ _ _ E) as (res & Hr & Ha).
  rewrite (attempt_run_state _ _ _ _ _ _ _ Ha) in Hs.
  revert Hin.
  destruct Ha as [e He|e He|Hs'|gm tg rl sl tl res0 rest Hs' Hg Hl Hal].
  - simpl. intuition discriminate.
  - simpl. intuition discriminate.
  - congruence.
  - intros _.
    destruct (generated_counts _ _ _ _ _ _ _ _ _ _ _ Hg Hl Hal)
      as (G1 & G2 & G3 & G4 & R1 & R2 & R3 & R4).
    split; [rewrite count_app, G1, R1; reflexivity|].
    apply generate_personalized_message_run in Hg.
    destruct Hg as (gm' & _ & _ & Htg & _).
    exists (prelude url ++ [context_call]).
    destruct Htg as [-> | ->].
    + exists ([EChat (create_personalized_prompt w
                       (context_of (ConnectionManager.profile_data s)))]
             ++ tl ++ rest).
      split; [reflexivity|].
      split; [reflexivity|]. split; [reflexivity|].
      rewrite !count_app in *. cbn [count is_generate is_lookup is_call] in *.
      lia.
    + exists ([EChat (create_personalized_prompt w
                       (context_of (ConnectionManager.profile_data s)));
              ETemplate] ++ tl ++ rest).
      split; [reflexivity|].
      split; [reflexivity|]. split; [reflexivity|].
      rewrite !count_app in *. cbn [count is_generate is_lookup is_call] in *.
      lia.
Qed.

Lemma generation_precedes_lookup_witness :
  count is_generate
    (trace_of (ConnectionManager.send_connection_request
                 calm jane_url ∅ [] (manager_with jane))) = 1
  /\ exists t1 t2,
       trace_of (ConnectionManager.send_connection_request
                   calm jane_url ∅ [] (manager_with jane))
       = t1 ++ ECall generate_call :: t2
       /\ count is_lookup t1 = 0 /\ count is_attempt t1 = 0
       /\ count is_generate t2 = 0 /\ count is_lookup t2 = 1.
Proof.
  apply (generation_precedes_lookup calm jane_url ∅ [] (manager_with jane)).
  - vm_compute. tauto.
  - vm_compute. reflexivity.
Defined.

(** C7. Retry bound: a lookup of the Connect control makes at most three
    resolution attempts, however the resolver fails; it backs off for a
    draw of [uniform(1, 3)] seconds after every failed attempt and gives up
    after the third one.  In [send_connection_request] the attempts stay
    within three, and a lookup that gives up ends the attempt at once with
    the error "Could not find Connect button". *)
Theorem connect_button_retry_bound (w : world) (url : string) (p : prospect)
    (h : history) (s : ConnectionManager.state) :
  (forall hl sl,
     let lookup := ConnectionManager._find_connect_button w hl sl in
     count is_attempt (trace_of lookup) <= 3
     /\ match result_of lookup with
        | Ok None => count is_attempt (trace_of lookup) = 3
                     /\ count is_backoff (trace_of lookup) = 3
        | Ok (Some _) => 1 <= count is_attempt (trace_of lookup)
                         /\ count is_backoff (trace_of lookup)
                            = count is_attempt (trace_of lookup) - 1
        | Raise _ => count is_attempt (trace_of lookup) = 0
        end)
  /\ let run := ConnectionManager.send_connection_request w url p h s in
     count is_attempt (trace_of run) <= 3
     /\ (In (ECall lookup_call) (trace_of run) ->
         exists tg rl sl tl rest,
           trace_of run = before_lookup url tg ++ tl ++ rest
           /\ ConnectionManager._find_connect_button
                w (h ++ before_lookup url tg) s = (rl, sl, tl)
           /\ (rl = Ok None ->
               rest = []
               /\ result_of run
                  = Ok (ConnectionManager.with_error
                          "Could not find Connect button"
                          (ConnectionManager.initial_result url)))).
Proof.
  split.
  - intros hl sl. cbv zeta.
    pose proof (run_eta (ConnectionManager._find_connect_button w) hl sl) as E.
    apply lookup_run in E. destruct E as (_ & Hle & _ & Hr).
    split; [exact Hle|].
    destruct (result_of (ConnectionManager._find_connect_button w hl sl))
      as [[b|]|e]; try exact Hr.
    destruct Hr as [_ ->]. reflexivity.
  - cbv zeta.
    pose proof (run_eta (ConnectionManager.send_connection_request w url p) h s) as E.
    destruct (send_connection_request_run w url p h s _ _ _ E) as (res & Hr & Ha).
    destruct Ha as [e He|e He|Hs'|gm tg rl sl tl res0 rest Hs' Hg Hl Hal].
    + split; [simpl; lia|]. simpl. intuition discriminate.
    + split; [simpl; lia|]. simpl. intuition discriminate.
    + split; [simpl; lia|]. simpl. intuition discriminate.
    + destruct (generated_counts _ _ _ _ _ _ _ _ _ _ _ Hg Hl Hal)
        as (G1 & G2 & G3 & G4 & R1 & R2 & R3 & R4).
      split; [rewrite count_app, G3; lia|].
      intros _. exists tg, rl, sl, tl, rest.
      split; [reflexivity|]. split; [exact Hl|].
      intros ->. inversion Hal; subst. split; [reflexivity|exact Hr].
Qed.







(** * Bulk requests *)

Definition bulk_call : string := "ConnectionManager.send_bulk_requests".
Definition request_pause : event := ESleep (Uniform 30 120).

(** The effects of a sequence of attempts [ts], with the pause between
    requests before every attempt but the first of the run. *)
Fixpoint paced (first : bool) (ts : list (list event)) : list event :=
  match ts with
  | [] => []
  | a :: rest => (if first then [] else [request_pause]) ++ a ++ paced false rest
  end.

(** The effects of one attempt: it is entered once, and holds neither a
    pause between requests nor an extended cooldown. *)
Definition attempt_effects (a : list event) : Prop :=
  exists a', a = ECall send_call :: a'
             /\ count is_send a' = 0 /\ count is_request_pause a' = 0
             /\ count is_cooldown a' = 0.

Definition has_url (p : prospect) : Prop := is_Some (p !! "linkedin_url").

Lemma attempt_run_pacing w url h s res s' t :
  attempt_run w url h s res s' t -> attempt_effects t.
Proof.
  intros [e He|e He|Hs|gm tg rl sl tl res0 rest Hs Hg Hl Hal].
  - eexists; split; [reflexivity|]. repeat split; reflexivity.
  - eexists; split; [reflexivity|]. repeat split; reflexivity.
  - eexists; split; [reflexivity|]. repeat split; reflexivity.
  - apply generate_personalized_message_run in Hg.
    destruct Hg as (gm' & _ & _ & Htg & _).
    apply after_lookup_effects, page_effects_quiet in Hal.
    destruct Hal as (_ & _ & _ & A4 & A5 & A6).
    apply lookup_run in Hl. destruct Hl as (_ & _ & (t' & -> & L3) & _).
    apply lookup_effects_quiet in L3. destruct L3 as (_ & _ & L6 & L7 & L8).
    exists (skipn 1 (prelude url) ++ (context_call :: tg)
            ++ [ECall lookup_call; ELoadConfig] ++ t' ++ rest).
    split; [unfold before_lookup; list_eq|].
    rewrite !count_app, A4, A5, A6, L6, L7, L8.
    destruct Htg as [-> | ->]; repeat split; reflexivity.
Qed.

Lemma bulk_loop_run w max ps :
  forall i succ results h s r s' t,
    ConnectionManager.bulk_loop w max ps i succ results h s = (r, s', t) ->
    Forall has_url ps ->
    (succ <= Z.of_nat i)%Z ->
    (Z.of_nat (i + length ps) <= max)%Z ->
    exists new ts,
      r = Ok (results ++ new)
      /\ length new = length ps /\ length ts = length ps
      /\ t = paced (i =? 0)%nat ts
      /\ Forall attempt_effects ts.
Proof.
  induction ps as [|p rest IH]; intros i succ results h s r s' t H Hurl Hs Hcap;
    simpl in H.
  - runs_inv. exists [], []. rewrite app_nil_r. repeat split; constructor.
  - inversion Hurl as [|? ? [url Hp] Hrest]; subst.
    rewrite Hp in H.
    destruct (Z.leb_spec max succ) as [Hle|_]; [simpl in Hcap; lia|].
    runs_inv;
      match goal with
      | H : ConnectionManager.send_connection_request _ _ _ _ _ = _ |- _ =>
          apply send_connection_request_run in H;
          destruct H as (res & Hres & Hrun); simplify_eq;
          apply attempt_run_pacing in Hrun
      end;
      (apply IH in H; [|assumption|destruct (ConnectionManager.success res); lia
                       |simpl in Hcap; lia]);
      destruct H as (new & ts & -> & Hn & Hts & -> & Hall);
      match goal with
      | Ha : attempt_effects ?a |- _ => exists (res :: new), (a :: ts)
      end;
      rewrite <- app_assoc; simpl;
      (split; [reflexivity|]); (split; [congruence|]); (split; [congruence|]);
      (split; [|constructor; assumption]);
      destruct i as [|i]; try discriminate; reflexivity.
Qed.

Lemma paced_counts first ts :
  Forall attempt_effects ts ->
  count is_send (paced first ts) = length ts
  /\ count is_request_pause (paced first ts)
     = (if first then length ts - 1 else length ts)
  /\ count is_cooldown (paced first ts) = 0.
Proof.
  intros H. revert first.
  induction H as [|a ts (a' & -> & A1 & A2 & A3) _ IH]; intros first.
  - destruct first; repeat split; reflexivity.
  - destruct (IH false) as (I1 & I2 & I3). cbn [paced].
    rewrite !count_app, I1, I2, I3. cbn [count length].
    rewrite A1, A2, A3.
    destruct first; repeat split; cbn; lia.
Qed.

Lemma send_bulk_requests_run w prospects max h s r s' t :
  ConnectionManager.send_bulk_requests w prospects max h s = (r, s', t) ->
  Forall has_url prospects ->
  exists results ts,
    r = Ok results
    /\ length results = Nat.min (length prospects) (Z.to_nat max)
    /\ length ts = length results
    /\ t = ECall bulk_call :: paced true ts
    /\ Forall attempt_effects ts.
Proof.
  unfold ConnectionManager.send_bulk_requests, ConnectionManager.slice_to.
  intros H Hurl. runs_inv.
  destruct (Z.leb_spec 0 max) as [Hpos|Hneg].
  - apply bulk_loop_run in H.
    + destruct H as (new & ts & -> & Hn & Hts & -> & Hall).
      exists new, ts. rewrite length_take in Hn, Hts.
      repeat split; auto; lia.
    + apply Forall_take, Hurl.
    + lia.
    + rewrite length_take. lia.
  - replace (Z.to_nat max) with 0 by lia. rewrite Nat.min_0_r.
    destruct (firstn (length prospects - Z.to_nat (- max)) prospects)
      as [|p rest]; simpl in H.
    + runs_inv. exists [], []. repeat split; constructor.
    + destruct (Z.leb_spec max 0) as [_|Hlt]; [|lia].
      runs_inv. exists [], []. repeat split; constructor.
Qed.

(** C5. Bulk cap: with every prospect carrying its URL,
    [send_bulk_requests] returns one result per attempt and makes as many
    attempts as the smaller of the length of the list and the cap, so 9
    attempts for 20 prospects under a cap of 9.  The attempts follow one
    another, and the pause of [uniform(30, 120)] seconds stands before every
    attempt but the first. *)
Theorem bulk_cap_respected (w : world) (prospects : list prospect) (max : Z)
    (h : history) (s : ConnectionManager.state) :
  Forall has_url prospects ->
  let run := ConnectionManager.send_bulk_requests w prospects max h s in
  exists results ts,
    result_of run = Ok results
    /\ length results = Nat.min (length prospects) (Z.to_nat max)
    /\ length ts = length results
    /\ trace_of run = ECall bulk_call :: paced true ts
    /\ Forall attempt_effects ts
    /\ count is_send (trace_of run) = length results
    /\ count is_request_pause (trace_of run) = length results - 1.
Proof.
  intros Hurl. cbv zeta.
  pose proof (run_eta (ConnectionManager.send_bulk_requests w prospects max) h s) as E.
  destruct (send_bulk_requests_run _ _ _ _ _ _ _ _ E Hurl)
    as (results & ts & Hx & Hlen & Hts & Ht & Hall).
  exists results, ts.
  destruct (paced_counts true ts Hall) as (P1 & P2 & _).
  rewrite Ht. cbn [count]. rewrite P1, P2.
  change (is_send (ECall bulk_call)) with false.
  change (is_request_pause (ECall bulk_call)) with false.
  repeat split; auto; simpl; lia.
Qed.

(** A prospect as the discovery writes it. *)
Definition jane_prospect : prospect :=
  <[ "linkedin_url" := jane_url ]>
    (<[ "name" := "Jane Doe" ]>
    (<[ "job_title" := "Recruiter" ]>
    (<[ "location" := "Ghent, Belgium" ]>
    (<[ "company" := "ACME" ]>
    (<[ "search_source" := "linkedin_search" ]> (∅ : prospect)))))).

Lemma jane_prospect_has_url : has_url jane_prospect.
Proof. exists jane_url. reflexivity. Defined.

Lemma bulk_cap_respected_witness :
  exists results ts,
    result_of (ConnectionManager.send_bulk_requests
                 calm (replicate 20 jane_prospect) 9 [] (manager_with jane))
    = Ok results
    /\ length results = 9
    /\ length ts = length results
    /\ trace_of (ConnectionManager.send_bulk_requests
                   calm (replicate 20 jane_prospect) 9 [] (manager_with jane))
       = ECall bulk_call :: paced true ts
    /\ Forall attempt_effects ts
    /\ count is_send
         (trace_of (ConnectionManager.send_bulk_requests
                      calm (replicate 20 jane_prospect) 9 [] (manager_with jane)))
       = length results
    /\ count is_request_pause
         (trace_of (ConnectionManager.send_bulk_requests
                      calm (replicate 20 jane_prospect) 9 [] (manager_with jane)))
       = length results - 1.
Proof.
  exact (bulk_cap_respected calm (replicate 20 jane_prospect) 9 []
           (manager_with jane)
           (Forall_replicate has_url 20 jane_prospect jane_prospect_has_url)).
Defined.

(** The scenario of the claim, run: twenty prospects, a cap of nine, every
    attempt succeeding. *)
Example bulk_nine_of_twenty :
  match result_of (ConnectionManager.send_bulk_requests
                     calm (replicate 20 jane_prospect) 9 [] (manager_with jane)) with
  | Ok results => length results = 9
                  /\ forallb ConnectionManager.success results = true
  | Raise _ => False
  end.
Proof. vm_compute. split; reflexivity. Qed.

(** * Rate limiting *)

Definition rate_limit_call : string := "ConnectionManager.handle_rate_limiting".

(** What [handle_rate_limiting] does on an error text that holds one of the
    known phrases, and on one that holds none. *)
Lemma handle_rate_limiting_run error_message h s :
  ConnectionManager.handle_rate_limiting error_message h s
  = if PyStr.any_in ConnectionManager.rate_limit_indicators
                    (PyStr.lower error_message)
    then (Ok true, s, [ECall rate_limit_call; ESleep (RandInt 300 900)])
    else (Ok false, s, [ECall rate_limit_call]).
Proof.
  unfold ConnectionManager.handle_rate_limiting.
  destruct (PyStr.any_in _ _); reflexivity.
Qed.

(** C2, what the code does: a bulk run never takes the extended cooldown of
    [randint(300, 900)] seconds, whatever errors its attempts report; the
    only sleeps between two attempts are the pauses of [uniform(30, 120)]
    seconds. *)
Theorem bulk_never_cools_down (w : world) (prospects : list prospect) (max : Z)
    (h : history) (s : ConnectionManager.state) :
  Forall has_url prospects ->
  count is_cooldown
        (trace_of (ConnectionManager.send_bulk_requests w prospects max h s)) = 0.
Proof.
  intros Hurl.
  pose proof (run_eta (ConnectionManager.send_bulk_requests w prospects max) h s) as E.
  destruct (send_bulk_requests_run _ _ _ _ _ _ _ _ E Hurl)
    as (results & ts & Hx & Hlen & Hts & Ht & Hall).
  rewrite Ht. cbn [count].
  destruct (paced_counts true ts Hall) as (_ & _ & ->). reflexivity.
Qed.

(** A site that answers every navigation with a rate-limit error. *)
Definition throttled : world :=
  with_page_goto (fun _ _ => Raise "Error: 429 Too Many Requests") calm.

Lemma bulk_never_cools_down_witness :
  count is_cooldown
        (trace_of (ConnectionManager.send_bulk_requests
                     throttled [jane_prospect; jane_prospect] 9 []
                     fresh_manager)) = 0.
Proof.
  apply (bulk_never_cools_down throttled [jane_prospect; jane_prospect] 9 []
           fresh_manager).
  repeat constructor; apply jane_prospect_has_url.
Defined.

(** The failing run: both attempts report the rate-limit error, the second
    one starts after the ordinary pause, and [handle_rate_limiting], which
    recognises the error and would sleep for the extended cooldown, is
    never entered. *)
Example rate_limit_ignored_in_bulk :
  let run := ConnectionManager.send_bulk_requests
               throttled [jane_prospect; jane_prospect] 9 [] fresh_manager in
  match result_of run with
  | Ok [r1; r2] =>
      ConnectionManager.error r1 = "Error: 429 Too Many Requests"
      /\ ConnectionManager.error r2 = "Error: 429 Too Many Requests"
      /\ result_of (ConnectionManager.handle_rate_limiting
                      (ConnectionManager.error r1) [] fresh_manager)
         = Ok true
  | _ => False
  end
  /\ trace_of run
     = [ ECall bulk_call;
         ECall send_call; ETime; EGoto jane_url;
         request_pause;
         ECall send_call; ETime; EGoto jane_url ]
  /\ count (is_call rate_limit_call) (trace_of run) = 0.
Proof. vm_compute. repeat split; reflexivity. Qed.

(** * Profile extraction *)

(** C3, what the code does: [extract_profile_data] navigates, then fails on
    [self.detector.simulate_human_behavior], which [ElementDetector] does
    not define; the handler returns the profile data as they were.  No
    scroll is simulated and no field group is extracted: the effects are the
    entry and the navigation, and the data are unchanged, on every page. *)
Theorem extract_profile_data_extracts_nothing (w : world) (url : string)
    (h : history) (d : ProfileData) :
  ProfileScraper.extract_profile_data w url h d
  = (Ok d, d, [ECall "ProfileScraper.extract_profile_data"; EGoto url]).
Proof.
  pose proof (run_eta (ProfileScraper.extract_profile_data w url) h d) as E.
  destruct (extract_profile_data_run _ _ _ _ _ _ _ E) as (Hr & Hs & Ht).
  rewrite E, Hr, Hs, Ht. reflexivity.
Qed.

(** A profile page: the name heading reads "Jane Doe", the headline
    "Recruiter at ACME". *)
Definition profile_page : world := {|
  page_goto := fun _ _ => Ok tt;
  page_scroll := fun _ => Ok tt;
  page_title := fun _ => Ok "Jane Doe | LinkedIn";
  page_wait_for_selector := fun _ _ => Ok tt;
  is_visible := fun _ _ => Ok true;
  inner_text := fun _ l =>
    if bool_decide (l = First (Locator ("h1[data-test-id="
                                        +:+ PyStr.q "profile-name" +:+ "]")))
    then Ok "Jane Doe" else Ok "Recruiter at ACME";
  get_attribute := fun _ _ _ => Ok None;
  all := fun _ _ => Ok 0;
  closest := fun _ _ => Ok true;
  click := fun _ _ => Ok tt;
  type_char := fun _ _ _ => Ok tt;
  keyboard_press := fun _ _ => Ok tt;
  keyboard_type := fun _ _ => Ok tt;
  mouse_move := fun _ _ _ => Ok tt;
  viewport_size := None;
  randint := fun _ lo _ => lo;
  load_selectors_config := fun _ => Ok tt;
  create_personalized_prompt := fun _ => "prompt";
  chat_completion := fun _ _ => Ok (Content "Hello Jane");
  generate_fallback_message := fun _ _ => "Hi there";
  time_time := fun h => inject_Z (Z.of_nat (length h));
  stored_prospects := fun _ => [];
  write_prospects := fun _ => Ok tt;
  re_sub_dates := fun s => s
|}.

(** On that page the group [_extract_basic_info] finds the name, the job
    title and the company, but [extract_profile_data] never reaches it and
    returns the empty profile. *)
Example extraction_skipped_on_profile_page :
  name (state_of (ProfileScraper._extract_basic_info
                    profile_page [] ProfileScraper.empty_profile)) = "Jane Doe"
  /\ job_title (state_of (ProfileScraper._extract_basic_info
                    profile_page [] ProfileScraper.empty_profile)) = "Recruiter"
  /\ company (state_of (ProfileScraper._extract_basic_info
                    profile_page [] ProfileScraper.empty_profile)) = "ACME"
  /\ result_of (ProfileScraper.extract_profile_data
                  profile_page jane_url [] ProfileScraper.empty_profile)
     = Ok ProfileScraper.empty_profile.
Proof. vm_compute. repeat split; reflexivity. Qed.

(** * Facts about [strip] *)

Section StripFacts.
Import PyStr.







End StripFacts.

(** * Search results *)

Section SearchFacts.
Import PyStr.

(** The dict that [_extract_profile_data_from_item] builds. *)
Definition entry (url name_ job location_ company_ : string) : prospect :=
  <[ "linkedin_url" := url ]>
    (<[ "name" := name_ ]>
    (<[ "job_title" := job ]>
    (<[ "location" := location_ ]>
    (<[ "company" := company_ ]>
    (<[ "search_source" := "linkedin_search" ]> (∅ : prospect)))))).

(** [p] was built from a result item that passed the validation of the
    extraction. *)
Definition extracted (p : prospect) : Prop :=
  exists url name_ job location_ company_,
    p = entry url (strip name_) (strip job) (strip location_) (strip company_)
    /\ contains "/in/" url = true
    /\ SearchStrategies._validate_profile_data name_ job location_ = true.



End SearchFacts.

Section SearchRuns.
Context {S : Type} (w : world) (config : search_config).

Lemma extract_profile_data_from_item_run item h (s : S) r s' t :
  SearchStrategies._extract_profile_data_from_item w item h s = (r, s', t) ->
  exists o, r = Ok o /\ match o with Some p => extracted p | None => True end.
Proof.
  unfold SearchStrategies._extract_profile_data_from_item,
    SearchStrategies.text_if_visible.
  intros H. runs_inv; (eexists; split; [reflexivity|]); try exact I.
  all: cbv beta iota; unfold extracted, entry; do 5 eexists;
    (split; [reflexivity|]); (split; [|eassumption]);
    match goal with
    | Hb : negb _ || negb (PyStr.contains _ _) = false |- _ =>
        apply orb_false_elim in Hb; destruct Hb as [_ Hb];
        apply negb_false_iff in Hb; exact Hb
    end.
Qed.

Lemma extract_items_run profile_items :
  forall profiles h (s : S) r s' t,
    SearchStrategies.extract_items w profile_items profiles h s = (r, s', t) ->
    Forall extracted profiles ->
    exists l, r = Ok l /\ Forall extracted l.
Proof.
  induction profile_items as [|item rest IH]; intros profiles h s r s' t H Hp;
    simpl in H.
  - runs_inv. eauto.
  - runs_inv;
      repeat match goal with
             | H : SearchStrategies._extract_profile_data_from_item _ _ _ _ = _ |- _ =>
                 apply extract_profile_data_from_item_run in H;
                 destruct H as (? & ? & ?); simplify_eq
             end;
      (eapply IH; [eassumption|]); try assumption.
    apply Forall_app; split; [assumption|]. constructor; [assumption|constructor].
Qed.

Lemma extract_profiles_run h (s : S) r s' t :
  SearchStrategies._extract_profiles_from_search_results w h s = (r, s', t) ->
  exists l, r = Ok l /\ Forall extracted l.
Proof.
  unfold SearchStrategies._extract_profiles_from_search_results.
  intros H. runs_inv;
    try (eapply extract_items_run; [eassumption|constructor]);
    try (eexists; split; [reflexivity|constructor]).
  all: match goal with
       | H : SearchStrategies.extract_items _ _ _ _ _ = _ |- _ =>
           eapply extract_items_run in H; [|constructor];
           destruct H as (? & ? & ?); discriminate
       end.
Qed.

Lemma search_run enabled search_url h (s : S) r s' t :
  SearchStrategies.search w enabled search_url h s = (r, s', t) ->
  exists l, r = Ok l /\ Forall extracted l.
Proof.
  unfold SearchStrategies.search.
  intros H. runs_inv;
    try (eapply extract_profiles_run; eassumption);
    try (eexists; split; [reflexivity|constructor]).
Qed.

Lemma search_by_job_title_and_location_run job location_ h (s : S) r s' t :
  SearchStrategies.search_by_job_title_and_location w config job location_ h s
  = (r, s', t) ->
  exists l, r = Ok l /\ Forall extracted l.
Proof.
  unfold SearchStrategies.search_by_job_title_and_location.
  intros H. runs_inv. eapply search_run; eassumption.
Qed.

Lemma search_by_company_and_job_title_run company_ job h (s : S) r s' t :
  SearchStrategies.search_by_company_and_job_title w config company_ job h s
  = (r, s', t) ->
  exists l, r = Ok l /\ Forall extracted l.
Proof.
  unfold SearchStrategies.search_by_company_and_job_title.
  intros H. runs_inv. eapply search_run; eassumption.
Qed.

End SearchRuns.

(** * Facts about the prospect discoverer *)

Definition url_of (p : prospect) : string :=
  ProspectDiscoverer.get_or_empty "linkedin_url" p.






(** The prospects of a list that are new come from the extraction, pass the
    validation of the discoverer, and are not stored yet. *)
Definition admitted (existing_urls : gset string) (p : prospect) : Prop :=
  extracted p /\ ProspectDiscoverer._validate_profile p = true
  /\ url_of p ∉ existing_urls.

Section DiscovererRuns.
Import ProspectDiscoverer.
Variables (w : world) (cfg : search_config).

Lemma any_visible_run {S} indicators timeout h (s : S) r s' t :
  SearchStrategies.any_visible w indicators timeout h s = (r, s', t) ->
  s' = s /\ exists b, r = Ok b.
Proof.
  revert h s r s' t.
  induction indicators as [|i rest IH]; intros h s r s' t H; simpl in H.
  - runs_inv. eauto.
  - runs_inv; try (apply IH in H; exact H); eauto.
Qed.

Lemma simulate_scroll_discoverer :
  _simulate_human_behavior w "scroll"
  = (let* _ := emit (ECall "ProspectDiscoverer._simulate_human_behavior") in
     let* _ := perform (EScrollBy (RandInt 200 800)) (page_scroll w) in
     emit (ESleep (Uniform 1 3))).
Proof. reflexivity. Qed.

Lemma validate_profile_by_visit_run profile h s r s' t :
  _validate_profile_by_visit w profile h s = (r, s', t) ->
  s' = s /\ exists b, r = Ok b.
Proof.
  unfold _validate_profile_by_visit. rewrite simulate_scroll_discoverer.
  intros H. runs_inv;
    repeat match goal with
           | H : SearchStrategies.any_visible _ _ _ _ _ = _ |- _ =>
               apply any_visible_run in H; destruct H as (? & ? & ?);
               simplify_eq
           end; eauto.
Qed.

Lemma validate_profile_has_url p :
  _validate_profile p = true -> is_Some (p !! "linkedin_url").
Proof.
  unfold _validate_profile, required_fields. cbn [existsb].
  unfold field_too_short at 1.
  destruct (p !! "linkedin_url"); [eauto|].
  cbn [orb]. intros H; discriminate H.
Qed.

Lemma duplicate_check_true (p : prospect) (existing_urls : gset string) :
  match p !! "linkedin_url" with
  | Some url => bool_decide (url ∈ existing_urls)
  | None => false
  end = true ->
  is_Some (p !! "linkedin_url") /\ url_of p ∈ existing_urls.
Proof.
  unfold url_of, get_or_empty.
  destruct (p !! "linkedin_url"); [|intros H; discriminate H].
  intros H. apply bool_decide_eq_true in H. eauto.
Qed.

Lemma duplicate_check_false (p : prospect) (existing_urls : gset string) :
  match p !! "linkedin_url" with
  | Some url => bool_decide (url ∈ existing_urls)
  | None => false
  end = false ->
  is_Some (p !! "linkedin_url") -> url_of p ∉ existing_urls.
Proof.
  unfold url_of, get_or_empty.
  destruct (p !! "linkedin_url"); [|intros _ [? H]; discriminate H].
  intros H _. apply bool_decide_eq_false in H. exact H.
Qed.

Lemma process_profile_run profile existing_urls h s r s' t :
  _process_profile w profile existing_urls h s = (r, s', t) ->
  discovered_prospects s' = discovered_prospects s
  /\ exists b, r = Ok b
     /\ (b = true ->
         _validate_profile profile = true
         /\ url_of profile ∉ existing_urls)
     /\ (url_of profile ∈ existing_urls ->
         is_Some (profile !! "linkedin_url") ->
         b = false /\ duplicates_found s' = S (duplicates_found s)
         /\ validation_errors s' = validation_errors s
         /\ t = [ECall "ProspectDiscoverer._process_profile"]).
Proof.
  unfold _process_profile, add_duplicate, add_validation_error.
  intros H. runs_inv;
    repeat match goal with
           | H : _validate_profile_by_visit _ _ _ _ = _ |- _ =>
               apply validate_profile_by_visit_run in H;
               destruct H as (? & ? & ?); simplify_eq
           end; (split; [reflexivity|]); eexists; (split; [reflexivity|]).
  all: pose proof (duplicate_check_false profile existing_urls) as Hf.
  all: split; [intros Hb; try discriminate Hb|intros Hin Hsome].
  all: try (exfalso; apply Hf; assumption).
  all: try (repeat split; reflexivity).
  apply negb_false_iff in Heqb0.
  split; [assumption|].
  apply Hf; [assumption|]. apply validate_profile_has_url. assumption.
Qed.

(** What a loop of the discovery adds to the accumulator. *)
Definition grows (existing_urls : gset string) (s s' : state) : Prop :=
  exists new, discovered_prospects s' = discovered_prospects s ++ new
              /\ Forall (admitted existing_urls) new.

Lemma grows_refl existing_urls s : grows existing_urls s s.
Proof. exists []. rewrite app_nil_r. split; [reflexivity|constructor]. Qed.

Lemma grows_trans existing_urls s1 s2 s3 :
  grows existing_urls s1 s2 -> grows existing_urls s2 s3 ->
  grows existing_urls s1 s3.
Proof.
  intros (n1 & E1 & F1) (n2 & E2 & F2). exists (n1 ++ n2).
  rewrite E2, E1, <- app_assoc. split; [reflexivity|].
  apply Forall_app. auto.
Qed.

Lemma process_profiles_run max_prospects existing_urls profiles :
  Forall extracted profiles ->
  forall h s r s' t,
  process_profiles w max_prospects existing_urls profiles h s = (r, s', t) ->
  r = Ok tt /\ grows existing_urls s s'.
Proof.
  induction 1 as [|profile rest Hp Hrest IH]; intros h s r s' t H;
    simpl in H.
  - runs_inv. split; [reflexivity|apply grows_refl].
  - unfold append_prospect in H. runs_inv;
      repeat match goal with
             | H : _process_profile _ _ _ _ _ = _ |- _ =>
                 apply process_profile_run in H;
                 destruct H as (? & ? & ? & ? & ?); simplify_eq
             end;
      try (split; [reflexivity|apply grows_refl]).
  + apply IH in H. destruct H as [-> Hg]. split; [reflexivity|].
    eapply grows_trans; [|exact Hg].
    exists [profile]. simpl.
    match goal with E : discovered_prospects _ = _ |- _ => rewrite E end.
    split; [reflexivity|]. constructor; [|constructor].
    match goal with E : true = true -> _ |- _ =>
      destruct (E eq_refl) as [? ?] end.
    unfold admitted. auto.
  + apply IH in H. destruct H as [-> Hg]. split; [reflexivity|].
    eapply grows_trans; [|exact Hg].
    exists []. rewrite app_nil_r. split; [assumption|constructor].
Qed.

(** A search call, as the loops of the discovery use it: it leaves the
    discoverer alone and answers extracted entries. *)
Definition searches (search : string -> Py state (list prospect)) : Prop :=
  forall x h s r s' t,
    search x h s = (r, s', t) ->
    s' = s /\ exists l, r = Ok l /\ Forall extracted l.

Lemma job_title_loop_run max_prospects max_searches existing_urls search :
  searches search ->
  forall titles search_count h s r s' t,
  job_title_loop w max_prospects max_searches existing_urls search titles
                 search_count h s = (r, s', t) ->
  (exists n, r = Ok n) /\ grows existing_urls s s'.
Proof.
  intros Hsearch.
  induction titles as [|job_title_ rest IH];
    intros search_count h s r s' t H; simpl in H.
  - runs_inv. split; [eauto|apply grows_refl].
  - runs_inv;
      repeat match goal with
             | H : search _ _ _ = _ |- _ =>
                 apply Hsearch in H; destruct H as (? & ? & ? & ?);
                 simplify_eq
             end;
      repeat match goal with
             | H : process_profiles _ _ _ _ _ _ = _, F : Forall extracted _
               |- _ =>
                 apply (process_profiles_run _ _ _ F) in H;
                 destruct H as (? & ?); simplify_eq
             end;
      try (split; [eauto|apply grows_refl]);
      try (apply IH in H; destruct H as [Hn Hg]; split; [exact Hn|];
           eapply grows_trans; eassumption).
Qed.

Lemma outer_loop_run max_prospects max_searches existing_urls search :
  (forall x, searches (search x)) ->
  forall outer titles search_count h s r s' t,
  outer_loop w max_prospects max_searches existing_urls search outer titles
             search_count h s = (r, s', t) ->
  (exists n, r = Ok n) /\ grows existing_urls s s'.
Proof.
  intros Hsearch.
  induction outer as [|x rest IH];
    intros titles search_count h s r s' t H; simpl in H.
  - runs_inv. split; [eauto|apply grows_refl].
  - runs_inv;
      repeat match goal with
             | H : job_title_loop _ _ _ _ _ _ _ _ _ = _ |- _ =>
                 apply (job_title_loop_run _ _ _ _ (Hsearch _)) in H;
                 destruct H as ((? & ?) & ?); simplify_eq
             end;
      try (split; [eauto|apply grows_refl]).
    apply IH in H. destruct H as [Hn Hg]. split; [exact Hn|].
    eapply grows_trans; eassumption.
Qed.
Lemma strategies_searches (m : string -> Py unit (list prospect)) :
  (forall x h u r u' t,
      m x h u = (r, u', t) -> exists l, r = Ok l /\ Forall extracted l) ->
  searches (fun x => strategies (m x)).
Proof.
  intros Hm x h s r s' t H. unfold strategies in H.
  apply zoom_inv in H. destruct H as (u & H & ->).
  split; [reflexivity|]. eapply Hm. exact H.
Qed.

Lemma final_loop_spec prospects :
  forall seen_urls valid_prospects,
  NoDup (map url_of valid_prospects) ->
  (forall p, p ∈ valid_prospects -> url_of p ∈ seen_urls) ->
  NoDup (map url_of (final_loop prospects seen_urls valid_prospects))
  /\ (forall p, p ∈ final_loop prospects seen_urls valid_prospects ->
                p ∈ valid_prospects
                \/ (p ∈ prospects /\ _validate_profile p = true
                    /\ url_of p ∉ seen_urls)).
Proof.
  induction prospects as [|q rest IH]; intros seen valid Hnd Hseen.
  - simpl. auto.
  - cbn [final_loop]. cbv zeta. fold (url_of q).
    destruct (bool_decide (url_of q ∈ seen)) eqn:Hq.
    + destruct (IH seen valid Hnd Hseen) as [H1 H2]. split; [exact H1|].
      intros p Hp. destruct (H2 p Hp) as [?|(? & ? & ?)]; [auto|].
      right. split; [apply elem_of_cons; auto|auto].
    + apply bool_decide_eq_false in Hq.
      destruct (_validate_profile q) eqn:Hv.
      * destruct (IH ({[url_of q]} ∪ seen) (valid ++ [q])) as [H1 H2].
        { rewrite map_app. apply NoDup_app. split; [exact Hnd|].
          split; [|apply NoDup_singleton].
          intros u Hu Hu'. apply list_elem_of_singleton in Hu'. subst u.
          apply list_elem_of_In, in_map_iff in Hu.
          destruct Hu as (v & Hv' & Hin). apply list_elem_of_In in Hin.
          apply Hq. rewrite <- Hv'. apply Hseen. exact Hin. }
        { intros p Hp. apply elem_of_app in Hp.
          destruct Hp as [Hp|Hp].
          - apply elem_of_union_r. apply Hseen. exact Hp.
          - apply list_elem_of_singleton in Hp. subst p.
            apply elem_of_union_l. apply elem_of_singleton. reflexivity. }
        split; [exact H1|]. intros p Hp.
        destruct (H2 p Hp) as [Hp'|(? & ? & Hn)].
        -- apply elem_of_app in Hp'. destruct Hp' as [?|Hp']; [auto|].
           apply list_elem_of_singleton in Hp'. subst p.
           right. split; [apply elem_of_cons; auto|auto].
        -- right. split; [apply elem_of_cons; auto|]. split; [auto|].
           intros Hs. apply Hn. apply elem_of_union_r. exact Hs.
      * destruct (IH ({[url_of q]} ∪ seen) valid Hnd) as [H1 H2].
        { intros p Hp. apply elem_of_union_r. apply Hseen. exact Hp. }
        split; [exact H1|]. intros p Hp.
        destruct (H2 p Hp) as [?|(? & ? & Hn)]; [auto|].
        right. split; [apply elem_of_cons; auto|]. split; [auto|].
        intros Hs. apply Hn. apply elem_of_union_r. exact Hs.
Qed.

Lemma final_validation_spec prospects :
  NoDup (map url_of (_final_validation_and_deduplication prospects))
  /\ (forall p, p ∈ _final_validation_and_deduplication prospects ->
                p ∈ prospects /\ _validate_profile p = true).
Proof.
  unfold _final_validation_and_deduplication.
  destruct (final_loop_spec prospects ∅ []) as [H1 H2].
  - constructor.
  - intros p Hp. apply elem_of_nil in Hp. destruct Hp.
  - split; [exact H1|]. intros p Hp.
    destruct (H2 p Hp) as [Hn|(? & ? & _)]; [|auto].
    apply elem_of_nil in Hn. destruct Hn.
Qed.

Lemma unique_loop_spec all_prospects :
  forall seen_urls unique_prospects,
  NoDup (map url_of unique_prospects) ->
  (forall p, p ∈ unique_prospects -> url_of p ∈ seen_urls) ->
  NoDup (map url_of (unique_loop all_prospects seen_urls unique_prospects))
  /\ (forall p, p ∈ unique_loop all_prospects seen_urls unique_prospects ->
                p ∈ unique_prospects
                \/ (p ∈ all_prospects /\ PyStr.truthy (url_of p) = true)).
Proof.
  induction all_prospects as [|q rest IH]; intros seen unique Hnd Hseen.
  - simpl. auto.
  - cbn [unique_loop]. cbv zeta. fold (url_of q).
    destruct (PyStr.truthy (url_of q)) eqn:Ht; cbn [andb].
    + destruct (bool_decide (url_of q ∈ seen)) eqn:Hq; cbn [negb].
      * destruct (IH seen unique Hnd Hseen) as [H1 H2]. split; [exact H1|].
        intros p Hp. destruct (H2 p Hp) as [?|(? & ?)]; [auto|].
        right. split; [apply elem_of_cons; auto|auto].
      * apply bool_decide_eq_false in Hq.
        destruct (IH ({[url_of q]} ∪ seen) (unique ++ [q])) as [H1 H2].
        { rewrite map_app. apply NoDup_app. split; [exact Hnd|].
          split; [|apply NoDup_singleton].
          intros u Hu Hu'. apply list_elem_of_singleton in Hu'. subst u.
          apply list_elem_of_In, in_map_iff in Hu.
          destruct Hu as (v & Hv' & Hin). apply list_elem_of_In in Hin.
          apply Hq. rewrite <- Hv'. apply Hseen. exact Hin. }
        { intros p Hp. apply elem_of_app in Hp.
          destruct Hp as [Hp|Hp].
          - apply elem_of_union_r. apply Hseen. exact Hp.
          - apply list_elem_of_singleton in Hp. subst p.
            apply elem_of_union_l. apply elem_of_singleton. reflexivity. }
        split; [exact H1|]. intros p Hp.
        destruct (H2 p Hp) as [Hp'|(? & ?)].
        -- apply elem_of_app in Hp'. destruct Hp' as [?|Hp']; [auto|].
           apply list_elem_of_singleton in Hp'. subst p.
           right. split; [apply elem_of_cons; auto|auto].
        -- right. split; [apply elem_of_cons; auto|auto].
    + destruct (IH seen unique Hnd Hseen) as [H1 H2]. split; [exact H1|].
      intros p Hp. destruct (H2 p Hp) as [?|(? & ?)]; [auto|].
      right. split; [apply elem_of_cons; auto|auto].
Qed.

Definition discover_call : string := "ProspectDiscoverer.discover_prospects".

(** The URLs of the prospects file, as [discover_prospects] reads it. *)
Definition persisted_urls (h : history) : gset string :=
  urls_of (stored_prospects w (h ++ [ECall discover_call])).

Lemma discover_prospects_run max_prospects h s r s' t :
  discover_prospects w cfg max_prospects h s = (r, s', t) ->
  exists new,
    Forall (admitted (persisted_urls h)) new
    /\ r = Ok (_final_validation_and_deduplication
                 (discovered_prospects s ++ new))
    /\ discovered_prospects s'
       = _final_validation_and_deduplication (discovered_prospects s ++ new)
    /\ exists t', t = ECall discover_call :: ELoadProspects :: t'.
Proof.
  unfold discover_prospects, load_prospects, set_discovered.
  intros H. runs_inv;
    repeat match goal with
           | H : outer_loop _ _ _ _ _ _ _ _ _ _ = _ |- _ =>
               apply outer_loop_run in H;
               [destruct H as ((? & ?) & ?); simplify_eq
               |intros ?; cbv beta;
                first
                  [apply (strategies_searches
                            (fun j =>
                               SearchStrategies.search_by_job_title_and_location
                                 w cfg j _));
                   intros; eapply search_by_job_title_and_location_run;
                   eassumption
                  |apply (strategies_searches
                            (fun j =>
                               SearchStrategies.search_by_company_and_job_title
                                 w cfg _ j));
                   intros; eapply search_by_company_and_job_title_run;
                   eassumption]]
           end.
  all: try match goal with
           | G1 : grows _ _ ?a, G2 : grows _ ?a _ |- _ =>
               pose proof (grows_trans _ _ _ _ G1 G2); clear G1 G2
           end.
  all: match goal with
       | G : grows _ _ _ |- _ => destruct G as (new & E & F)
       end;
    exists new; cbn [discovered_prospects]; rewrite E;
    (split; [exact F|]); (split; [reflexivity|]); (split; [reflexivity|]);
    eexists; reflexivity.
Qed.

End DiscovererRuns.

(** ** The effects of a discovery *)

(** Browsing: the page is visited, read, scrolled and clicked, and the
    prospects file is read; nothing is typed, no message is generated and
    nothing is written. *)
Definition browsing (e : event) : Prop :=
  match e with
  | EType _ _ _ | EKeyPress _ | EKeyType _ _ | ELoadConfig | EChat _
  | ETemplate | EWriteProspects _ => False
  | _ => True
  end.

Lemma emits_zoom {S T A} P (proj : S -> T) upd (m : Py T A) :
  emits P m -> emits P (zoom proj upd m).
Proof.
  intros Hm h s. specialize (Hm h (proj s)). unfold zoom, trace_of in *.
  destruct (m h (proj s)) as [[r u] t]. exact Hm.
Qed.

(** Every effect of the goal's coroutine is a browsing effect, by its
    syntax and the facts at hand. *)
Ltac browse :=
  repeat first [ emits_step | apply emits_zoom | exact I | assumption ].

Section DiscoveryEffects.
Context {S : Type} (w : world) (config : search_config).

Lemma repeat_emits P n (body : Py S unit) :
  emits P body -> emits P (SearchStrategies.repeat_ n body).
Proof.
  intros Hb. induction n as [|n IH]; simpl; [apply emits_ret|].
  apply emits_bind; [exact Hb|intros _; exact IH].
Qed.

Lemma random_randint_browsing lo hi :
  emits browsing (SearchStrategies.random_randint (S:=S) w lo hi).
Proof. unfold SearchStrategies.random_randint. browse. Qed.

Lemma simulate_mouse_movement_browsing :
  emits browsing (SearchStrategies._simulate_mouse_movement (S:=S) w).
Proof.
  pose proof random_randint_browsing as Hr.
  unfold SearchStrategies._simulate_mouse_movement.
  emits_step; [browse|]. emits_step; [|browse].
  emits_step; [apply Hr|]. apply repeat_emits.
  emits_step; [apply Hr|]. emits_step; [apply Hr|].
  emits_step; [browse|]. emits_step; [browse|].
  emits_step; [apply Hr|]. apply repeat_emits.
  emits_step; [apply Hr|]. emits_step; [apply Hr|]. browse.
Qed.

Lemma simulate_page_interaction_browsing :
  emits browsing (SearchStrategies._simulate_page_interaction (S:=S) w).
Proof.
  pose proof random_randint_browsing as Hr.
  unfold SearchStrategies._simulate_page_interaction.
  emits_step; [browse|]. emits_step; [|browse].
  emits_step; [browse|]. emits_step; [browse|].
  emits_step; [apply Hr|]. apply repeat_emits.
  emits_step; [apply Hr|]. browse.
Qed.

Lemma simulate_human_behavior_browsing action :
  emits browsing (SearchStrategies._simulate_human_behavior (S:=S) w action).
Proof.
  pose proof simulate_mouse_movement_browsing as Hm.
  pose proof simulate_page_interaction_browsing as Hp.
  unfold SearchStrategies._simulate_human_behavior.
  emits_step; [browse|].
  destruct (String.eqb action "scroll"); [browse|].
  destruct (String.eqb action "typing"); [browse|].
  destruct (String.eqb action "before_search"); browse.
Qed.

Lemma navigate_loop_browsing url n :
  emits browsing (SearchStrategies.navigate_loop (S:=S) w url n).
Proof.
  induction n as [|n IH]; simpl; [browse|].
  emits_step; [browse|]. destruct n; browse.
Qed.

Lemma any_visible_browsing indicators timeout :
  emits browsing (SearchStrategies.any_visible (S:=S) w indicators timeout).
Proof.
  induction indicators as [|i rest IH]; simpl; browse.
Qed.

Lemma validate_search_results_browsing :
  emits browsing (SearchStrategies._validate_search_results (S:=S) w).
Proof.
  pose proof any_visible_browsing as Hv.
  unfold SearchStrategies._validate_search_results.
  emits_step; [browse|]. emits_step; [|browse].
  emits_step; [apply Hv|]. emits_step; [browse|].
  emits_step; [apply Hv|]. browse.
Qed.

Lemma extract_profile_data_from_item_browsing item :
  emits browsing
        (SearchStrategies._extract_profile_data_from_item (S:=S) w item).
Proof.
  unfold SearchStrategies._extract_profile_data_from_item,
    SearchStrategies.text_if_visible.
  browse.
Qed.

Lemma extract_items_browsing profile_items :
  forall profiles,
  emits browsing (SearchStrategies.extract_items (S:=S) w profile_items profiles).
Proof.
  pose proof extract_profile_data_from_item_browsing as He.
  induction profile_items as [|item rest IH]; intros profiles; simpl;
    [browse|].
  emits_step; [emits_step; [apply He|browse]|].
  emits_step; apply IH.
Qed.

Lemma search_browsing enabled url :
  emits browsing (SearchStrategies.search (S:=S) w enabled url).
Proof.
  unfold SearchStrategies.search.
  destruct (negb enabled); [browse|].
  emits_step; [|browse].
  emits_step; [apply simulate_human_behavior_browsing|].
  emits_step.
  { unfold SearchStrategies._navigate_with_retry.
    emits_step; [browse|apply navigate_loop_browsing]. }
  emits_step; [apply validate_search_results_browsing|].
  emits_step; [browse|].
  unfold SearchStrategies._extract_profiles_from_search_results.
  emits_step; [browse|]. emits_step; [|browse].
  emits_step; [browse|]. emits_step; [browse|].
  apply extract_items_browsing.
Qed.

End DiscoveryEffects.

Section DiscovererEffects.
Import ProspectDiscoverer.
Variables (w : world) (cfg : search_config).

Lemma validate_profile_by_visit_browsing profile :
  emits browsing (_validate_profile_by_visit w profile).
Proof.
  pose proof (any_visible_browsing (S:=state) w profile_indicators 2000) as Hv.
  unfold _validate_profile_by_visit. rewrite simulate_scroll_discoverer.
  browse.
Qed.

Lemma process_profile_browsing profile existing_urls :
  emits browsing (_process_profile w profile existing_urls).
Proof.
  pose proof (validate_profile_by_visit_browsing profile) as Hv.
  unfold _process_profile, add_duplicate, add_validation_error. browse.
Qed.

Lemma process_profiles_browsing max_prospects existing_urls profiles :
  emits browsing (process_profiles w max_prospects existing_urls profiles).
Proof.
  induction profiles as [|profile rest IH]; simpl; [browse|].
  emits_step; [browse|]. emits_step; [browse|].
  emits_step; [apply process_profile_browsing|].
  emits_step; [unfold append_prospect; browse|exact IH].
Qed.

Lemma job_title_loop_browsing max_prospects max_searches existing_urls search :
  (forall x, emits browsing (search x)) ->
  forall titles search_count,
  emits browsing (job_title_loop w max_prospects max_searches existing_urls
                                 search titles search_count).
Proof.
  intros Hs. induction titles as [|job rest IH]; intros search_count; simpl;
    [browse|].
  emits_step; [browse|]. emits_step; [browse|].
  emits_step; [apply Hs|].
  emits_step; [apply process_profiles_browsing|].
  emits_step; [browse|apply IH].
Qed.

Lemma outer_loop_browsing max_prospects max_searches existing_urls search :
  (forall x y, emits browsing (search x y)) ->
  forall outer titles search_count,
  emits browsing (outer_loop w max_prospects max_searches existing_urls
                             search outer titles search_count).
Proof.
  intros Hs. induction outer as [|x rest IH]; intros titles search_count;
    simpl; [browse|].
  emits_step; [browse|]. emits_step; [browse|].
  emits_step; [apply job_title_loop_browsing; apply Hs|intros; apply IH].
Qed.

Lemma discover_prospects_browsing max_prospects :
  emits browsing (discover_prospects w cfg max_prospects).
Proof.
  unfold discover_prospects, load_prospects, set_discovered, strategies.
  emits_step; [browse|]. emits_step; [browse|].
  emits_step.
  { apply outer_loop_browsing. intros x y. apply emits_zoom.
    unfold SearchStrategies.search_by_job_title_and_location.
    emits_step; [browse|apply search_browsing]. }
  emits_step; [browse|]. emits_step; [|browse].
  emits_step; [|browse].
  emits_step; [|browse].
  apply outer_loop_browsing. intros x y. apply emits_zoom.
  unfold SearchStrategies.search_by_company_and_job_title.
  emits_step; [browse|apply search_browsing].
Qed.

End DiscovererEffects.

(** ** What a discovery writes *)

Definition save_call : string := "ProspectDiscoverer.save_prospects".
Definition workflow_call : string := "ProspectDiscoverer.run_discovery_workflow".
Definition phase_call : string := "DiscoveryWorkflow._run_discovery_phase".

Lemma browsing_no_write ps t :
  Forall browsing t -> In (EWriteProspects ps) t -> False.
Proof.
  intros F Hin. apply (proj1 (List.Forall_forall _ _) F) in Hin. exact Hin.
Qed.

Section DiscovererWrites.
Import ProspectDiscoverer.
Variables (w : world) (cfg : search_config).

Lemma save_prospects_run prospects h s r s' t :
  save_prospects w prospects h s = (r, s', t) ->
  r = Ok tt /\ s' = s
  /\ t = [ECall save_call; ELoadProspects;
          EWriteProspects
            (unique_loop (stored_prospects w (h ++ [ECall save_call])
                          ++ prospects) ∅ [])].
Proof.
  unfold save_prospects, load_prospects. intros H.
  runs_inv; repeat match goal with u : unit |- _ => destruct u end;
    repeat split; reflexivity.
Qed.


Lemma run_discovery_workflow_run max_prospects h s r s' t :
  run_discovery_workflow w cfg max_prospects h s = (r, s', t) ->
  exists new td,
    Forall (admitted (persisted_urls w (h ++ [ECall workflow_call]))) new
    /\ Forall browsing td
    /\ discovered_prospects s'
       = _final_validation_and_deduplication (discovered_prospects s ++ new)
    /\ t = (ECall workflow_call :: td ++ [ECall save_call])
           ++ ELoadProspects
           :: [EWriteProspects
                 (unique_loop
                    (stored_prospects
                       w (h ++ ECall workflow_call :: td ++ [ECall save_call])
                     ++ discovered_prospects s') ∅ [])]
    /\ r = Ok (Some {| prospects_found := length (discovered_prospects s');
                       summary_duplicates_found := duplicates_found s';
                       summary_validation_errors := validation_errors s' |}).
Proof.
  unfold run_discovery_workflow. intros H. runs_inv;
    repeat match goal with
           | H : discover_prospects _ _ _ ?h0 ?s0 = _ |- _ =>
               pose proof (discover_prospects_browsing w cfg max_prospects
                             h0 s0) as B;
               rewrite H in B; unfold trace_of in B; cbn [snd] in B;
               apply discover_prospects_run in H;
               destruct H as (new & Hnew & ? & Hd & ? & ?); simplify_eq
           | H : save_prospects _ _ _ _ = _ |- _ =>
               apply save_prospects_run in H;
               destruct H as (? & ? & ?); simplify_eq
           end.
  exists new. eexists. split; [exact Hnew|]. split; [exact B|].
  split; [exact Hd|]. rewrite <- Hd. split; [|reflexivity].
  simpl. rewrite <- !app_assoc. simpl. reflexivity.
Qed.

Lemma workflow_write_inv c1 c2 td x ps :
  Forall browsing td ->
  In (EWriteProspects ps)
     ((ECall c1 :: td ++ [ECall c2]) ++ ELoadProspects :: [EWriteProspects x]) ->
  ps = x.
Proof.
  intros B Hin. apply in_app_iff in Hin. destruct Hin as [Hin|Hin].
  - destruct Hin as [Hin|Hin]; [discriminate Hin|].
    apply in_app_iff in Hin. destruct Hin as [Hin|Hin].
    + destruct (browsing_no_write _ _ B Hin).
    + destruct Hin as [Hin|[]]. discriminate Hin.
  - destruct Hin as [Hin|[Hin|[]]]; [discriminate Hin|].
    injection Hin as ->. reflexivity.
Qed.

Lemma run_discovery_phase_run max_prospects h s r s' t :
  DiscoveryWorkflow._run_discovery_phase w cfg max_prospects h s = (r, s', t) ->
  exists new td,
    Forall (admitted (persisted_urls w (h ++ [ECall phase_call]))) new
    /\ Forall browsing td
    /\ discovered_prospects s'
       = _final_validation_and_deduplication (discovered_prospects s ++ new)
    /\ t = ECall phase_call :: td
           ++ match discovered_prospects s' with
              | [] => []
              | _ => [EWriteProspects (discovered_prospects s')]
              end
    /\ r = Ok {| prospects_found := length (discovered_prospects s');
                 summary_duplicates_found := duplicates_found s';
                 summary_validation_errors := validation_errors s' |}.
Proof.
  unfold DiscoveryWorkflow._run_discovery_phase. intros H. runs_inv;
    repeat match goal with
           | H : discover_prospects _ _ _ ?h0 ?s0 = _ |- _ =>
               pose proof (discover_prospects_browsing w cfg max_prospects
                             h0 s0) as B;
               rewrite H in B; unfold trace_of in B; cbn [snd] in B;
               apply discover_prospects_run in H;
               destruct H as (new & Hnew & ? & Hd & ? & ?); simplify_eq
           end.
  all: exists new; eexists; (split; [exact Hnew|]); (split; [exact B|]);
    (split; [exact Hd|]).
  all: rewrite Hd;
    first [ match goal with H : [] = _ |- _ => rewrite <- H end
          | match goal with H : _ :: _ = _ |- _ => rewrite <- H end ];
    simpl; rewrite ?app_nil_r; split; reflexivity.
Qed.

End DiscovererWrites.

Lemma final_origin existing_urls old new p :
  Forall (admitted existing_urls) new ->
  p ∈ ProspectDiscoverer._final_validation_and_deduplication (old ++ new) ->
  p ∈ old \/ url_of p ∉ existing_urls.
Proof.
  intros Hnew Hp.
  destruct (final_validation_spec (old ++ new)) as [_ Hf].
  destruct (Hf p Hp) as [Hin _]. apply elem_of_app in Hin.
  destruct Hin as [Hin|Hin]; [auto|].
  destruct (proj1 (Forall_forall _ _) Hnew p Hin) as (_ & _ & Hn). auto.
Qed.

Lemma unique_loop_nodup all_prospects :
  NoDup (map url_of (ProspectDiscoverer.unique_loop all_prospects ∅ [])).
Proof.
  destruct (unique_loop_spec all_prospects ∅ []) as [H _].
  - constructor.
  - intros p Hp. apply elem_of_nil in Hp. destruct Hp.
  - exact H.
Qed.

(** ** A result page that lists one profile twice *)

(** Every result item links to the profile of Jane Doe, a recruiter in
    Ghent; the page lists two items, and the prospects file is empty. *)
Definition recruiters_page : world := {|
  page_goto := fun _ _ => Ok tt;
  page_scroll := fun _ => Ok tt;
  page_title := fun _ => Ok "Jane Doe | LinkedIn";
  page_wait_for_selector := fun _ _ => Ok tt;
  is_visible := fun _ _ => Ok true;
  inner_text := fun _ l =>
    match l with
    | First (SubLocator _ sel) =>
        if String.eqb sel ".entity-result__primary-subtitle"
        then Ok "Recruiter"
        else if String.eqb sel ".entity-result__secondary-subtitle"
        then Ok "Ghent, Belgium"
        else Ok "Jane Doe"
    | _ => Ok "ACME"
    end;
  get_attribute := fun _ _ _ => Ok (Some jane_url);
  all := fun _ _ => Ok 2;
  closest := fun _ _ => Ok true;
  click := fun _ _ => Ok tt;
  type_char := fun _ _ _ => Ok tt;
  keyboard_press := fun _ _ => Ok tt;
  keyboard_type := fun _ _ => Ok tt;
  mouse_move := fun _ _ _ => Ok tt;
  viewport_size := None;
  randint := fun _ lo _ => lo;
  load_selectors_config := fun _ => Ok tt;
  create_personalized_prompt := fun _ => "prompt";
  chat_completion := fun _ _ => Ok (Content "Hello Jane");
  generate_fallback_message := fun _ _ => "Hi there";
  time_time := fun h => inject_Z (Z.of_nat (length h));
  stored_prospects := fun _ => [];
  write_prospects := fun _ => Ok tt;
  re_sub_dates := fun s => s
|}.

(** One search: recruiters in Ghent. *)
Definition one_search : search_config := {|
  locations := ["Ghent"];
  job_titles := ["Recruiter"];
  companies := [];
  max_searches_per_session := 1;
  job_title_search_enabled := true;
  company_search_enabled := false
|}.

(** The discoverer as [__init__] leaves it. *)
Definition fresh_discoverer : ProspectDiscoverer.state := {|
  ProspectDiscoverer.discovered_prospects := [];
  ProspectDiscoverer.duplicates_found := 0;
  ProspectDiscoverer.validation_errors := 0
|}.

(** The discovery on that page. *)
Definition twice_listed
  : outcome (list prospect) * ProspectDiscoverer.state * list event :=
  ProspectDiscoverer.discover_prospects recruiters_page one_search 10 []
                                        fresh_discoverer.

(** * Discovery: deduplication and validation *)

(** C4, as the code has it.  A discovery returns, and leaves in the
    accumulator, a list in which no two prospects have the same URL, and
    each of them that the run added has a URL that is not in the prospects
    file read at the start.  [_process_profile] rejects an entry whose URL
    is in that file and counts it as a duplicate, without going further; it
    is given the URLs of the file only, so what a run collects twice goes
    through, and the final pass removes it.  Every list written to the
    prospects file, by [save_prospects], [run_discovery_workflow] or
    [_run_discovery_phase], holds each URL once. *)
Theorem discovery_deduplicates (w : world) (cfg : search_config)
    (max_prospects : Z) (h : history) (s : ProspectDiscoverer.state) :
  let run := ProspectDiscoverer.discover_prospects w cfg max_prospects h s in
  (exists out,
      result_of run = Ok out
      /\ ProspectDiscoverer.discovered_prospects (state_of run) = out
      /\ NoDup (map url_of out)
      /\ forall p, p ∈ out ->
                   p ∈ ProspectDiscoverer.discovered_prospects s
                   \/ url_of p ∉ persisted_urls w h)
  /\ (forall profile existing_urls h' s',
         is_Some (profile !! "linkedin_url") ->
         url_of profile ∈ existing_urls ->
         let step :=
           ProspectDiscoverer._process_profile w profile existing_urls h' s' in
         result_of step = Ok false
         /\ trace_of step = [ECall "ProspectDiscoverer._process_profile"]
         /\ ProspectDiscoverer.discovered_prospects (state_of step)
            = ProspectDiscoverer.discovered_prospects s'
         /\ ProspectDiscoverer.duplicates_found (state_of step)
            = S (ProspectDiscoverer.duplicates_found s'))
  /\ (forall prospects ps,
         In (EWriteProspects ps)
            (trace_of (ProspectDiscoverer.save_prospects w prospects h s)) ->
         NoDup (map url_of ps))
  /\ (forall ps,
         In (EWriteProspects ps)
            (trace_of (ProspectDiscoverer.run_discovery_workflow
                         w cfg max_prospects h s)) ->
         NoDup (map url_of ps))
  /\ (forall ps,
         In (EWriteProspects ps)
            (trace_of (DiscoveryWorkflow._run_discovery_phase
                         w cfg max_prospects h s)) ->
         NoDup (map url_of ps)).
Proof.
  cbv zeta. split; [|split; [|split; [|split]]].
  - pose proof (run_eta (ProspectDiscoverer.discover_prospects
                           w cfg max_prospects) h s) as E.
    apply discover_prospects_run in E.
    destruct E as (new & Hnew & Hr & Hd & _).
    eexists. split; [exact Hr|]. split; [exact Hd|].
    split; [apply final_validation_spec|].
    intros p Hp. eapply final_origin; eassumption.
  - intros profile existing_urls h' s' Hsome Hin.
    pose proof (run_eta (ProspectDiscoverer._process_profile
                           w profile existing_urls) h' s') as E.
    apply process_profile_run in E.
    destruct E as (Hd & b & Hr & _ & Hdup).
    destruct (Hdup Hin Hsome) as (-> & Hc & _ & Ht).
    auto.
  - intros prospects ps Hin.
    pose proof (run_eta (ProspectDiscoverer.save_prospects w prospects) h s)
      as E.
    apply save_prospects_run in E. destruct E as (_ & _ & Ht).
    rewrite Ht in Hin.
    destruct Hin as [Hin|[Hin|[Hin|[]]]]; try discriminate Hin.
    injection Hin as <-. apply unique_loop_nodup.
  - intros ps Hin.
    pose proof (run_eta (ProspectDiscoverer.run_discovery_workflow
                           w cfg max_prospects) h s) as E.
    apply run_discovery_workflow_run in E.
    destruct E as (new & td & _ & B & _ & Ht & _).
    rewrite Ht in Hin. apply (workflow_write_inv _ _ _ _ _ B) in Hin.
    subst ps. apply unique_loop_nodup.
  - intros ps Hin.
    pose proof (run_eta (DiscoveryWorkflow._run_discovery_phase
                           w cfg max_prospects) h s) as E.
    apply run_discovery_phase_run in E.
    destruct E as (new & td & _ & B & Hd & Ht & _).
    rewrite Ht in Hin. destruct Hin as [Hin|Hin]; [discriminate Hin|].
    apply in_app_iff in Hin. destruct Hin as [Hin|Hin].
    + destruct (browsing_no_write _ _ B Hin).
    + destruct (ProspectDiscoverer.discovered_prospects
                  (state_of (DiscoveryWorkflow._run_discovery_phase
                               w cfg max_prospects h s))) eqn:Hs;
        [destruct Hin|].
      destruct Hin as [Hin|[]]. injection Hin as <-.
      rewrite Hd. apply final_validation_spec.
Qed.

(** Against the incremental half of C4: the accumulator is not consulted.
    With Jane Doe already in the accumulator, [_process_profile] accepts
    her profile again; and on a result page that lists her twice, the
    discovery visits her profile twice and counts no duplicate, the list it
    returns holding her once after the final pass. *)
Lemma in_run_duplicate_accepted :
  result_of (ProspectDiscoverer._process_profile
               recruiters_page jane_prospect ∅ []
               {| ProspectDiscoverer.discovered_prospects := [jane_prospect];
                  ProspectDiscoverer.duplicates_found := 0;
                  ProspectDiscoverer.validation_errors := 0 |})
  = Ok true
  /\ count (is_call "ProspectDiscoverer._validate_profile_by_visit")
           (trace_of twice_listed) = 2
  /\ ProspectDiscoverer.duplicates_found (state_of twice_listed) = 0
  /\ result_of twice_listed = Ok [jane_prospect].
Proof. vm_compute. auto. Qed.



(** * Further properties of the connection manager *)

Definition is_click (e : event) : bool :=
  match e with EClick _ _ => true | _ => false end.




Section ConnectionFacts.
Import ConnectionManager.
Variable w : world.



End ConnectionFacts.


(** [send_connection_request] never raises: whatever fails on the page, in
    the configuration or in the chat service, a result comes back.  The
    result names the profile it was asked for, its [retry_count] is 0 (the
    field is never assigned again), its [time_taken] is 0 unless the request
    was sent, and the profile data of the scraper are as before. *)
Theorem attempt_always_answers (w : world) (url : string) (p : prospect)
    (h : history) (s : ConnectionManager.state) :
  let run := ConnectionManager.send_connection_request w url p h s in
  exists res,
    result_of run = Ok res
    /\ ConnectionManager.profile_url res = url
    /\ ConnectionManager.retry_count res = 0
    /\ (ConnectionManager.success res = false ->
        ConnectionManager.time_taken res = 0%Q)
    /\ ConnectionManager.profile_data (state_of run)
       = ConnectionManager.profile_data s.
Proof.
  cbv zeta.
  pose proof (run_eta (ConnectionManager.send_connection_request w url p) h s)
    as E.
  apply send_connection_request_run in E. destruct E as (res & Hr & Ha).
  exists res. split; [exact Hr|].
  pose proof (attempt_run_state _ _ _ _ _ _ _ Ha) as Hs.
  repeat split; [| | |exact Hs];
    destruct Ha as [e He|e He|Hi|gm tg rl sl tl res0 rest Hi Hg Hl Hal];
    try reflexivity;
    destruct Hal; try reflexivity; discriminate.
Qed.

(** An attempt of a manager whose scraper holds insufficient data. *)
Lemma insufficient_attempt w url h s res s' t :
  attempt_run w url h s res s' t ->
  sufficient (ConnectionManager.profile_data s) = false ->
  ConnectionManager.success res = false
  /\ count is_generate t = 0 /\ count is_click t = 0
  /\ count is_lookup t = 0.
Proof.
  intros [e He|e He|Hi|gm tg rl sl tl res0 rest Hi Hg Hl Hal] Hs.
  - repeat split; reflexivity.
  - repeat split; reflexivity.
  - repeat split; reflexivity.
  - rewrite Hi in Hs. discriminate Hs.
Qed.

Lemma bulk_loop_insufficient w max ps :
  forall i succ results h s r s' t,
  ConnectionManager.bulk_loop w max ps i succ results h s = (r, s', t) ->
  sufficient (ConnectionManager.profile_data s) = false ->
  Forall has_url ps ->
  Forall (fun r => ConnectionManager.success r = false) results ->
  exists rs,
    r = Ok rs
    /\ Forall (fun r => ConnectionManager.success r = false) rs
    /\ count is_generate t = 0 /\ count is_click t = 0
    /\ count is_lookup t = 0.
Proof.
  induction ps as [|p rest IH]; intros i succ results h s r s' t H Hs Hu Hf;
    simpl in H.
  - runs_inv. exists results. repeat split; auto.
  - inversion Hu as [|? ? [url Hp] Hrest]; subst. rewrite Hp in H.
    runs_inv;
      repeat match goal with
             | H : ConnectionManager.send_connection_request _ _ _ _ _ = _
               |- _ =>
                 apply send_connection_request_run in H;
                 destruct H as (res & ? & Ha); simplify_eq;
                 pose proof (attempt_run_state _ _ _ _ _ _ _ Ha) as Hst;
                 destruct (insufficient_attempt _ _ _ _ _ _ _ Ha Hs)
                   as (Hfail & G1 & G2 & G3)
             end;
      try (exists results; repeat split; auto; fail).
    all: apply IH in H;
      [|rewrite Hst; exact Hs|exact Hrest
       |apply Forall_app; split; [exact Hf|repeat constructor; exact Hfail]].
    all: destruct H as (rs & -> & Hrs & C1 & C2 & C3); exists rs;
      rewrite !count_app, G1, G2, G3, C1, C2, C3; repeat split; auto.
Qed.

(** A manager whose scraper holds insufficient profile data sends nothing.
    As [extract_profile_data] extracts nothing, the data stay insufficient
    through a bulk run: every result has [success] false, no message is
    generated, no Connect control is looked for and nothing is clicked.  The
    scraper of a new manager holds the empty [ProfileData()]. *)
Theorem insufficient_data_never_sends (w : world) (prospects : list prospect)
    (max : Z) (h : history) (s : ConnectionManager.state) :
  sufficient (ConnectionManager.profile_data s) = false ->
  Forall has_url prospects ->
  let run := ConnectionManager.send_bulk_requests w prospects max h s in
  exists results,
    result_of run = Ok results
    /\ Forall (fun r => ConnectionManager.success r = false) results
    /\ count is_generate (trace_of run) = 0
    /\ count is_lookup (trace_of run) = 0
    /\ count is_click (trace_of run) = 0.
Proof.
  intros Hs Hu. cbv zeta.
  pose proof (run_eta (ConnectionManager.send_bulk_requests w prospects max)
                      h s) as E.
  unfold ConnectionManager.send_bulk_requests in E at 1.
  runs_inv.
  match goal with
  | H : ConnectionManager.bulk_loop _ _ _ _ _ _ _ _ = _ |- _ =>
      apply bulk_loop_insufficient in H;
      [destruct H as (rs & ? & Hrs & C1 & C2 & C3)
      |exact Hs
      |unfold ConnectionManager.slice_to;
       destruct (0 <=? max)%Z; apply Forall_take; exact Hu
      |constructor]
  end.
  simplify_eq. exists rs.
  match goal with
  | H : trace_of _ = _ |- _ => rewrite H
  end.
  rewrite !count_app, C1, C2, C3. repeat split; auto.
Qed.

Lemma insufficient_data_never_sends_witness :
  exists results,
    result_of (ConnectionManager.send_bulk_requests
                 calm (replicate 2 jane_prospect) 9 [] fresh_manager)
    = Ok results
    /\ Forall (fun r => ConnectionManager.success r = false) results
    /\ count is_generate
         (trace_of (ConnectionManager.send_bulk_requests
                      calm (replicate 2 jane_prospect) 9 [] fresh_manager))
       = 0
    /\ count is_lookup
         (trace_of (ConnectionManager.send_bulk_requests
                      calm (replicate 2 jane_prospect) 9 [] fresh_manager))
       = 0
    /\ count is_click
         (trace_of (ConnectionManager.send_bulk_requests
                      calm (replicate 2 jane_prospect) 9 [] fresh_manager))
       = 0.
Proof.
  exact (insufficient_data_never_sends
           calm (replicate 2 jane_prospect) 9 [] fresh_manager eq_refl
           (Forall_replicate has_url 2 jane_prospect jane_prospect_has_url)).
Defined.

Lemma bulk_loop_missing_url w max p rest pre :
  p !! "linkedin_url" = None ->
  forall i succ results h s r s' t,
  ConnectionManager.bulk_loop w max (pre ++ p :: rest) i succ results h s
  = (r, s', t) ->
  Forall has_url pre ->
  (succ <= Z.of_nat i)%Z ->
  (Z.of_nat (i + length pre) < max)%Z ->
  r = Raise "'linkedin_url'".
Proof.
  intros Hp.
  induction pre as [|q pre IH]; intros i succ results h s r s' t H Hu Hle Hlt;
    simpl in H.
  - rewrite Hp in H.
    destruct (Z.leb_spec max succ) as [Hge|_]; [simpl in Hlt; lia|].
    runs_inv; reflexivity.
  - inversion Hu as [|? ? [url Hq] Hpre]; subst. rewrite Hq in H.
    destruct (Z.leb_spec max succ) as [Hge|_]; [simpl in Hlt; lia|].
    runs_inv;
      repeat match goal with
             | H : ConnectionManager.send_connection_request _ _ _ _ _ = _
               |- _ =>
                 apply send_connection_request_run in H;
                 destruct H as (res & ? & Ha); simplify_eq
             end.
    all: eapply IH; [eassumption|exact Hpre| |simpl in Hlt; lia].
    all: destruct (ConnectionManager.success res); lia.
Qed.

(** A prospect without the key [linkedin_url] aborts a bulk run.  When the
    prospects before it carry their URL and it stands within the cap,
    [send_bulk_requests] raises the [KeyError] of [prospect['linkedin_url']]:
    the results of the attempts made so far are not returned. *)
Theorem bulk_missing_url_raises (w : world) (pre : list prospect)
    (p : prospect) (post : list prospect) (max : Z) (h : history)
    (s : ConnectionManager.state) :
  Forall has_url pre ->
  p !! "linkedin_url" = None ->
  (Z.of_nat (length pre) < max)%Z ->
  result_of (ConnectionManager.send_bulk_requests w (pre ++ p :: post) max h s)
  = Raise "'linkedin_url'".
Proof.
  intros Hu Hp Hlt.
  pose proof (run_eta (ConnectionManager.send_bulk_requests
                         w (pre ++ p :: post) max) h s) as E.
  unfold ConnectionManager.send_bulk_requests in E at 1.
  unfold ConnectionManager.slice_to in E.
  destruct (Z.leb_spec 0 max) as [_|Hneg]; [|lia].
  assert (Hslice : firstn (Z.to_nat max) (pre ++ p :: post)
                   = pre ++ p :: firstn (Z.to_nat max - length pre - 1) post).
  { rewrite firstn_app, firstn_all2 by lia.
    replace (Z.to_nat max - length pre)
      with (Datatypes.S (Z.to_nat max - length pre - 1)) by lia.
    simpl. do 3 f_equal. lia. }
  rewrite Hslice in E.
  runs_inv;
    match goal with
    | H : ConnectionManager.bulk_loop _ _ _ _ _ _ _ _ = _ |- _ =>
        eapply bulk_loop_missing_url in H;
        [|exact Hp|exact Hu|simpl; lia|simpl; lia]
    end; congruence.
Qed.

(** A prospect that carries only a name. *)
Definition nameless_url : prospect := <[ "name" := "Jane Doe" ]> ∅.

Lemma bulk_missing_url_raises_witness :
  result_of (ConnectionManager.send_bulk_requests
               calm (replicate 2 jane_prospect ++ nameless_url :: []) 9 []
               fresh_manager)
  = Raise "'linkedin_url'".
Proof.
  apply (bulk_missing_url_raises calm (replicate 2 jane_prospect)
           nameless_url [] 9 [] fresh_manager).
  - exact (Forall_replicate has_url 2 jane_prospect jane_prospect_has_url).
  - reflexivity.
  - simpl. lia.
Defined.
